(** * Leave and attendance request service: a shallow embedding

    This development embeds [my-app/app/main.py] (the HTTP handlers of the
    vacation and attendance demo) and proves properties of its handlers.

    Conventions of the embedding:
    - a Python [str] is a [string] of 8-bit characters, exact for ASCII
      text; the digits of the date format are the ASCII digits; a JSON
      value decoded by [json.loads] is a [json]; Python [int]s are [Z];
    - the dicts that the service itself builds (users of the seed, leave
      requests, attendance corrections) are Rocq records; the fields that
      the handlers copy from the request payload keep the type [json],
      because the code stores whatever value the payload carries;
    - an uncaught Python exception is the [Raise] branch of [result];
    - the data file is explicit state, threaded through the monad [M]; the
      lock around each file access is not modelled, the handlers run one
      at a time;
    - the clock ([datetime.utcnow]) is an input of the handlers. *)

From Stdlib Require Import ZArith String Ascii List Floats Lia Bool.
From stdpp Require Import gmap strings list fin_maps.

Local Open Scope string_scope.
Local Open Scope Z_scope.

(** ** JSON values and Python truthiness *)

#[local] Unset Elimination Schemes.
Inductive json : Type :=
  | JNull
  | JBool (b : bool)
  | JInt (n : Z)
  | JFloat (x : float)
  | JStr (s : string)
  | JList (items : list json)
  | JDict (fields : gmap string json).
#[local] Set Elimination Schemes.

(** [bool(v)] for a decoded JSON value: [None], [False], zero, the empty
    string, the empty list and the empty dict are falsy. *)
Definition truthy (v : json) : bool :=
  match v with
  | JNull => false
  | JBool b => b
  | JInt n => negb (n =? 0)
  | JFloat x => negb (PrimFloat.eqb x 0%float)
  | JStr s => negb (String.eqb s "")
  | JList l => match l with [] => false | _ :: _ => true end
  | JDict m => negb (bool_decide (m = ∅))
  end.

(** Truthiness of a Python [str]. *)
Definition nonempty (s : string) : bool := negb (String.eqb s "").

(** ** Exceptions and results *)

Inductive exn : Type :=
  | ValueError
  | TypeError
  | KeyError
  | AttributeError
  | FileNotFoundError
  | UnicodeDecodeError
  | JSONDecodeError.

Inductive result (A : Type) : Type :=
  | Ok (a : A)
  | Raise (e : exn).
Arguments Ok {A} a.
Arguments Raise {A} e.

(** ** Calendar dates: [datetime.date] and [strptime(value, "%Y-%m-%d")] *)

Module Date.

Record date : Type := mkdate { year : Z; month : Z; day : Z }.

Definition _is_leap (y : Z) : bool :=
  (y mod 4 =? 0) && (negb (y mod 100 =? 0) || (y mod 400 =? 0)).

Definition _DAYS_IN_MONTH (m : Z) : Z :=
  match m with
  | 1 => 31 | 2 => 28 | 3 => 31 | 4 => 30 | 5 => 31 | 6 => 30
  | 7 => 31 | 8 => 31 | 9 => 30 | 10 => 31 | 11 => 30 | 12 => 31
  | _ => -1
  end.

Definition _DAYS_BEFORE_MONTH (m : Z) : Z :=
  match m with
  | 1 => 0 | 2 => 31 | 3 => 59 | 4 => 90 | 5 => 120 | 6 => 151
  | 7 => 181 | 8 => 212 | 9 => 243 | 10 => 273 | 11 => 304 | 12 => 334
  | _ => -1
  end.

Definition _days_before_year (y : Z) : Z :=
  let y' := y - 1 in y' * 365 + y' / 4 - y' / 100 + y' / 400.

Definition _days_in_month (y m : Z) : Z :=
  if (m =? 2) && _is_leap y then 29 else _DAYS_IN_MONTH m.

Definition _days_before_month (y m : Z) : Z :=
  _DAYS_BEFORE_MONTH m + (if (2 <? m) && _is_leap y then 1 else 0).

Definition _ymd2ord (y m d : Z) : Z :=
  _days_before_year y + _days_before_month y m + d.

Definition toordinal (d : date) : Z := _ymd2ord (year d) (month d) (day d).

(** [date(y, m, d)]: the constructor checks its fields (MINYEAR = 1,
    MAXYEAR = 9999). *)
Definition valid (y m d : Z) : bool :=
  (1 <=? y) && (y <=? 9999) && (1 <=? m) && (m <=? 12)
  && (1 <=? d) && (d <=? _days_in_month y m).

(** [a < b] on dates compares (year, month, day) lexicographically. *)
Definition ltb (a b : date) : bool :=
  (year a <? year b)
  || ((year a =? year b)
      && ((month a <? month b)
          || ((month a =? month b) && (day a <? day b)))).

(** [a <= b] *)
Definition leb (a b : date) : bool := negb (ltb b a).

(** [(a - b).days] *)
Definition diff_days (a b : date) : Z := toordinal a - toordinal b.

(** *** The format regex of ["%Y-%m-%d"]

    [_strptime] compiles the format to
    [(?P<Y>\d\d\d\d)-(?P<m>1[0-2]|0[1-9]|[1-9])-(?P<d>3[0-1]|[1-2]\d|0[1-9]|[1-9]| [1-9])],
    matches it at the start of the value, and then refuses values with
    unconverted data after the match.  Digits are the ASCII digits: [\d]
    of a str pattern also matches the decimal digits of other scripts
    (full-width digits, say), which [digit] does not, so on a value with
    characters outside ASCII [strptime] here may raise where the source
    parses.  A value that parses here parses in the source, to the same
    date; the theorems that conclude from a failed parse ask for a value
    of ASCII characters. *)

Definition digit (c : ascii) : option Z :=
  let n := Z.of_N (N_of_ascii c) in
  if (48 <=? n) && (n <=? 57) then Some (n - 48) else None.

Definition digit_in (lo hi : Z) (c : ascii) : option Z :=
  match digit c with
  | Some n => if (lo <=? n) && (n <=? hi) then Some n else None
  | None => None
  end.

Definition parser (A : Type) : Type := list ascii -> option (A * list ascii).

(** [\d\d\d\d] *)
Definition re_Y : parser Z := fun cs =>
  match cs with
  | a :: b :: c :: d :: rest =>
      match digit a, digit b, digit c, digit d with
      | Some a, Some b, Some c, Some d =>
          Some (1000 * a + 100 * b + 10 * c + d, rest)
      | _, _, _, _ => None
      end
  | _ => None
  end.

(** An alternative of two digits, each in its own range. *)
Definition two (lo1 hi1 lo2 hi2 : Z) : parser Z := fun cs =>
  match cs with
  | a :: b :: rest =>
      match digit_in lo1 hi1 a, digit_in lo2 hi2 b with
      | Some a, Some b => Some (10 * a + b, rest)
      | _, _ => None
      end
  | _ => None
  end.

Definition one (lo hi : Z) : parser Z := fun cs =>
  match cs with
  | a :: rest =>
      match digit_in lo hi a with
      | Some a => Some (a, rest)
      | None => None
      end
  | [] => None
  end.

Definition space_one (lo hi : Z) : parser Z := fun cs =>
  match cs with
  | " "%char :: rest => one lo hi rest
  | _ => None
  end.

(** [1[0-2]|0[1-9]|[1-9]] *)
Definition re_m : list (parser Z) := [two 1 1 0 2; two 0 0 1 9; one 1 9].

(** [3[0-1]|[1-2]\d|0[1-9]|[1-9]| [1-9]] *)
Definition re_d : list (parser Z) :=
  [two 3 3 0 1; two 1 2 0 9; two 0 0 1 9; one 1 9; space_one 1 9].

Definition dash {B : Type} (k : list ascii -> option B) (cs : list ascii)
  : option B :=
  match cs with
  | "-"%char :: rest => k rest
  | _ => None
  end.

(** Ordered alternation with backtracking: the first alternative after
    which the rest of the pattern [k] matches. *)
Fixpoint alt {A B : Type} (ps : list (parser A))
    (k : A -> list ascii -> option B) (cs : list ascii) : option B :=
  match ps with
  | [] => None
  | p :: ps' =>
      match p cs with
      | Some (a, rest) =>
          match k a rest with
          | Some b => Some b
          | None => alt ps' k cs
          end
      | None => alt ps' k cs
      end
  end.

(** [format_regex.match(value)]: the groups and the unmatched suffix. *)
Definition re_match (cs : list ascii) : option (Z * Z * Z * list ascii) :=
  match re_Y cs with
  | Some (y, r1) =>
      dash (alt re_m (fun m => dash (alt re_d (fun d r3 => Some (y, m, d, r3))))) r1
  | None => None
  end.

(** [datetime.strptime(value, "%Y-%m-%d").date()] on a [str]. *)
Definition strptime (value : string) : result date :=
  match re_match (list_ascii_of_string value) with
  | Some (y, m, d, []) =>
      if valid y m d then Ok (mkdate y m d) else Raise ValueError
  | Some (_, _, _, _ :: _) => Raise ValueError
  | None => Raise ValueError
  end.

End Date.

(** [parse_date(value)]: [strptime] wants a [str] and raises [TypeError]
    for any other value, [ValueError] for a string that is not a date. *)
Definition parse_date (value : json) : result Date.date :=
  match value with
  | JStr s => Date.strptime s
  | _ => Raise TypeError
  end.

(** ** Data model

    The dicts of the persisted document, as records.  [u_], [lv_] and [ac_]
    prefix the keys of a user, a leave request and an attendance
    correction. *)

Record User : Type := mkUser {
  u_id : string;
  u_name : string;
  u_role : string;
  u_department : string;
  u_manager_id : option string;
  u_annual_leave_allowance : Z
}.

Record LeaveRequest : Type := mkLeave {
  lv_id : string;
  lv_user_id : string;
  lv_employee_name : string;
  lv_department : string;
  lv_leave_type : json;
  lv_start_date : json;
  lv_end_date : json;
  lv_days : Z;
  lv_reason : json;
  lv_status : json;
  lv_approver_comment : json;
  lv_approved_by : string;
  lv_created_at : string
}.

Record AttendanceCorrection : Type := mkCorrection {
  ac_id : string;
  ac_user_id : string;
  ac_employee_name : string;
  ac_department : string;
  ac_date : json;
  ac_clock_in : json;
  ac_clock_out : json;
  ac_break_minutes : json;
  ac_overtime_hours : json;
  ac_reason : json;
  ac_status : json;
  ac_approver_comment : json;
  ac_approved_by : string;
  ac_created_at : string
}.

Record Dataset : Type := mkDataset {
  users : list User;
  leave_types : list string;
  holidays : list string;          (* data["work_calendar"]["holidays"] *)
  approval_routes : json;
  leave_requests : list LeaveRequest;
  attendance_corrections : list AttendanceCorrection
}.

Definition route (dept mgr : string) : json :=
  JDict (<["department" := JStr dept]> (<["manager_id" := JStr mgr]> ∅)).

Definition SEED : Dataset := {|
  users := [
    mkUser "e001" "Alice Tanaka" "employee" "Sales" (Some "m001") 20;
    mkUser "e002" "Bob Suzuki" "employee" "Engineering" (Some "m002") 18;
    mkUser "m001" "Mika Yamada" "manager" "Sales" (Some "a001") 22;
    mkUser "m002" "Ryo Watanabe" "manager" "Engineering" (Some "a001") 22;
    mkUser "a001" "Admin Ito" "admin" "HQ" None 25 ];
  leave_types := ["Paid"; "Sick"; "Half-day"; "Special"];
  holidays := ["2025-01-01"; "2025-02-11"; "2025-04-29"; "2025-05-03"];
  approval_routes := JList [route "Sales" "m001"; route "Engineering" "m002"];
  leave_requests := [];
  attendance_corrections := []
|}.

(** [r["status"] == "approved"] and the like: a [str] equals no value of
    another type. *)
Definition eq_str (v : json) (s : string) : bool :=
  match v with
  | JStr t => String.eqb t s
  | _ => false
  end.

(** A record of either bucket, with the keys the handlers read from both. *)
Inductive item : Type :=
  | Leave (r : LeaveRequest)
  | Correction (c : AttendanceCorrection).

Definition item_id (it : item) : string :=
  match it with Leave r => lv_id r | Correction c => ac_id c end.

Definition item_user_id (it : item) : string :=
  match it with Leave r => lv_user_id r | Correction c => ac_user_id c end.

Definition item_status (it : item) : json :=
  match it with Leave r => lv_status r | Correction c => ac_status c end.

(** [item.get("start_date", item.get("date"))] *)
Definition item_start (it : item) : json :=
  match it with Leave r => lv_start_date r | Correction c => ac_date c end.

(** [item.get("end_date", item.get("date"))] *)
Definition item_end (it : item) : json :=
  match it with Leave r => lv_end_date r | Correction c => ac_date c end.

(** ** The data file

    [DATA_FILE] either does not exist ([None]) or holds some content.  The
    content is the JSON text that [json.dumps] writes for a dataset
    ([Document d]), or bytes that are not a JSON text ([Garbage b]).  JSON
    texts that do not have the shape of a dataset are outside the model:
    [Garbage b] is meant for bytes [b] that [json.loads] refuses, and
    [JsonText.cannot_parse] below is a test on [b] that is sufficient for
    that. *)

Inductive content : Type :=
  | Garbage (b : list Byte.byte)
  | Document (d : Dataset).

Definition file : Type := option content.

(** What [read_text] returns: the decoded text. *)
Inductive text : Type :=
  | NotJson (b : list Byte.byte)
  | JsonOf (d : Dataset).

Module Utf8.

Definition cont (b : Z) : bool := (128 <=? b) && (b <=? 191).

(** The range of the second byte depends on the lead byte: no overlong
    forms, no surrogates, nothing above U+10FFFF. *)
Definition second (lead b : Z) : bool :=
  if lead =? 224 then (160 <=? b) && (b <=? 191)
  else if lead =? 237 then (128 <=? b) && (b <=? 159)
  else if lead =? 240 then (144 <=? b) && (b <=? 191)
  else if lead =? 244 then (128 <=? b) && (b <=? 143)
  else cont b.

Fixpoint well_formed (bs : list Z) : bool :=
  match bs with
  | [] => true
  | b0 :: r0 =>
      if b0 <=? 127 then well_formed r0
      else if (194 <=? b0) && (b0 <=? 223) then
        match r0 with
        | b1 :: r1 => cont b1 && well_formed r1
        | _ => false
        end
      else if (224 <=? b0) && (b0 <=? 239) then
        match r0 with
        | b1 :: b2 :: r2 => second b0 b1 && cont b2 && well_formed r2
        | _ => false
        end
      else if (240 <=? b0) && (b0 <=? 244) then
        match r0 with
        | b1 :: b2 :: b3 :: r3 =>
            second b0 b1 && cont b2 && cont b3 && well_formed r3
        | _ => false
        end
      else false
  end.

(** Does [bytes.decode("utf-8")] (strict) succeed? *)
Definition decodes (b : list Byte.byte) : bool :=
  well_formed (map (fun x => Z.of_N (Byte.to_N x)) b).

End Utf8.

(** ** The monad of the handlers: the data file as state, exceptions *)

Definition M (A : Type) : Type := file -> file * result A.

Definition ret {A : Type} (a : A) : M A := fun f => (f, Ok a).

Definition bind {A B : Type} (m : M A) (k : A -> M B) : M B := fun f =>
  match m f with
  | (f', Ok a) => k a f'
  | (f', Raise e) => (f', Raise e)
  end.

Declare Scope M_scope.
Delimit Scope M_scope with M.
Bind Scope M_scope with M.
Notation "x ← y ; z" := (bind y (fun x => z))
  (at level 20, y at level 100, z at level 200, only parsing) : M_scope.
Local Open Scope M_scope.

Definition lift {A : Type} (r : result A) : M A := fun f => (f, r).

Definition exn_eqb (a b : exn) : bool :=
  match a, b with
  | ValueError, ValueError | TypeError, TypeError | KeyError, KeyError
  | AttributeError, AttributeError
  | FileNotFoundError, FileNotFoundError
  | UnicodeDecodeError, UnicodeDecodeError
  | JSONDecodeError, JSONDecodeError => true
  | _, _ => false
  end.

(** [try: m  except e: h] *)
Definition try_except {A : Type} (m : M A) (e : exn) (h : M A) : M A :=
  fun f =>
    match m f with
    | (f', Raise e') => if exn_eqb e e' then h f' else (f', Raise e')
    | ok => ok
    end.

(** [DATA_FILE.exists()] *)
Definition exists_ : M bool := fun f =>
  (f, Ok (match f with Some _ => true | None => false end)).

(** [DATA_FILE.write_text(json.dumps(d, ...), encoding="utf-8")].  The
    write does not fail here.  In the source it raises, after the file is
    emptied, when a str of the dataset has a lone surrogate, which UTF-8
    cannot encode; a str is held here as its UTF-8 encoding, so such a str
    is not a value of the model. *)
Definition write_text (d : Dataset) : M unit := fun _ =>
  (Some (Document d), Ok tt).

(** [DATA_FILE.read_text(encoding="utf-8")]: bytes that are not UTF-8 raise
    [UnicodeDecodeError].  [load_data] only reads a file that exists. *)
Definition read_text : M text := fun f =>
  match f with
  | Some (Document d) => (f, Ok (JsonOf d))
  | Some (Garbage b) =>
      (f, if Utf8.decodes b then Ok (NotJson b) else Raise UnicodeDecodeError)
  | None => (f, Raise FileNotFoundError)
  end.

(** [json.loads] on the text of the file: the text of a document gives the
    document, every other text of the model raises [JSONDecodeError]. *)
Definition json_loads (t : text) : result Dataset :=
  match t with
  | JsonOf d => Ok d
  | NotJson _ => Raise JSONDecodeError
  end.

Definition _deepcopy_seed : Dataset := SEED.

Definition load_data : M Dataset :=
  present ← exists_;
  _ ← (if present then ret tt else write_text SEED);
  try_except
    (t ← read_text; lift (json_loads t))
    JSONDecodeError
    (_ ← write_text SEED; ret _deepcopy_seed).

Definition save_data (data : Dataset) : M unit := write_text data.

(** ** Requests and responses *)

(** The two headers the handlers read; [None] is an absent header. *)
Record headers : Type := mkHeaders {
  x_user_id : option string;
  x_user_role : option string
}.

(** The request body as [read_json] sees it. *)
Inductive raw_body : Type :=
  | NoBody                 (* Content-Length absent or 0 *)
  | Malformed              (* bytes that json.loads rejects *)
  | Parsed (v : json).

(** [urllib.parse.parse_qs]: every key it returns has at least one value. *)
Definition query : Type := gmap string (string * list string).

(** [query.get(key, [default])[0]] *)
Definition query_get (q : query) (key default : string) : string :=
  match q !! key with
  | Some (v, _) => v
  | None => default
  end.

(** The two readings of [datetime.utcnow()] that a creation makes. *)
Record clock : Type := mkClock {
  stamp : string;     (* strftime("%Y%m%d%H%M%S%f") in generate_id *)
  isoformat : string  (* isoformat() for created_at *)
}.

Record report_row : Type := mkRow {
  row_employee_id : string;
  row_employee_name : string;
  row_department : string;
  row_leave_days_taken : Z;
  row_leave_days_remaining : Z
}.

Record report_filters : Type := mkFilters {
  f_start : string;
  f_end : string;
  f_department : string;
  f_employee : string
}.

Record report : Type := mkReport {
  leave_totals : list report_row;
  correction_count : Z;
  filters : report_filters
}.

Record export_row : Type := mkExport {
  csv_category : string;
  csv_employee_id : string;
  csv_employee_name : string;
  csv_department : string;
  csv_status : json;
  csv_start_date : json;
  csv_end_date : json;
  csv_days : Z;
  csv_leave_type : json;
  csv_reason : json;
  csv_approver_comment : json;
  csv_approved_by : string;
  csv_created_at : string
}.

(** The JSON documents the handlers send. *)
Inductive payload : Type :=
  | Failure (message : string)          (* {"ok": False, "message": m} *)
  | MissingFields (fields : list string)
      (* {"ok": False, "message": "Missing fields", "fields": fields} *)
  | Items (items : list item)           (* {"ok": True, "items": items} *)
  | OneItem (it : item)                 (* {"ok": True, "item": it} *)
  | Report (r : report)                 (* {"ok": True, "report": r} *)
  | Settings (d : Dataset).             (* {"ok": True, "settings": d} *)

Inductive response : Type :=
  | Json (status : Z) (p : payload)               (* respond_json *)
  | Csv (filename : string) (rows : list export_row).  (* respond_csv *)

(** ** Module-level helpers *)

Definition generate_id (prefix now : string) : string :=
  prefix +:+ "-" +:+ now.

(** [{u["id"]: u for u in data.get("users", [])}]: a later user with the
    same id replaces an earlier one. *)
Definition user_lookup (data : Dataset) : gmap string User :=
  foldl (fun m u => <[u_id u := u]> m) ∅ (users data).

(** A comprehension [[x for x in l if p(x)]] whose test may raise. *)
Fixpoint filter_r {A : Type} (p : A -> result bool) (l : list A)
  : result (list A) :=
  match l with
  | [] => Ok []
  | x :: l' =>
      match p x with
      | Raise e => Raise e
      | Ok b =>
          match filter_r p l' with
          | Raise e => Raise e
          | Ok r => Ok (if b then x :: r else r)
          end
      end
  end.

(** [v.get(key, default)] on a decoded JSON value: only a dict has [get].
    A key bound to [null] yields [None], like an absent key without
    default. *)
Definition py_get (v : json) (key : string) (default : json) : result json :=
  match v with
  | JDict m => Ok (match m !! key with Some x => x | None => default end)
  | _ => Raise AttributeError
  end.

(** The value of [body.get(key)] when [body] is the dict [body]. *)
Definition field (body : gmap string json) (key : string) : json :=
  match body !! key with Some x => x | None => JNull end.

(** [v[key]] with a string key. *)
Definition py_getitem (v : json) (key : string) : result json :=
  match v with
  | JDict m => match m !! key with Some x => Ok x | None => Raise KeyError end
  | _ => Raise TypeError
  end.

(** [v in {s1, s2, ...}] for a set of strings: hashing a list or a dict
    raises [TypeError]. *)
Definition in_strs (v : json) (set : list string) : result bool :=
  match v with
  | JList _ | JDict _ => Raise TypeError
  | _ => Ok (existsb (eq_str v) set)
  end.

(** ** The request handler *)

Definition internal_error : response :=
  Json 500 (Failure "Internal server error. Please retry.").

(** [read_json] *)
Definition read_json (raw : raw_body) : result json :=
  match raw with
  | NoBody => Ok (JDict ∅)
  | Malformed => Raise ValueError
  | Parsed v => Ok v
  end.

(** [require_user]: the resolved user, or the response already sent (the
    code then returns [None]). *)
Definition require_user (h : headers) (data : Dataset) : response + User :=
  let user_id := x_user_id h in
  let role := x_user_role h in
  match user_id with
  | None => inl (Json 401 (Failure "Missing X-User-Id"))
  | Some uid =>
      if negb (nonempty uid) then inl (Json 401 (Failure "Missing X-User-Id"))
      else
        match user_lookup data !! uid with
        | None => inl (Json 403 (Failure "Unknown user"))
        | Some user =>
            match role with
            | Some r =>
                if nonempty r && negb (String.eqb (u_role user) r)
                then inl (Json 403 (Failure "Role mismatch for this user"))
                else inr user
            | None => inr user
            end
        end
  end.

(** What [in_team] may receive as [target_user]: a user dict, the empty
    dict ([users.get(id, {})]) or [None] ([users.get(id)]). *)
Inductive subject : Type :=
  | UserDict (u : User)
  | EmptyDict
  | NoneValue.

Definition get_or_empty (users : gmap string User) (uid : string) : subject :=
  match users !! uid with Some u => UserDict u | None => EmptyDict end.

Definition get_or_none (users : gmap string User) (uid : string) : subject :=
  match users !! uid with Some u => UserDict u | None => NoneValue end.

(** [x == manager.get("id")] for [x = target_user.get("manager_id")] *)
Definition manager_is (x : option string) (manager : User) : bool :=
  match x with
  | Some m => String.eqb m (u_id manager)
  | None => false
  end.

Definition in_team (manager : User) (target_user : subject) : result bool :=
  if String.eqb (u_role manager) "admin" then Ok true
  else
    match target_user with
    | UserDict t => Ok (manager_is (u_manager_id t) manager)
    | EmptyDict => Ok (manager_is None manager)
    | NoneValue => Raise AttributeError
    end.

(** [guard_role]: [None] when the role is allowed, else the 403 sent. *)
Definition guard_role (user : User) (allowed : list string) : option response :=
  if existsb (String.eqb (u_role user)) allowed then None
  else Some (Json 403 (Failure "Forbidden for this role")).

(** [do_GET] and [do_POST] run the handler of the path inside
    [try: ... except Exception: self.handle_error(exc)]. *)
Definition dispatch (handler : M response) : file -> file * response :=
  fun f =>
    match handler f with
    | (f', Ok r) => (f', r)
    | (f', Raise _) => (f', internal_error)
    end.

(** [data.get(bucket, [])] for the bucket of a category. *)
Definition bucket_items (category : string) (data : Dataset) : list item :=
  if String.eqb category "leave" then map Leave (leave_requests data)
  else map Correction (attendance_corrections data).

Definition mine (user : User) (r : item) : bool :=
  String.eqb (item_user_id r) (u_id user).

Definition api_list_requests (h : headers) (category : string) (q : query)
  : M response :=
  data ← load_data;
  match require_user h data with
  | inl sent => ret sent
  | inr user =>
      let users := user_lookup data in
      let scope := query_get q "scope" "mine" in
      let items := bucket_items category data in
      filtered ← lift (
        if String.eqb (u_role user) "admin" then Ok items
        else if String.eqb (u_role user) "manager" then
          if String.eqb scope "team" then
            filter_r (fun r =>
              match in_team user (get_or_empty users (item_user_id r)) with
              | Ok t => Ok (t || mine user r)
              | Raise e => Raise e
              end) items
          else Ok (List.filter (mine user) items)
        else Ok (List.filter (mine user) items));
      ret (Json 200 (Items filtered))
  end.

(** [[f for f in required if not body.get(f)]] *)
Definition missing_fields (body : json) (required : list string)
  : result (list string) :=
  filter_r (fun f =>
    match py_get body f JNull with
    | Ok v => Ok (negb (truthy v))
    | Raise e => Raise e
    end) required.

Definition is_empty {A : Type} (l : list A) : bool :=
  match l with [] => true | _ :: _ => false end.

Definition add_leave (data : Dataset) (it : LeaveRequest) : Dataset :=
  {| users := users data;
     leave_types := leave_types data;
     holidays := holidays data;
     approval_routes := approval_routes data;
     leave_requests := leave_requests data ++ [it];
     attendance_corrections := attendance_corrections data |}.

Definition add_correction (data : Dataset) (it : AttendanceCorrection)
  : Dataset :=
  {| users := users data;
     leave_types := leave_types data;
     holidays := holidays data;
     approval_routes := approval_routes data;
     leave_requests := leave_requests data;
     attendance_corrections := attendance_corrections data ++ [it] |}.

Definition api_create_leave (h : headers) (raw : raw_body) (now : clock)
  : M response :=
  body ← lift (read_json raw);
  data ← load_data;
  match require_user h data with
  | inl sent => ret sent
  | inr user =>
      let required_fields := ["start_date"; "end_date"; "leave_type"; "reason"] in
      missing ← lift (missing_fields body required_fields);
      if negb (is_empty missing) then ret (Json 400 (MissingFields missing))
      else
        start_date ← lift (py_getitem body "start_date");
        start ← lift (parse_date start_date);
        end_date ← lift (py_getitem body "end_date");
        end_ ← lift (parse_date end_date);
        if Date.ltb end_ start then
          ret (Json 400 (Failure "End date must be on/after start date"))
        else
          let days := Date.diff_days end_ start + 1 in
          leave_type ← lift (py_getitem body "leave_type");
          reason ← lift (py_get body "reason" (JStr ""));
          let it := {|
            lv_id := generate_id "lv" (stamp now);
            lv_user_id := u_id user;
            lv_employee_name := u_name user;
            lv_department := u_department user;
            lv_leave_type := leave_type;
            lv_start_date := start_date;
            lv_end_date := end_date;
            lv_days := days;
            lv_reason := reason;
            lv_status := JStr "pending";
            lv_approver_comment := JStr "";
            lv_approved_by := "";
            lv_created_at := isoformat now |} in
          _ ← save_data (add_leave data it);
          ret (Json 200 (OneItem (Leave it)))
  end.

Definition api_create_correction (h : headers) (raw : raw_body) (now : clock)
  : M response :=
  body ← lift (read_json raw);
  data ← load_data;
  match require_user h data with
  | inl sent => ret sent
  | inr user =>
      let required := ["date"; "clock_in"; "clock_out"; "reason"] in
      missing ← lift (missing_fields body required);
      if negb (is_empty missing) then ret (Json 400 (MissingFields missing))
      else
        date ← lift (py_getitem body "date");
        clock_in ← lift (py_getitem body "clock_in");
        clock_out ← lift (py_getitem body "clock_out");
        break_minutes ← lift (py_get body "break_minutes" (JInt 0));
        overtime_hours ← lift (py_get body "overtime_hours" (JInt 0));
        reason ← lift (py_get body "reason" (JStr ""));
        let it := {|
          ac_id := generate_id "ac" (stamp now);
          ac_user_id := u_id user;
          ac_employee_name := u_name user;
          ac_department := u_department user;
          ac_date := date;
          ac_clock_in := clock_in;
          ac_clock_out := clock_out;
          ac_break_minutes := break_minutes;
          ac_overtime_hours := overtime_hours;
          ac_reason := reason;
          ac_status := JStr "pending";
          ac_approver_comment := JStr "";
          ac_approved_by := "";
          ac_created_at := isoformat now |} in
        _ ← save_data (add_correction data it);
        ret (Json 200 (OneItem (Correction it)))
  end.

(** The three assignments of the approval on the target dict. *)
Definition decide_leave (action comment : json) (by_ : string)
    (r : LeaveRequest) : LeaveRequest :=
  {| lv_id := lv_id r; lv_user_id := lv_user_id r;
     lv_employee_name := lv_employee_name r;
     lv_department := lv_department r; lv_leave_type := lv_leave_type r;
     lv_start_date := lv_start_date r; lv_end_date := lv_end_date r;
     lv_days := lv_days r; lv_reason := lv_reason r;
     lv_status := action;
     lv_approver_comment := comment;
     lv_approved_by := by_;
     lv_created_at := lv_created_at r |}.

Definition decide_correction (action comment : json) (by_ : string)
    (c : AttendanceCorrection) : AttendanceCorrection :=
  {| ac_id := ac_id c; ac_user_id := ac_user_id c;
     ac_employee_name := ac_employee_name c;
     ac_department := ac_department c; ac_date := ac_date c;
     ac_clock_in := ac_clock_in c; ac_clock_out := ac_clock_out c;
     ac_break_minutes := ac_break_minutes c;
     ac_overtime_hours := ac_overtime_hours c; ac_reason := ac_reason c;
     ac_status := action;
     ac_approver_comment := comment;
     ac_approved_by := by_;
     ac_created_at := ac_created_at c |}.

Definition decide_item (action comment : json) (by_ : string) (it : item)
  : item :=
  match it with
  | Leave r => Leave (decide_leave action comment by_ r)
  | Correction c => Correction (decide_correction action comment by_ c)
  end.

(** [next((r for r in items if r["id"] == target_id), None)] *)
Definition find_target (target_id : json) (items : list item) : option item :=
  List.find (fun r => eq_str target_id (item_id r)) items.

(** The target is an element of the loaded list, so assigning to its keys
    changes the first record with that id inside [data]. *)
Fixpoint update_first {A : Type} (p : A -> bool) (g : A -> A) (l : list A)
  : list A :=
  match l with
  | [] => []
  | x :: l' => if p x then g x :: l' else x :: update_first p g l'
  end.

Definition decide_in (category : string) (target_id action comment : json)
    (by_ : string) (data : Dataset) : Dataset :=
  if String.eqb category "leave" then
    {| users := users data;
       leave_types := leave_types data;
       holidays := holidays data;
       approval_routes := approval_routes data;
       leave_requests :=
         update_first (fun r => eq_str target_id (lv_id r))
           (decide_leave action comment by_)
           (leave_requests data);
       attendance_corrections := attendance_corrections data |}
  else
    {| users := users data;
       leave_types := leave_types data;
       holidays := holidays data;
       approval_routes := approval_routes data;
       leave_requests := leave_requests data;
       attendance_corrections :=
         update_first (fun c => eq_str target_id (ac_id c))
           (decide_correction action comment by_)
           (attendance_corrections data) |}.

(** The bucket name is chosen by [category == "leave"]; the category has
    passed the membership test, so it is a string. *)
Definition category_name (category : json) : string :=
  match category with JStr s => s | _ => "" end.

Definition api_approve (h : headers) (raw : raw_body) : M response :=
  body ← lift (read_json raw);
  category ← lift (py_get body "category" JNull);
  target_id ← lift (py_get body "id" JNull);
  action ← lift (py_get body "action" JNull);
  comment ← lift (py_get body "comment" (JStr ""));
  category_ok ← lift (in_strs category ["leave"; "correction"]);
  if negb category_ok then ret (Json 400 (Failure "Invalid category"))
  else
    action_ok ← lift (in_strs action ["approved"; "rejected"]);
    if negb action_ok then ret (Json 400 (Failure "Invalid action"))
    else
      data ← load_data;
      match require_user h data with
      | inl sent => ret sent
      | inr user =>
          match guard_role user ["manager"; "admin"] with
          | Some sent => ret sent
          | None =>
              let items := bucket_items (category_name category) data in
              let users := user_lookup data in
              match find_target target_id items with
              | None => ret (Json 404 (Failure "Request not found"))
              | Some target =>
                  let owner := get_or_none users (item_user_id target) in
                  allowed ← lift (in_team user owner);
                  if negb allowed then
                    ret (Json 403 (Failure "Cannot approve outside your team"))
                  else
                    let target' := decide_item action comment (u_name user) target in
                    _ ← save_data (decide_in (category_name category) target_id
                                     action comment (u_name user) data);
                    ret (Json 200 (OneItem target'))
              end
          end
      end.

(** *** Reports *)

(** [parse_date(text) if text else None] *)
Definition parse_filter (s : string) : result (option Date.date) :=
  if nonempty s then
    match parse_date (JStr s) with
    | Ok d => Ok (Some d)
    | Raise e => Raise e
    end
  else Ok None.

(** The two tests shared by [match_filters] and [match]: [false] when the
    department or the employee filter rejects the record. *)
Definition dept_emp_ok (users : gmap string User) (dept_filter emp_filter : string)
    (it : item) : bool :=
  let owner := users !! item_user_id it in
  if nonempty dept_filter
     && match owner with
        | Some o => negb (String.eqb (u_department o) dept_filter)
        | None => false
        end
  then false
  else if nonempty emp_filter && negb (String.eqb (item_user_id it) emp_filter)
  then false
  else true.

(** [match_filters] of [api_reports]: the record dates are parsed only
    under a filter date. *)
Definition match_filters (users : gmap string User)
    (dept_filter emp_filter : string) (start_date end_date : option Date.date)
    (it : item) : result bool :=
  if negb (dept_emp_ok users dept_filter emp_filter it) then Ok false
  else
    match
      match start_date with
      | Some sd =>
          match parse_date (item_start it) with
          | Ok d => Ok (Date.ltb d sd)
          | Raise e => Raise e
          end
      | None => Ok false
      end
    with
    | Raise e => Raise e
    | Ok true => Ok false
    | Ok false =>
        match end_date with
        | Some ed =>
            match parse_date (item_end it) with
            | Ok d => Ok (negb (Date.ltb ed d))
            | Raise e => Raise e
            end
        | None => Ok true
        end
    end.

(** [r["status"] == "approved" and match_filters(r)] *)
Definition approved_and (p : item -> result bool) (it : item) : result bool :=
  if eq_str (item_status it) "approved" then p it else Ok false.

(** [leave_summary.setdefault(uid, 0); leave_summary[uid] += days] on a dict
    that keeps the order of first insertion. *)
Fixpoint summary_add (uid : string) (days : Z) (acc : list (string * Z))
  : list (string * Z) :=
  match acc with
  | [] => [(uid, 0 + days)]
  | (k, v) :: rest =>
      if String.eqb k uid then (k, v + days) :: rest
      else (k, v) :: summary_add uid days rest
  end.

(** [leave_summary.get(k)] *)
Fixpoint assoc (acc : list (string * Z)) (k : string) : option Z :=
  match acc with
  | [] => None
  | (k', v) :: rest => if String.eqb k' k then Some v else assoc rest k
  end.

(** [leave_summary.get(k, 0)] *)
Definition total (acc : list (string * Z)) (k : string) : Z :=
  match assoc acc k with Some v => v | None => 0 end.

Definition item_days (it : item) : Z :=
  match it with Leave r => lv_days r | Correction _ => 0 end.

Definition leave_summary (leave_items : list item) : list (string * Z) :=
  foldl (fun acc r => summary_add (item_user_id r) (item_days r) acc) []
    leave_items.

(** One row of [report_rows]; [u = users.get(uid, {})]. *)
Definition report_row_of (users : gmap string User) (entry : string * Z)
  : report_row :=
  let '(uid, days_taken) := entry in
  let u := users !! uid in
  let allowance :=
    match u with Some u => u_annual_leave_allowance u | None => 0 end in
  {| row_employee_id := uid;
     row_employee_name := match u with Some u => u_name u | None => "" end;
     row_department := match u with Some u => u_department u | None => "" end;
     row_leave_days_taken := days_taken;
     row_leave_days_remaining := Z.max (allowance - days_taken) 0 |}.

(** The records that [api_reports] aggregates. *)
Definition report_leave_items (data : Dataset) (dept_filter emp_filter : string)
    (start_date end_date : option Date.date) : result (list item) :=
  filter_r
    (approved_and
       (match_filters (user_lookup data) dept_filter emp_filter start_date end_date))
    (map Leave (leave_requests data)).

Definition report_corr_items (data : Dataset) (dept_filter emp_filter : string)
    (start_date end_date : option Date.date) : result (list item) :=
  filter_r
    (approved_and
       (match_filters (user_lookup data) dept_filter emp_filter start_date end_date))
    (map Correction (attendance_corrections data)).

Definition api_reports (h : headers) (q : query) : M response :=
  data ← load_data;
  match require_user h data with
  | inl sent => ret sent
  | inr user =>
      match guard_role user ["manager"; "admin"] with
      | Some sent => ret sent
      | None =>
          let start := query_get q "start" "" in
          let end_ := query_get q "end" "" in
          let dept_filter := query_get q "department" "" in
          let emp_filter := query_get q "employee" "" in
          start_date ← lift (parse_filter start);
          end_date ← lift (parse_filter end_);
          let users := user_lookup data in
          leave_items ← lift
            (report_leave_items data dept_filter emp_filter start_date end_date);
          corr_items ← lift
            (report_corr_items data dept_filter emp_filter start_date end_date);
          let report_rows := map (report_row_of users) (leave_summary leave_items) in
          ret (Json 200 (Report {|
            leave_totals := report_rows;
            correction_count := Z.of_nat (length corr_items);
            filters := {| f_start := start; f_end := end_;
                          f_department := dept_filter;
                          f_employee := emp_filter |} |}))
      end
  end.

(** [match] of [api_reports_export]: both record dates are always parsed. *)
Definition match_ (users : gmap string User)
    (dept_filter emp_filter : string) (start_date end_date : option Date.date)
    (it : item) : result bool :=
  if negb (dept_emp_ok users dept_filter emp_filter it) then Ok false
  else
    match parse_date (item_start it) with
    | Raise e => Raise e
    | Ok item_start =>
        match parse_date (item_end it) with
        | Raise e => Raise e
        | Ok item_end =>
            if match start_date with
               | Some sd => Date.ltb item_end sd
               | None => false
               end
            then Ok false
            else if match end_date with
                    | Some ed => Date.ltb ed item_start
                    | None => false
                    end
            then Ok false
            else Ok true
        end
    end.

Definition export_leave (r : LeaveRequest) : export_row :=
  {| csv_category := "leave";
     csv_employee_id := lv_user_id r;
     csv_employee_name := lv_employee_name r;
     csv_department := lv_department r;
     csv_status := lv_status r;
     csv_start_date := lv_start_date r;
     csv_end_date := lv_end_date r;
     csv_days := lv_days r;
     csv_leave_type := lv_leave_type r;
     csv_reason := lv_reason r;
     csv_approver_comment := lv_approver_comment r;
     csv_approved_by := lv_approved_by r;
     csv_created_at := lv_created_at r |}.

Definition export_correction (c : AttendanceCorrection) : export_row :=
  {| csv_category := "attendance_correction";
     csv_employee_id := ac_user_id c;
     csv_employee_name := ac_employee_name c;
     csv_department := ac_department c;
     csv_status := ac_status c;
     csv_start_date := ac_date c;
     csv_end_date := ac_date c;
     csv_days := 0;
     csv_leave_type := JStr "";
     csv_reason := ac_reason c;
     csv_approver_comment := ac_approver_comment c;
     csv_approved_by := ac_approved_by c;
     csv_created_at := ac_created_at c |}.

Definition export_item (it : item) : export_row :=
  match it with
  | Leave r => export_leave r
  | Correction c => export_correction c
  end.

(** The records that [api_reports_export] turns into rows, leave requests
    first. *)
Definition export_items (data : Dataset) (dept_filter emp_filter : string)
    (start_date end_date : option Date.date) : result (list item) :=
  let keep := match_ (user_lookup data) dept_filter emp_filter start_date end_date in
  match filter_r keep (map Leave (leave_requests data)) with
  | Raise e => Raise e
  | Ok ls =>
      match filter_r keep (map Correction (attendance_corrections data)) with
      | Raise e => Raise e
      | Ok cs => Ok (ls ++ cs)%list
      end
  end.

Definition api_reports_export (h : headers) (q : query) : M response :=
  data ← load_data;
  match require_user h data with
  | inl sent => ret sent
  | inr user =>
      match guard_role user ["manager"; "admin"] with
      | Some sent => ret sent
      | None =>
          let start := query_get q "start" "" in
          let end_ := query_get q "end" "" in
          let dept_filter := query_get q "department" "" in
          let emp_filter := query_get q "employee" "" in
          start_date ← lift (parse_filter start);
          end_date ← lift (parse_filter end_);
          kept ← lift
            (export_items data dept_filter emp_filter start_date end_date);
          ret (Csv "reports.csv" (map export_item kept))
      end
  end.

(** *** Settings *)

Section Settings.

(** Two builtins whose result the embedding does not compute: [repr v], the
    text of [str(v)] for a value that is not a string, and [keys m], the
    keys of a dict in insertion order, which a [gmap] does not record. *)
Variable repr : json -> string.
Variable keys : gmap string json -> list string.

Definition py_str (v : json) : string :=
  match v with
  | JStr s => s
  | _ => repr v
  end.

(** [iter(v)]: a list yields its elements, a string its characters, a dict
    its keys; the other JSON values are not iterable.  A string is
    iterated byte by byte, which is character by character for ASCII
    strings only, and the keys of a dict come in the order [keys] gives
    them, which a [gmap] does not fix; lists are exact. *)
Definition py_iter (v : json) : result (list json) :=
  match v with
  | JList l => Ok l
  | JStr s => Ok (map (fun c => JStr (String c "")) (list_ascii_of_string s))
  | JDict m => Ok (map JStr (keys m))
  | _ => Raise TypeError
  end.

(** [[str(x) for x in v if x]] *)
Definition str_items (v : json) : result (list string) :=
  match py_iter v with
  | Ok l => Ok (map py_str (List.filter truthy l))
  | Raise e => Raise e
  end.

Definition is_none (v : json) : bool :=
  match v with JNull => true | _ => false end.

Definition set_leave_types (data : Dataset) (l : list string) : Dataset :=
  {| users := users data;
     leave_types := l;
     holidays := holidays data;
     approval_routes := approval_routes data;
     leave_requests := leave_requests data;
     attendance_corrections := attendance_corrections data |}.

Definition set_holidays (data : Dataset) (l : list string) : Dataset :=
  {| users := users data;
     leave_types := leave_types data;
     holidays := l;
     approval_routes := approval_routes data;
     leave_requests := leave_requests data;
     attendance_corrections := attendance_corrections data |}.

Definition set_approval_routes (data : Dataset) (v : json) : Dataset :=
  {| users := users data;
     leave_types := leave_types data;
     holidays := holidays data;
     approval_routes := v;
     leave_requests := leave_requests data;
     attendance_corrections := attendance_corrections data |}.

Definition api_settings_update (h : headers) (raw : raw_body) : M response :=
  body ← lift (read_json raw);
  data ← load_data;
  match require_user h data with
  | inl sent => ret sent
  | inr user =>
      match guard_role user ["admin"] with
      | Some sent => ret sent
      | None =>
          leave_types ← lift (py_get body "leave_types" JNull);
          holidays ← lift (py_get body "holidays" JNull);
          approval_routes ← lift (py_get body "approval_routes" JNull);
          data ← (if negb (is_none leave_types) then
                    l ← lift (str_items leave_types);
                    ret (set_leave_types data l)
                  else ret data);
          data ← (if negb (is_none holidays) then
                    l ← lift (str_items holidays);
                    ret (set_holidays data l)
                  else ret data);
          let data :=
            if negb (is_none approval_routes)
            then set_approval_routes data approval_routes
            else data in
          _ ← save_data data;
          ret (Json 200 (Settings data))
      end
  end.

End Settings.

(** ** The words of the specification

    The notions the specification uses for the reports, stated on the
    records; the theorems compare the handlers with them. *)

Definition all_items (data : Dataset) : list item :=
  (map Leave (leave_requests data)
   ++ map Correction (attendance_corrections data))%list.

(** The record spans the days [s] to [e] (a correction spans its date). *)
Definition span (it : item) (s e : Date.date) : Prop :=
  parse_date (item_start it) = Ok s /\ parse_date (item_end it) = Ok e.

(** Containment: item start >= filter start and item end <= filter end. *)
Definition within (sd ed : Date.date) (it : item) : Prop :=
  exists s e, span it s e /\ Date.leb sd s = true /\ Date.leb e ed = true.

(** Overlap: item end >= filter start and item start <= filter end. *)
Definition overlaps (sd ed : Date.date) (it : item) : Prop :=
  exists s e, span it s e /\ Date.leb sd e = true /\ Date.leb s ed = true.

(** The sum of the days fields of the records of [items] owned by [uid]. *)
Definition days_taken (uid : string) (items : list item) : Z :=
  fold_right Z.add 0
    (map item_days
       (List.filter (fun r => String.eqb (item_user_id r) uid) items)).

(** The allowance the report uses for [uid]: 0 for an unknown user. *)
Definition allowance_of (data : Dataset) (uid : string) : Z :=
  match user_lookup data !! uid with
  | Some u => u_annual_leave_allowance u
  | None => 0
  end.

(** ** A sample dataset

    The seed users, one manager ([m003]) who reports to the manager [m001]
    and one employee ([e003]) who reports to [m003], with a few records. *)

Definition leave_of (id uid name dept : string) (first last : string)
    (days : Z) (status : string) : LeaveRequest :=
  {| lv_id := id; lv_user_id := uid; lv_employee_name := name;
     lv_department := dept; lv_leave_type := JStr "Paid";
     lv_start_date := JStr first; lv_end_date := JStr last;
     lv_days := days; lv_reason := JStr "trip"; lv_status := JStr status;
     lv_approver_comment := JStr ""; lv_approved_by := "";
     lv_created_at := "2025-02-01T09:00:00" |}.

Definition correction_of (id uid name dept : string) (date : string)
    (status : string) : AttendanceCorrection :=
  {| ac_id := id; ac_user_id := uid; ac_employee_name := name;
     ac_department := dept; ac_date := JStr date;
     ac_clock_in := JStr "09:00"; ac_clock_out := JStr "18:00";
     ac_break_minutes := JInt 60; ac_overtime_hours := JInt 0;
     ac_reason := JStr "forgot"; ac_status := JStr status;
     ac_approver_comment := JStr ""; ac_approved_by := "";
     ac_created_at := "2025-02-01T09:00:00" |}.

Definition lv1 : LeaveRequest :=
  leave_of "lv-1" "e001" "Alice Tanaka" "Sales" "2025-03-01" "2025-03-10" 10 "approved".
Definition lv2 : LeaveRequest :=
  leave_of "lv-2" "e002" "Bob Suzuki" "Engineering" "2025-03-06" "2025-03-07" 2 "approved".
Definition lv3 : LeaveRequest :=
  leave_of "lv-3" "m001" "Mika Yamada" "Sales" "2025-03-06" "2025-03-06" 1 "pending".
Definition lv4 : LeaveRequest :=
  leave_of "lv-4" "e003" "Chie Kato" "Sales" "2025-04-01" "2025-04-02" 2 "pending".
Definition lv5 : LeaveRequest :=
  leave_of "lv-5" "e002" "Bob Suzuki" "Engineering" "2025-05-01" "2025-05-30" 30 "approved".
Definition ac1 : AttendanceCorrection :=
  correction_of "ac-1" "e001" "Alice Tanaka" "Sales" "2025-03-06" "approved".
Definition ac2 : AttendanceCorrection :=
  correction_of "ac-2" "e002" "Bob Suzuki" "Engineering" "2025-03-20" "pending".

Definition DEMO : Dataset := {|
  users := (users SEED ++ [
    mkUser "m003" "Ken Mori" "manager" "Sales" (Some "m001") 22;
    mkUser "e003" "Chie Kato" "employee" "Sales" (Some "m003") 20 ])%list;
  leave_types := leave_types SEED;
  holidays := holidays SEED;
  approval_routes := approval_routes SEED;
  leave_requests := [lv1; lv2; lv3; lv4; lv5];
  attendance_corrections := [ac1; ac2]
|}.

Definition demo_file : file := Some (Document DEMO).

Definition as_user (uid : string) : headers :=
  {| x_user_id := Some uid; x_user_role := None |}.

Definition scope_team : query := {[ "scope" := ("team", []) ]}.

Definition window_march : query :=
  <["start" := ("2025-03-05", [])]> {[ "end" := ("2025-03-08", []) ]}.

Definition approval_body (category id action : string) : gmap string json :=
  <["category" := JStr category]>
    (<["id" := JStr id]> {[ "action" := JStr action ]}).

Definition leave_body (first last : string) : gmap string json :=
  <["start_date" := JStr first]>
    (<["end_date" := JStr last]>
       (<["leave_type" := JStr "Paid"]> {[ "reason" := JStr "trip" ]})).

Definition correction_body (date : string) : gmap string json :=
  <["date" := JStr date]>
    (<["clock_in" := JStr "09:00"]>
       (<["clock_out" := JStr "18:00"]> {[ "reason" := JStr "forgot" ]})).

Definition demo_clock : clock :=
  {| stamp := "20250301093000000000";
     isoformat := "2025-03-01T09:30:00.000000" |}.

Definition alice : User :=
  mkUser "e001" "Alice Tanaka" "employee" "Sales" (Some "m001") 20.

(** ** Handlers that need no identity *)

(** The 200 document of [api_meta]: every key of the dataset but the two
    buckets. *)
Record meta : Type := mkMeta {
  meta_users : list User;
  meta_leave_types : list string;
  meta_holidays : list string;        (* work_calendar.holidays *)
  meta_approval_routes : json
}.

Definition api_meta : M meta :=
  data ← load_data;
  ret {| meta_users := users data;
         meta_leave_types := leave_types data;
         meta_holidays := holidays data;
         meta_approval_routes := approval_routes data |}.

(** [users.get(key)] for a decoded JSON value as key: the keys of [users]
    are strings, a list or a dict cannot be hashed. *)
Definition users_get (users : gmap string User) (key : json)
  : result (option User) :=
  match key with
  | JStr s => Ok (users !! s)
  | JList _ | JDict _ => Raise TypeError
  | _ => Ok None
  end.

(** What [api_login] sends: a failure document, or
    [{"ok": True, "user": user}] with status 200. *)
Inductive login_reply : Type :=
  | LoginRefused (r : response)
  | LoggedIn (user : User).

Definition api_login (raw : raw_body) : M login_reply :=
  body ← lift (read_json raw);
  user_id ← lift (py_get body "user_id" (JStr ""));
  data ← load_data;
  let users := user_lookup data in
  user ← lift (users_get users user_id);
  match user with
  | None => ret (LoginRefused (Json 401 (Failure "User not found")))
  | Some u => ret (LoggedIn u)
  end.

(** ** More sample data *)

(** The sample dataset with one more approved correction whose date is not
    a date, as [api_create_correction] accepts it. *)
Definition ac3 : AttendanceCorrection :=
  correction_of "ac-3" "e001" "Alice Tanaka" "Sales" "tomorrow" "approved".

(** A leave request whose owner is not among the users. *)
Definition lv9 : LeaveRequest :=
  leave_of "lv-9" "x999" "Former Staff" "Sales" "2025-06-01" "2025-06-02" 2 "pending".

Definition orphan_file : file := Some (Document (add_leave DEMO lv9)).

(** The sample dataset after [ac3] has been stored. *)
Definition bad_date_file : file := Some (Document (add_correction DEMO ac3)).

Definition mika : User :=
  mkUser "m001" "Mika Yamada" "manager" "Sales" (Some "a001") 22.

Definition ito : User := mkUser "a001" "Admin Ito" "admin" "HQ" None 25.

(** ** How the stored dataset may evolve

    [d'] keeps the users of [d] and the records of [d], in their order and
    with their ids and owners, possibly followed by new records. *)
Definition extends (d d' : Dataset) : Prop :=
  users d' = users d
  /\ (exists more,
        map (fun r => (lv_id r, lv_user_id r)) (leave_requests d')
        = (map (fun r => (lv_id r, lv_user_id r)) (leave_requests d)
           ++ more)%list)
  /\ (exists more,
        map (fun c => (ac_id c, ac_user_id c)) (attendance_corrections d')
        = (map (fun c => (ac_id c, ac_user_id c)) (attendance_corrections d)
           ++ more)%list).

(** ** Where the embedding is exact

    The model of [strptime] reads ASCII digits, while the regex of Python
    also accepts the decimal digits of other scripts.  A string of ASCII
    characters is rejected by the model exactly when Python rejects it; the
    theorems that conclude from a rejected date assume such a string. *)

Definition ascii_only (s : string) : bool :=
  forallb (fun c => (N_of_ascii c <? 128)%N) (list_ascii_of_string s).

(** A value that is not a string, or a string of ASCII characters. *)
Definition ascii_value (v : json) : bool :=
  match v with
  | JStr s => ascii_only s
  | _ => true
  end.

(** A sufficient test for "[json.loads] raises [JSONDecodeError] on this
    text": after the JSON whitespace the text ends, or goes on with a byte
    that starts no JSON value (a value starts with a quote, a brace, a
    bracket, a minus sign, a digit, or the first letter of [null], [true],
    [false], [NaN] or [Infinity]). *)
Module JsonText.

Definition whitespace (b : Z) : bool :=
  (b =? 32) || (b =? 9) || (b =? 10) || (b =? 13).

Definition starts_value (b : Z) : bool :=
  (b =? 34) || (b =? 123) || (b =? 91) || (b =? 45)
  || ((48 <=? b) && (b <=? 57))
  || (b =? 110) || (b =? 116) || (b =? 102) || (b =? 78) || (b =? 73).

Fixpoint no_value (bs : list Z) : bool :=
  match bs with
  | [] => true
  | b :: rest => if whitespace b then no_value rest else negb (starts_value b)
  end.

Definition cannot_parse (b : list Byte.byte) : bool :=
  no_value (map (fun x => Z.of_N (Byte.to_N x)) b).

End JsonText.

(** ** The two date tests as boolean functions

    [within_b] and [overlaps_b] decide [within] and [overlaps]; a record
    with a date that does not parse is in neither. *)

Definition within_b (sd ed : Date.date) (it : item) : bool :=
  match parse_date (item_start it), parse_date (item_end it) with
  | Ok s, Ok e => Date.leb sd s && Date.leb e ed
  | _, _ => false
  end.

Definition overlaps_b (sd ed : Date.date) (it : item) : bool :=
  match parse_date (item_start it), parse_date (item_end it) with
  | Ok s, Ok e => Date.leb sd e && Date.leb s ed
  | _, _ => false
  end.

(** The records of the summary: approved, passing the department and
    employee tests, within the window. *)
Definition in_summary (users : gmap string User) (dept emp : string)
    (sd ed : Date.date) (it : item) : bool :=
  eq_str (item_status it) "approved"
  && dept_emp_ok users dept emp it
  && within_b sd ed it.

(** The records of the export: any status, passing the same two tests,
    overlapping the window. *)
Definition in_export (users : gmap string User) (dept emp : string)
    (sd ed : Date.date) (it : item) : bool :=
  dept_emp_ok users dept emp it && overlaps_b sd ed it.

(** An empty data file, and one that holds a web page. *)
Definition empty_file : file := Some (Garbage []).

Definition html_file : file :=
  Some (Garbage [Byte.x20; Byte.x3c; Byte.x68; Byte.x74; Byte.x6d; Byte.x6c;
                 Byte.x3e]).

(** * Properties *)

(** ** Sanity checks of the embedding on concrete values *)

Example parse_date_iso :
  parse_date (JStr "2025-03-01") = Ok (Date.mkdate 2025 3 1).
Proof. reflexivity. Qed.

Example parse_date_short_fields :
  parse_date (JStr "2025-3- 1") = Ok (Date.mkdate 2025 3 1).
Proof. reflexivity. Qed.

Example parse_date_feb30 : parse_date (JStr "2025-02-30") = Raise ValueError.
Proof. reflexivity. Qed.

Example parse_date_leap : parse_date (JStr "2024-02-29") = Ok (Date.mkdate 2024 2 29).
Proof. reflexivity. Qed.

Example parse_date_trailing : parse_date (JStr "2025-03-011") = Raise ValueError.
Proof. reflexivity. Qed.

Example parse_date_month13 : parse_date (JStr "2025-13-01") = Raise ValueError.
Proof. reflexivity. Qed.

Example parse_date_number : parse_date (JInt 20250301) = Raise TypeError.
Proof. reflexivity. Qed.

Example toordinal_2025_03_01 : Date.toordinal (Date.mkdate 2025 3 1) = 739311.
Proof. reflexivity. Qed.

Example load_missing : load_data None = (Some (Document SEED), Ok SEED).
Proof. reflexivity. Qed.

Example load_truncated :
  load_data (Some (Garbage [Byte.x7b; Byte.x22]))
  = (Some (Document SEED), Ok SEED).
Proof. reflexivity. Qed.

Example load_not_utf8 :
  load_data (Some (Garbage [Byte.xff]))
  = (Some (Garbage [Byte.xff]), Raise UnicodeDecodeError).
Proof. reflexivity. Qed.

(** ** The store *)

Lemma load_data_document (d : Dataset) :
  load_data (Some (Document d)) = (Some (Document d), Ok d).
Proof. reflexivity. Qed.

Lemma load_data_text (b : list Byte.byte) :
  Utf8.decodes b = true ->
  load_data (Some (Garbage b)) = (Some (Document SEED), Ok SEED).
Proof.
  intros Hb. unfold load_data, bind, try_except, read_text, exists_; simpl.
  now rewrite Hb.
Qed.

Lemma load_data_bytes (b : list Byte.byte) :
  Utf8.decodes b = false ->
  load_data (Some (Garbage b)) = (Some (Garbage b), Raise UnicodeDecodeError).
Proof.
  intros Hb. unfold load_data, bind, try_except, read_text, exists_; simpl.
  now rewrite Hb.
Qed.

(** A successful load leaves the loaded dataset in the file; the file is
    rewritten only when the seed is restored. *)
Lemma load_data_ok (f f' : file) (d : Dataset) :
  load_data f = (f', Ok d) ->
  f' = Some (Document d) /\ (f = f' \/ d = SEED).
Proof.
  destruct f as [[b | d0] |].
  - destruct (Utf8.decodes b) eqn:Hb.
    + rewrite (load_data_text b Hb). intros [= <- <-]. auto.
    + rewrite (load_data_bytes b Hb). discriminate.
  - rewrite load_data_document. intros [= <- <-]. auto.
  - change (load_data None) with (Some (Document SEED), Ok SEED).
    intros [= <- <-]. auto.
Qed.

(** Recovery from a missing file or from text that is not JSON, and its
    stability under further loads.  The text is one in which [json.loads]
    finds no value to start with: it is empty, or its first character
    after the JSON whitespace opens no JSON value. *)
Lemma load_data_recovers (f : file) :
  f = None
  \/ (exists b, f = Some (Garbage b)
                /\ Utf8.decodes b = true
                /\ JsonText.cannot_parse b = true) ->
  load_data f = (Some (Document SEED), Ok SEED)
  /\ load_data (fst (load_data f)) = (Some (Document SEED), Ok SEED).
Proof.
  intros [-> | (b & -> & Hb & _)].
  - split; reflexivity.
  - rewrite (load_data_text b Hb). split; reflexivity.
Qed.

(** ** Listing *)

Lemma filter_r_total {A : Type} (p : A -> result bool) (q : A -> bool)
    (l : list A) :
  (forall x, In x l -> p x = Ok (q x)) ->
  filter_r p l = Ok (List.filter q l).
Proof.
  induction l as [| x l IH]; intros Hp; simpl.
  - reflexivity.
  - rewrite (Hp x (or_introl eq_refl)).
    rewrite IH by (intros y Hy; apply Hp; now right).
    now destruct (q x).
Qed.

Lemma mine_spec (user : User) (r : item) :
  mine user r = true <-> item_user_id r = u_id user.
Proof. unfold mine. apply String.eqb_eq. Qed.

(** C4: an employee's listing of either bucket is the records of the bucket
    that the employee owns, whatever scope the query asks for. *)
Theorem employee_lists_own_records (h : headers) (category : string)
    (q : query) (f f' : file) (data : Dataset) (user : User) :
  load_data f = (f', Ok data) ->
  require_user h data = inr user ->
  u_role user = "employee" ->
  exists items,
    api_list_requests h category q f = (f', Ok (Json 200 (Items items)))
    /\ items = List.filter (mine user) (bucket_items category data)
    /\ forall r, In r items -> item_user_id r = u_id user.
Proof.
  intros Hload Huser Hrole.
  exists (List.filter (mine user) (bucket_items category data)).
  split; [| split; [reflexivity |]].
  - unfold api_list_requests, bind, lift, ret.
    rewrite Hload, Huser, Hrole. reflexivity.
  - intros r [_ Hr]%filter_In. now apply mine_spec.
Qed.

(** The employee e001 asks for scope=team on the sample dataset. *)
Lemma employee_lists_own_records_witness :
  exists items,
    api_list_requests (as_user "e001") "leave" scope_team demo_file
    = (demo_file, Ok (Json 200 (Items items)))
    /\ items = List.filter (mine (mkUser "e001" "Alice Tanaka" "employee" "Sales" (Some "m001") 20))
                 (bucket_items "leave" DEMO)
    /\ forall r, In r items -> item_user_id r = "e001".
Proof.
  apply (employee_lists_own_records (as_user "e001") "leave" scope_team
           demo_file demo_file DEMO
           (mkUser "e001" "Alice Tanaka" "employee" "Sales" (Some "m001") 20)).
  - reflexivity.
  - vm_compute. reflexivity.
  - reflexivity.
Defined.

Lemma manager_is_spec (x : option string) (manager : User) :
  manager_is x manager = true <-> x = Some (u_id manager).
Proof.
  destruct x as [m |]; simpl.
  - rewrite String.eqb_eq. split; congruence.
  - split; discriminate.
Qed.

Lemma in_team_manager (manager : User) (users : gmap string User)
    (uid : string) :
  u_role manager = "manager" ->
  in_team manager (get_or_empty users uid)
  = Ok (match users !! uid with
        | Some o => manager_is (u_manager_id o) manager
        | None => false
        end).
Proof.
  intros Hrole. unfold in_team, get_or_empty. rewrite Hrole. simpl.
  now destruct (users !! uid).
Qed.

(** C2: for a manager who asks for scope=team the listing is the bucket
    filtered by "own record, or the owner's manager_id is the manager's
    id".  A record of somebody else whose owner has another manager_id is
    left out, also when that owner's manager reports to the actor: the test
    follows one hop only. *)
Theorem manager_team_listing (h : headers) (category : string) (q : query)
    (f f' : file) (data : Dataset) (user : User) :
  load_data f = (f', Ok data) ->
  require_user h data = inr user ->
  u_role user = "manager" ->
  query_get q "scope" "mine" = "team" ->
  exists items,
    api_list_requests h category q f = (f', Ok (Json 200 (Items items)))
    /\ items
       = List.filter
           (fun r =>
              match user_lookup data !! item_user_id r with
              | Some o => manager_is (u_manager_id o) user
              | None => false
              end || mine user r)
           (bucket_items category data)
    /\ (forall r,
          In r items <->
          In r (bucket_items category data)
          /\ (item_user_id r = u_id user
              \/ exists owner,
                   user_lookup data !! item_user_id r = Some owner
                   /\ u_manager_id owner = Some (u_id user)))
    /\ (forall r owner,
          In r (bucket_items category data) ->
          user_lookup data !! item_user_id r = Some owner ->
          item_user_id r <> u_id user ->
          u_manager_id owner <> Some (u_id user) ->
          ~ In r items)
    /\ (forall r owner mid,
          In r (bucket_items category data) ->
          user_lookup data !! item_user_id r = Some owner ->
          item_user_id r <> u_id user ->
          u_manager_id owner = Some (u_id mid) ->
          user_lookup data !! u_id mid = Some mid ->
          u_manager_id mid = Some (u_id user) ->
          u_id mid <> u_id user ->
          ~ In r items).
Proof.
  intros Hload Huser Hrole Hscope.
  eexists. split; [| split; [reflexivity |]].
  - unfold api_list_requests, bind, lift, ret.
    rewrite Hload, Huser, Hscope, Hrole. simpl.
    erewrite filter_r_total; [reflexivity |].
    intros r _. now rewrite in_team_manager.
  - assert (Hchar : forall r,
      In r (List.filter
              (fun r => match user_lookup data !! item_user_id r with
                        | Some o => manager_is (u_manager_id o) user
                        | None => false
                        end || mine user r)
              (bucket_items category data)) <->
      In r (bucket_items category data)
      /\ (item_user_id r = u_id user
          \/ exists owner,
               user_lookup data !! item_user_id r = Some owner
               /\ u_manager_id owner = Some (u_id user))).
    { intros r. rewrite filter_In, orb_true_iff, mine_spec.
      split; intros [Hin Hr]; (split; [exact Hin |]).
      - destruct Hr as [Hr | Hr]; [right | now left].
        destruct (user_lookup data !! item_user_id r) as [o |]; [| discriminate].
        exists o. split; [reflexivity | now apply manager_is_spec].
      - destruct Hr as [Hr | (o & Ho & Hm)]; [now right | left].
        rewrite Ho. now apply manager_is_spec. }
    split; [exact Hchar | split].
    + intros r owner Hin Ho Hne Hm [_ [Hr | (o & Ho' & Hm')]]%Hchar.
      * now apply Hne.
      * rewrite Ho in Ho'. injection Ho' as <-. now apply Hm.
    + intros r owner mid Hin Ho Hne Hm _ _ Hmid [_ [Hr | (o & Ho' & Hm')]]%Hchar.
      * now apply Hne.
      * rewrite Ho in Ho'. injection Ho' as <-.
        rewrite Hm in Hm'. injection Hm' as Hm'. now apply Hmid.
Qed.

Example manager_team_listing_demo :
  api_list_requests (as_user "m001") "leave" scope_team demo_file
  = (demo_file, Ok (Json 200 (Items [Leave lv1; Leave lv3]))).
Proof. vm_compute. reflexivity. Qed.

(** The manager m001 on the sample dataset: the record of e002 (a report
    of m002) and the record of e003 (a report of m003, who reports to m001)
    are not listed. *)
Lemma manager_team_listing_witness :
  exists items,
    api_list_requests (as_user "m001") "leave" scope_team demo_file
    = (demo_file, Ok (Json 200 (Items items)))
    /\ ~ In (Leave lv2) items /\ ~ In (Leave lv4) items.
Proof.
  destruct (manager_team_listing (as_user "m001") "leave" scope_team
              demo_file demo_file DEMO
              (mkUser "m001" "Mika Yamada" "manager" "Sales" (Some "a001") 22))
    as (items & Hrun & _ & _ & Hother & Hhop).
  - reflexivity.
  - vm_compute. reflexivity.
  - reflexivity.
  - vm_compute. reflexivity.
  - exists items. split; [exact Hrun | split].
    + apply (Hother (Leave lv2)
               (mkUser "e002" "Bob Suzuki" "employee" "Engineering" (Some "m002") 18)).
      * simpl. tauto.
      * vm_compute. reflexivity.
      * discriminate.
      * discriminate.
    + apply (Hhop (Leave lv4)
               (mkUser "e003" "Chie Kato" "employee" "Sales" (Some "m003") 20)
               (mkUser "m003" "Ken Mori" "manager" "Sales" (Some "m001") 22)).
      * simpl. tauto.
      * vm_compute. reflexivity.
      * discriminate.
      * reflexivity.
      * vm_compute. reflexivity.
      * reflexivity.
      * discriminate.
Defined.

(** ** Approval *)

Lemma bucket_items_seed (category : string) : bucket_items category SEED = [].
Proof. unfold bucket_items. now destruct (String.eqb category "leave"). Qed.

Lemma in_team_admin (admin : User) (t : subject) :
  u_role admin = "admin" -> in_team admin t = Ok true.
Proof. intros Hrole. unfold in_team. now rewrite Hrole. Qed.

(** C3: a manager who approves or rejects an existing record whose owner's
    manager_id is not the manager's id gets 403 and the data file is left
    as it was, with a valid category, id and action; an admin passes the
    team test for every owner. *)
Theorem approve_outside_team_forbidden (h : headers)
    (body : gmap string json) (category action : string) (f f' : file)
    (data : Dataset) (user owner : User) (target_id : json) (target : item) :
  body !! "category" = Some (JStr category) ->
  category = "leave" \/ category = "correction" ->
  body !! "action" = Some (JStr action) ->
  action = "approved" \/ action = "rejected" ->
  load_data f = (f', Ok data) ->
  require_user h data = inr user ->
  u_role user = "manager" ->
  py_get (JDict body) "id" JNull = Ok target_id ->
  find_target target_id (bucket_items category data) = Some target ->
  user_lookup data !! item_user_id target = Some owner ->
  u_manager_id owner <> Some (u_id user) ->
  api_approve h (Parsed (JDict body)) f
  = (f, Ok (Json 403 (Failure "Cannot approve outside your team")))
  /\ dispatch (api_approve h (Parsed (JDict body))) f
     = (f, Json 403 (Failure "Cannot approve outside your team"))
  /\ (forall (admin : User) (t : subject),
        u_role admin = "admin" -> in_team admin t = Ok true).
Proof.
  intros Hcat Hcat' Hact Hact' Hload Huser Hrole Hid Htarget Howner Hmgr.
  assert (Hf : f' = f).
  { destruct (load_data_ok _ _ _ Hload) as [_ [-> | ->]]; [reflexivity |].
    rewrite bucket_items_seed in Htarget. discriminate. }
  subst f'.
  assert (Hrun : api_approve h (Parsed (JDict body)) f
                 = (f, Ok (Json 403 (Failure "Cannot approve outside your team")))).
  { unfold api_approve, bind, lift, ret; simpl.
    rewrite Hcat, Hact.
    assert (Hc : existsb (eq_str (JStr category)) ["leave"; "correction"] = true)
      by (destruct Hcat' as [-> | ->]; reflexivity).
    assert (Ha : existsb (eq_str (JStr action)) ["approved"; "rejected"] = true)
      by (destruct Hact' as [-> | ->]; reflexivity).
    cbn [in_strs]. rewrite Hc. cbn [negb]. rewrite Ha. cbn [negb].
    rewrite Hload, Huser.
    unfold guard_role. rewrite Hrole. cbn [existsb String.eqb Ascii.eqb Bool.eqb orb].
    cbn [category_name].
    injection Hid as Hid. rewrite Hid, Htarget.
    unfold get_or_none. rewrite Howner.
    unfold in_team. rewrite Hrole. cbn [String.eqb Ascii.eqb Bool.eqb].
    destruct (manager_is (u_manager_id owner) user) eqn:Hm.
    - apply manager_is_spec in Hm. contradiction.
    - reflexivity. }
  split; [exact Hrun | split].
  - unfold dispatch. now rewrite Hrun.
  - intros admin t. apply in_team_admin.
Qed.

(** The manager m001 tries to approve lv-2, a record of e002. *)
Lemma approve_outside_team_forbidden_witness :
  api_approve (as_user "m001")
    (Parsed (JDict (approval_body "leave" "lv-2" "approved"))) demo_file
  = (demo_file, Ok (Json 403 (Failure "Cannot approve outside your team")))
  /\ dispatch (api_approve (as_user "m001")
                 (Parsed (JDict (approval_body "leave" "lv-2" "approved"))))
       demo_file
     = (demo_file, Json 403 (Failure "Cannot approve outside your team"))
  /\ (forall (admin : User) (t : subject),
        u_role admin = "admin" -> in_team admin t = Ok true).
Proof.
  apply (approve_outside_team_forbidden (as_user "m001")
           (approval_body "leave" "lv-2" "approved") "leave" "approved"
           demo_file demo_file DEMO
           (mkUser "m001" "Mika Yamada" "manager" "Sales" (Some "a001") 22)
           (mkUser "e002" "Bob Suzuki" "employee" "Engineering" (Some "m002") 18)
           (JStr "lv-2") (Leave lv2)).
  - vm_compute. reflexivity.
  - left. reflexivity.
  - vm_compute. reflexivity.
  - left. reflexivity.
  - reflexivity.
  - vm_compute. reflexivity.
  - reflexivity.
  - vm_compute. reflexivity.
  - vm_compute. reflexivity.
  - vm_compute. reflexivity.
  - discriminate.
Defined.

Example approve_inside_team_demo :
  api_approve (as_user "m001")
    (Parsed (JDict (approval_body "leave" "lv-1" "rejected"))) demo_file
  = (Some (Document (decide_in "leave" (JStr "lv-1") (JStr "rejected") (JStr "")
                       "Mika Yamada" DEMO)),
     Ok (Json 200 (OneItem (Leave (decide_leave (JStr "rejected") (JStr "")
                                     "Mika Yamada" lv1))))).
Proof. vm_compute. reflexivity. Qed.

(** ** Creation *)

Lemma missing_fields_dict (body : gmap string json) (required : list string) :
  missing_fields (JDict body) required
  = Ok (List.filter (fun k => negb (truthy (field body k))) required).
Proof.
  unfold missing_fields. apply filter_r_total. intros k _. reflexivity.
Qed.

(** The responses that [require_user] sends are failures, 401 or 403. *)
Lemma require_user_sent (h : headers) (data : Dataset) (r : response) :
  require_user h data = inl r ->
  exists s m, r = Json s (Failure m) /\ (s = 401 \/ s = 403).
Proof.
  unfold require_user.
  destruct (x_user_id h) as [uid |]; [| intros [= <-]; eauto].
  destruct (negb (nonempty uid)); [intros [= <-]; eauto |].
  destruct (user_lookup data !! uid) as [u |]; [| intros [= <-]; eauto].
  destruct (x_user_role h) as [r0 |]; [| discriminate].
  destruct (nonempty r0 && negb (String.eqb (u_role u) r0));
    [intros [= <-]; eauto | discriminate].
Qed.

Lemma field_truthy (body : gmap string json) (key : string) (v : json) :
  body !! key = Some v -> field body key = v.
Proof. unfold field. now intros ->. Qed.

(** C7: with parseable dates, a leave creation whose end date is before its
    start date is refused with a 400 response without saving; otherwise the
    record that is created carries days = (end - start).days + 1, whatever
    else the payload holds, and it is created as soon as leave_type and
    reason are present. *)
Theorem leave_days_inclusive (h : headers) (body : gmap string json)
    (now : clock) (f f' : file) (data : Dataset) (user : User)
    (s e : json) (start end_ : Date.date) :
  load_data f = (f', Ok data) ->
  require_user h data = inr user ->
  body !! "start_date" = Some s ->
  body !! "end_date" = Some e ->
  parse_date s = Ok start ->
  parse_date e = Ok end_ ->
  (Date.ltb end_ start = true ->
     f' = Some (Document data)
     /\ exists p,
          api_create_leave h (Parsed (JDict body)) now f
          = (f', Ok (Json 400 p)))
  /\ (Date.ltb end_ start = false ->
      (forall f'' it,
         api_create_leave h (Parsed (JDict body)) now f
         = (f'', Ok (Json 200 (OneItem it))) ->
         exists r,
           it = Leave r
           /\ lv_days r = Date.diff_days end_ start + 1
           /\ f'' = Some (Document (add_leave data r)))
      /\ (truthy (field body "leave_type") = true ->
          truthy (field body "reason") = true ->
          exists r,
            api_create_leave h (Parsed (JDict body)) now f
            = (Some (Document (add_leave data r)),
               Ok (Json 200 (OneItem (Leave r))))
            /\ lv_days r = Date.diff_days end_ start + 1)).
Proof.
  intros Hload Huser Hs He Hps Hpe.
  pose proof (proj1 (load_data_ok _ _ _ Hload)) as Hfile.
  assert (Hts : truthy (field body "start_date") = true).
  { rewrite (field_truthy _ _ _ Hs). destruct s; try discriminate.
    simpl. destruct s; [discriminate | reflexivity]. }
  assert (Hte : truthy (field body "end_date") = true).
  { rewrite (field_truthy _ _ _ He). destruct e; try discriminate.
    simpl. destruct s0; [discriminate | reflexivity]. }
  unfold api_create_leave, bind, lift, ret, read_json.
  rewrite Hload, Huser, missing_fields_dict.
  cbn [List.filter]. rewrite Hts, Hte. cbn [negb].
  destruct (truthy (field body "leave_type")) eqn:Hlt; cbn [negb is_empty];
    [| split; [eauto | intros _; split; [discriminate | discriminate]]].
  destruct (truthy (field body "reason")) eqn:Hr; cbn [negb is_empty];
    [| split; [eauto | intros _; split; [discriminate | discriminate]]].
  unfold py_getitem, py_get, save_data, write_text.
  rewrite Hs, He, Hps, Hpe.
  assert (Hl : exists lt, body !! "leave_type" = Some lt).
  { unfold field in Hlt. destruct (body !! "leave_type"); [eauto | discriminate]. }
  destruct Hl as (lt & Hl). rewrite Hl.
  split.
  - intros ->. eauto.
  - intros ->. split.
    + intros f'' it [= <- <-]. eexists. split; [reflexivity |].
      split; reflexivity.
    + intros _ _. eexists. split; reflexivity.
Qed.

(** 2025-03-10 to 2025-03-01 is refused; 2025-03-01 to 2025-03-10 is ten
    days. *)
Lemma leave_days_inclusive_witness :
  (demo_file = Some (Document DEMO)
   /\ exists p,
        api_create_leave (as_user "e001")
          (Parsed (JDict (leave_body "2025-03-10" "2025-03-01")))
          demo_clock demo_file
        = (demo_file, Ok (Json 400 p)))
  /\ (exists r,
        api_create_leave (as_user "e001")
          (Parsed (JDict (leave_body "2025-03-01" "2025-03-10"))) demo_clock demo_file
        = (Some (Document (add_leave DEMO r)), Ok (Json 200 (OneItem (Leave r))))
        /\ lv_days r = 10).
Proof.
  split.
  - apply (leave_days_inclusive (as_user "e001")
             (leave_body "2025-03-10" "2025-03-01") demo_clock
             demo_file demo_file DEMO alice
             (JStr "2025-03-10") (JStr "2025-03-01")
             (Date.mkdate 2025 3 10) (Date.mkdate 2025 3 1));
      vm_compute; reflexivity.
  - destruct (leave_days_inclusive (as_user "e001")
                (leave_body "2025-03-01" "2025-03-10") demo_clock
                demo_file demo_file DEMO alice
                (JStr "2025-03-01") (JStr "2025-03-10")
                (Date.mkdate 2025 3 1) (Date.mkdate 2025 3 10))
      as [_ Hok]; try (vm_compute; reflexivity).
    destruct Hok as [_ Hmake]; [reflexivity |].
    destruct Hmake as (r & Hrun & Hdays); try reflexivity.
    exists r. split; [exact Hrun | exact Hdays].
Defined.

(** C5, as the code has it: when the four required fields are present and
    a date, sent as ASCII text or as a value that is not a string, does not
    parse, the exception of [parse_date] reaches the dispatcher, which
    answers 500; when leave_type or reason is missing the answer is the 400
    "Missing fields".  Nothing is saved in either case.  The date that
    fails is asked to be ASCII because [Date.digit] accepts the ASCII
    digits only; the other date is free, since the handler raises at the
    first date that fails. *)
Theorem create_leave_bad_date (h : headers) (body : gmap string json)
    (now : clock) (f f' : file) (data : Dataset) (user : User) (s e : json) :
  load_data f = (f', Ok data) ->
  require_user h data = inr user ->
  body !! "start_date" = Some s -> truthy s = true ->
  body !! "end_date" = Some e -> truthy e = true ->
  (ascii_value s = true /\ exists x, parse_date s = Raise x)
  \/ (ascii_value e = true /\ exists x, parse_date e = Raise x) ->
  f' = Some (Document data)
  /\ dispatch (api_create_leave h (Parsed (JDict body)) now) f
     = (f',
        if truthy (field body "leave_type") && truthy (field body "reason")
        then internal_error
        else Json 400 (MissingFields
               (List.filter (fun k => negb (truthy (field body k)))
                  ["leave_type"; "reason"]))).
Proof.
  intros Hload Huser Hs Hts He Hte Hbad.
  split; [apply (load_data_ok _ _ _ Hload) |].
  unfold dispatch, api_create_leave, bind, lift, ret, read_json.
  rewrite Hload, Huser, missing_fields_dict.
  cbn [List.filter].
  rewrite (field_truthy _ _ _ Hs), (field_truthy _ _ _ He), Hts, Hte.
  cbn [negb].
  destruct (truthy (field body "leave_type")) eqn:Hlt; cbn [negb is_empty andb];
    [| now destruct (truthy (field body "reason"))].
  destruct (truthy (field body "reason")) eqn:Hr; cbn [negb is_empty];
    [| reflexivity].
  unfold py_getitem. rewrite Hs, He.
  destruct (parse_date s) as [start | x] eqn:Hps; [| reflexivity].
  destruct (parse_date e) as [end_ | x] eqn:Hpe; [| reflexivity].
  destruct Hbad as [(_ & x & Hx) | (_ & x & Hx)]; discriminate.
Qed.

(** A complete payload whose start date is 2025-02-30. *)
Lemma create_leave_bad_date_witness :
  demo_file = Some (Document DEMO)
  /\ dispatch (api_create_leave (as_user "e001")
                (Parsed (JDict (leave_body "2025-02-30" "2025-03-01")))
                demo_clock) demo_file
     = (demo_file, internal_error).
Proof.
  apply (create_leave_bad_date (as_user "e001")
           (leave_body "2025-02-30" "2025-03-01") demo_clock
           demo_file demo_file DEMO alice
           (JStr "2025-02-30") (JStr "2025-03-01")).
  - reflexivity.
  - vm_compute. reflexivity.
  - vm_compute. reflexivity.
  - reflexivity.
  - vm_compute. reflexivity.
  - reflexivity.
  - left. split; [reflexivity | exists ValueError; reflexivity].
Defined.

(** C5 as the specification words it fails: every required field is
    present, the start date is not a date, and the answer is the generic
    500 response, not a 400 validation response. *)
Lemma create_leave_bad_date_not_400 :
  missing_fields (JDict (leave_body "2025-02-30" "2025-03-01"))
    ["start_date"; "end_date"; "leave_type"; "reason"] = Ok []
  /\ parse_date (JStr "2025-02-30") = Raise ValueError
  /\ require_user (as_user "e001") DEMO = inr alice
  /\ dispatch (api_create_leave (as_user "e001")
                (Parsed (JDict (leave_body "2025-02-30" "2025-03-01")))
                demo_clock) demo_file
     = (demo_file, Json 500 (Failure "Internal server error. Please retry."))
  /\ forall p,
       dispatch (api_create_leave (as_user "e001")
                   (Parsed (JDict (leave_body "2025-02-30" "2025-03-01")))
                   demo_clock) demo_file
       <> (demo_file, Json 400 p).
Proof.
  repeat split; try (vm_compute; reflexivity).
  intros p. vm_compute. discriminate.
Qed.

(** Case analysis on the next test of a handler run [H]. *)
Ltac next_case H :=
  match type of H with
  | context [match ?x with _ => _ end] =>
      destruct x eqn:?; try discriminate H
  end.

Lemma create_leave_owner (h : headers) (raw : raw_body) (now : clock)
    (f f' : file) (it : item) :
  api_create_leave h raw now f = (f', Ok (Json 200 (OneItem it))) ->
  exists f0 data user r,
    load_data f = (f0, Ok data)
    /\ require_user h data = inr user
    /\ it = Leave r
    /\ f' = Some (Document (add_leave data r))
    /\ lv_user_id r = u_id user
    /\ lv_employee_name r = u_name user
    /\ lv_department r = u_department user.
Proof.
  unfold api_create_leave, bind, lift, ret, save_data, write_text. intros H.
  destruct (read_json raw) as [body |]; [| discriminate].
  destruct (load_data f) as [f0 [data |]]; [| discriminate].
  destruct (require_user h data) as [sent | user] eqn:Huser.
  { apply require_user_sent in Huser as (s & m & -> & _). discriminate. }
  repeat next_case H.
  injection H as <- <-.
  exists f0, data, user. eexists. repeat split. exact Huser.
Qed.

Lemma create_correction_owner (h : headers) (raw : raw_body) (now : clock)
    (f f' : file) (it : item) :
  api_create_correction h raw now f = (f', Ok (Json 200 (OneItem it))) ->
  exists f0 data user c,
    load_data f = (f0, Ok data)
    /\ require_user h data = inr user
    /\ it = Correction c
    /\ f' = Some (Document (add_correction data c))
    /\ ac_user_id c = u_id user
    /\ ac_employee_name c = u_name user
    /\ ac_department c = u_department user.
Proof.
  unfold api_create_correction, bind, lift, ret, save_data, write_text. intros H.
  destruct (read_json raw) as [body |]; [| discriminate].
  destruct (load_data f) as [f0 [data |]]; [| discriminate].
  destruct (require_user h data) as [sent | user] eqn:Huser.
  { apply require_user_sent in Huser as (s & m & -> & _). discriminate. }
  repeat next_case H.
  injection H as <- <-.
  exists f0, data, user. eexists. repeat split. exact Huser.
Qed.

(** A value that [body.get] finds truthy is stored under its key. *)
Lemma truthy_field_present (body : gmap string json) (key : string) :
  truthy (field body key) = true -> body !! key = Some (field body key).
Proof.
  unfold field. destruct (body !! key); [reflexivity | discriminate].
Qed.

(** A value that parses as a date is a string that is not empty. *)
Lemma parse_date_truthy (v : json) (d : Date.date) :
  parse_date v = Ok d -> truthy v = true.
Proof.
  destruct v as [| | | | s | |]; try discriminate.
  destruct s; [discriminate | reflexivity].
Qed.

(** The run of [api_create_leave] on a complete payload whose dates parse
    and are in order. *)
Lemma create_leave_succeeds (h : headers) (body : gmap string json)
    (now : clock) (f f0 : file) (data : Dataset) (user : User)
    (start end_ : Date.date) :
  load_data f = (f0, Ok data) ->
  require_user h data = inr user ->
  truthy (field body "leave_type") = true ->
  truthy (field body "reason") = true ->
  parse_date (field body "start_date") = Ok start ->
  parse_date (field body "end_date") = Ok end_ ->
  Date.ltb end_ start = false ->
  let r := {|
    lv_id := generate_id "lv" (stamp now);
    lv_user_id := u_id user;
    lv_employee_name := u_name user;
    lv_department := u_department user;
    lv_leave_type := field body "leave_type";
    lv_start_date := field body "start_date";
    lv_end_date := field body "end_date";
    lv_days := Date.diff_days end_ start + 1;
    lv_reason := field body "reason";
    lv_status := JStr "pending";
    lv_approver_comment := JStr "";
    lv_approved_by := "";
    lv_created_at := isoformat now |} in
  api_create_leave h (Parsed (JDict body)) now f
  = (Some (Document (add_leave data r)), Ok (Json 200 (OneItem (Leave r)))).
Proof.
  intros Hload Huser Hlt Hr Hps Hpe Hord r. subst r.
  pose proof (parse_date_truthy _ _ Hps) as Hts.
  pose proof (parse_date_truthy _ _ Hpe) as Hte.
  unfold api_create_leave, bind, lift, ret, read_json.
  rewrite Hload, Huser, missing_fields_dict.
  cbn [List.filter]. rewrite Hts, Hte, Hlt, Hr. cbn [negb is_empty].
  unfold py_getitem, py_get, save_data, write_text.
  rewrite (truthy_field_present _ _ Hts), (truthy_field_present _ _ Hte),
    (truthy_field_present _ _ Hlt), (truthy_field_present _ _ Hr).
  rewrite Hps, Hpe, Hord. reflexivity.
Qed.

(** The run of [api_create_correction] on a complete payload. *)
Lemma create_correction_succeeds (h : headers) (body : gmap string json)
    (now : clock) (f f0 : file) (data : Dataset) (user : User) :
  load_data f = (f0, Ok data) ->
  require_user h data = inr user ->
  truthy (field body "date") = true ->
  truthy (field body "clock_in") = true ->
  truthy (field body "clock_out") = true ->
  truthy (field body "reason") = true ->
  let c := {|
    ac_id := generate_id "ac" (stamp now);
    ac_user_id := u_id user;
    ac_employee_name := u_name user;
    ac_department := u_department user;
    ac_date := field body "date";
    ac_clock_in := field body "clock_in";
    ac_clock_out := field body "clock_out";
    ac_break_minutes :=
      match body !! "break_minutes" with Some x => x | None => JInt 0 end;
    ac_overtime_hours :=
      match body !! "overtime_hours" with Some x => x | None => JInt 0 end;
    ac_reason := field body "reason";
    ac_status := JStr "pending";
    ac_approver_comment := JStr "";
    ac_approved_by := "";
    ac_created_at := isoformat now |} in
  api_create_correction h (Parsed (JDict body)) now f
  = (Some (Document (add_correction data c)),
     Ok (Json 200 (OneItem (Correction c)))).
Proof.
  intros Hload Huser Hd Hi Ho Hr c. subst c.
  unfold api_create_correction, bind, lift, ret, read_json.
  rewrite Hload, Huser, missing_fields_dict.
  cbn [List.filter]. rewrite Hd, Hi, Ho, Hr. cbn [negb is_empty].
  unfold py_getitem, py_get, save_data, write_text.
  rewrite (truthy_field_present _ _ Hd), (truthy_field_present _ _ Hi),
    (truthy_field_present _ _ Ho), (truthy_field_present _ _ Hr).
  reflexivity.
Qed.

(** The creation handlers read the payload at fixed keys only, none of which
    names the owner. *)
Lemma create_leave_reads (h : headers) (now : clock) (f : file)
    (b1 b2 : gmap string json) :
  (forall k, In k ["start_date"; "end_date"; "leave_type"; "reason"] ->
             b1 !! k = b2 !! k) ->
  api_create_leave h (Parsed (JDict b1)) now f
  = api_create_leave h (Parsed (JDict b2)) now f.
Proof.
  intros Hsame.
  unfold api_create_leave, bind, lift, ret, read_json, missing_fields,
    py_getitem, py_get.
  cbn [filter_r].
  rewrite (Hsame "start_date"), (Hsame "end_date"), (Hsame "leave_type"),
    (Hsame "reason") by (simpl; tauto).
  reflexivity.
Qed.

Lemma create_correction_reads (h : headers) (now : clock) (f : file)
    (b1 b2 : gmap string json) :
  (forall k, In k ["date"; "clock_in"; "clock_out"; "reason";
                   "break_minutes"; "overtime_hours"] ->
             b1 !! k = b2 !! k) ->
  api_create_correction h (Parsed (JDict b1)) now f
  = api_create_correction h (Parsed (JDict b2)) now f.
Proof.
  intros Hsame.
  unfold api_create_correction, bind, lift, ret, read_json, missing_fields,
    py_getitem, py_get.
  cbn [filter_r].
  rewrite (Hsame "date"), (Hsame "clock_in"), (Hsame "clock_out"),
    (Hsame "reason"), (Hsame "break_minutes"), (Hsame "overtime_hours")
    by (simpl; tauto).
  reflexivity.
Qed.

(** C6: let two payloads differ only at the keys user_id, employee_name
    and department.  Either creation handler runs the same on both (same
    response, same file).  When it answers 200 with a record, the file it
    leaves holds the dataset with that record appended, and the record
    carries the id, name and department of the user that [require_user]
    resolved.  And it does create: on a complete payload (for a leave
    request, with dates that parse and are in order) the answer is 200, on
    both payloads, with one and the same record, stored, whose owner fields
    are those of the resolved user. *)
Theorem owner_fields_from_identity (h : headers) (now : clock) (f : file)
    (b1 b2 : gmap string json) :
  (forall k, k <> "user_id" -> k <> "employee_name" -> k <> "department" ->
             b1 !! k = b2 !! k) ->
  (api_create_leave h (Parsed (JDict b1)) now f
   = api_create_leave h (Parsed (JDict b2)) now f
   /\ (forall f' it,
        api_create_leave h (Parsed (JDict b1)) now f
        = (f', Ok (Json 200 (OneItem it))) ->
        exists f0 data user r,
          load_data f = (f0, Ok data)
          /\ require_user h data = inr user
          /\ it = Leave r
          /\ f' = Some (Document (add_leave data r))
          /\ lv_user_id r = u_id user
          /\ lv_employee_name r = u_name user
          /\ lv_department r = u_department user)
   /\ (forall f0 data user start end_,
        load_data f = (f0, Ok data) ->
        require_user h data = inr user ->
        truthy (field b1 "leave_type") = true ->
        truthy (field b1 "reason") = true ->
        parse_date (field b1 "start_date") = Ok start ->
        parse_date (field b1 "end_date") = Ok end_ ->
        Date.ltb end_ start = false ->
        exists r,
          api_create_leave h (Parsed (JDict b1)) now f
          = (Some (Document (add_leave data r)),
             Ok (Json 200 (OneItem (Leave r))))
          /\ api_create_leave h (Parsed (JDict b2)) now f
             = (Some (Document (add_leave data r)),
                Ok (Json 200 (OneItem (Leave r))))
          /\ leave_requests (add_leave data r)
             = (leave_requests data ++ [r])%list
          /\ lv_user_id r = u_id user
          /\ lv_employee_name r = u_name user
          /\ lv_department r = u_department user))
  /\ (api_create_correction h (Parsed (JDict b1)) now f
      = api_create_correction h (Parsed (JDict b2)) now f
      /\ (forall f' it,
           api_create_correction h (Parsed (JDict b1)) now f
           = (f', Ok (Json 200 (OneItem it))) ->
           exists f0 data user c,
             load_data f = (f0, Ok data)
             /\ require_user h data = inr user
             /\ it = Correction c
             /\ f' = Some (Document (add_correction data c))
             /\ ac_user_id c = u_id user
             /\ ac_employee_name c = u_name user
             /\ ac_department c = u_department user)
      /\ (forall f0 data user,
           load_data f = (f0, Ok data) ->
           require_user h data = inr user ->
           truthy (field b1 "date") = true ->
           truthy (field b1 "clock_in") = true ->
           truthy (field b1 "clock_out") = true ->
           truthy (field b1 "reason") = true ->
           exists c,
             api_create_correction h (Parsed (JDict b1)) now f
             = (Some (Document (add_correction data c)),
                Ok (Json 200 (OneItem (Correction c))))
             /\ api_create_correction h (Parsed (JDict b2)) now f
                = (Some (Document (add_correction data c)),
                   Ok (Json 200 (OneItem (Correction c))))
             /\ attendance_corrections (add_correction data c)
                = (attendance_corrections data ++ [c])%list
             /\ ac_user_id c = u_id user
             /\ ac_employee_name c = u_name user
             /\ ac_department c = u_department user)).
Proof.
  intros Hagree.
  assert (Hkeys : forall k,
            In k ["start_date"; "end_date"; "leave_type"; "reason"; "date";
                  "clock_in"; "clock_out"; "break_minutes"; "overtime_hours"] ->
            b1 !! k = b2 !! k).
  { intros k Hk. apply Hagree; intros ->; simpl in Hk;
      repeat (destruct Hk as [Hk | Hk]; [discriminate Hk |]); exact Hk. }
  assert (Hleave : api_create_leave h (Parsed (JDict b1)) now f
                   = api_create_leave h (Parsed (JDict b2)) now f).
  { apply create_leave_reads. intros k Hk. apply Hkeys. simpl in *. tauto. }
  assert (Hcorr : api_create_correction h (Parsed (JDict b1)) now f
                  = api_create_correction h (Parsed (JDict b2)) now f).
  { apply create_correction_reads. intros k Hk. apply Hkeys.
    simpl in *. tauto. }
  split; (split; [assumption | split]).
  - intros f' it. apply create_leave_owner.
  - intros f0 data user start end_ Hload Huser Hlt Hr Hps Hpe Hord.
    rewrite <- Hleave.
    rewrite (create_leave_succeeds h b1 now f f0 data user start end_
               Hload Huser Hlt Hr Hps Hpe Hord).
    eexists. repeat split.
  - intros f' it. apply create_correction_owner.
  - intros f0 data user Hload Huser Hd Hi Ho Hr.
    rewrite <- Hcorr.
    rewrite (create_correction_succeeds h b1 now f f0 data user
               Hload Huser Hd Hi Ho Hr).
    eexists. repeat split.
Qed.

(** Alice (e001, Sales) sends a leave payload and a correction payload that
    name a001, Admin Ito and HQ as owner: both records are created and
    stored as hers, as they are without those keys. *)
Lemma owner_fields_from_identity_witness :
  (exists r,
     api_create_leave (as_user "e001")
       (Parsed (JDict (<["user_id" := JStr "a001"]>
                         (<["employee_name" := JStr "Admin Ito"]>
                            (<["department" := JStr "HQ"]>
                               (leave_body "2025-03-01" "2025-03-10"))))))
       demo_clock demo_file
     = (Some (Document (add_leave DEMO r)),
        Ok (Json 200 (OneItem (Leave r))))
     /\ api_create_leave (as_user "e001")
          (Parsed (JDict (leave_body "2025-03-01" "2025-03-10")))
          demo_clock demo_file
        = (Some (Document (add_leave DEMO r)),
           Ok (Json 200 (OneItem (Leave r))))
     /\ leave_requests (add_leave DEMO r) = (leave_requests DEMO ++ [r])%list
     /\ lv_user_id r = "e001"
     /\ lv_employee_name r = "Alice Tanaka"
     /\ lv_department r = "Sales")
  /\ (exists c,
        api_create_correction (as_user "e001")
          (Parsed (JDict (<["user_id" := JStr "a001"]>
                            (<["employee_name" := JStr "Admin Ito"]>
                               (<["department" := JStr "HQ"]>
                                  (correction_body "2025-03-03"))))))
          demo_clock demo_file
        = (Some (Document (add_correction DEMO c)),
           Ok (Json 200 (OneItem (Correction c))))
        /\ api_create_correction (as_user "e001")
             (Parsed (JDict (correction_body "2025-03-03"))) demo_clock demo_file
           = (Some (Document (add_correction DEMO c)),
              Ok (Json 200 (OneItem (Correction c))))
        /\ attendance_corrections (add_correction DEMO c)
           = (attendance_corrections DEMO ++ [c])%list
        /\ ac_user_id c = "e001"
        /\ ac_employee_name c = "Alice Tanaka"
        /\ ac_department c = "Sales").
Proof.
  split.
  - destruct (owner_fields_from_identity (as_user "e001") demo_clock demo_file
                (<["user_id" := JStr "a001"]>
                   (<["employee_name" := JStr "Admin Ito"]>
                      (<["department" := JStr "HQ"]>
                         (leave_body "2025-03-01" "2025-03-10"))))
                (leave_body "2025-03-01" "2025-03-10"))
      as [(_ & _ & Hmake) _].
    + intros k Hu Hn Hd. now rewrite !lookup_insert_ne by congruence.
    + apply (Hmake demo_file DEMO alice
               (Date.mkdate 2025 3 1) (Date.mkdate 2025 3 10));
        vm_compute; reflexivity.
  - destruct (owner_fields_from_identity (as_user "e001") demo_clock demo_file
                (<["user_id" := JStr "a001"]>
                   (<["employee_name" := JStr "Admin Ito"]>
                      (<["department" := JStr "HQ"]>
                         (correction_body "2025-03-03"))))
                (correction_body "2025-03-03"))
      as [_ (_ & _ & Hmake)].
    + intros k Hu Hn Hd. now rewrite !lookup_insert_ne by congruence.
    + apply (Hmake demo_file DEMO alice); vm_compute; reflexivity.
Defined.

Example spoofed_owner_is_ignored :
  exists r,
    api_create_leave (as_user "e001")
      (Parsed (JDict (<["user_id" := JStr "a001"]>
                        (leave_body "2025-03-01" "2025-03-10"))))
      demo_clock demo_file
    = (Some (Document (add_leave DEMO r)), Ok (Json 200 (OneItem (Leave r))))
    /\ lv_user_id r = "e001" /\ lv_employee_name r = "Alice Tanaka"
    /\ lv_department r = "Sales" /\ lv_id r = "lv-20250301093000000000".
Proof. eexists. vm_compute. repeat split. Qed.

(** ** Reports *)

Lemma filter_r_spec {A : Type} (p : A -> result bool) (l r : list A) :
  filter_r p l = Ok r ->
  forall x, In x r <-> In x l /\ p x = Ok true.
Proof.
  revert r. induction l as [| a l IH]; simpl; intros r H x.
  - injection H as <-. simpl. tauto.
  - destruct (p a) as [b |] eqn:Hpa; [| discriminate].
    destruct (filter_r p l) as [r' |]; [| discriminate].
    injection H as <-. specialize (IH r' eq_refl x).
    destruct b; simpl; rewrite IH; split.
    + intros [<- | [Hin Hp]]; auto.
    + intros [[<- | Hin] Hp]; auto.
    + intros [Hin Hp]; auto.
    + intros [[<- | Hin] Hp]; [congruence | auto].
Qed.

Lemma filter_r_defined {A : Type} (p : A -> result bool) (l : list A) :
  (forall x, In x l -> exists b, p x = Ok b) ->
  exists r, filter_r p l = Ok r.
Proof.
  induction l as [| a l IH]; simpl; intros Hp.
  - eauto.
  - destruct (Hp a (or_introl eq_refl)) as (b & ->).
    destruct IH as (r & ->); [intros x Hx; apply Hp; now right |].
    eauto.
Qed.

(** *** The leave totals *)

Lemma assoc_summary_add (uid : string) (d : Z) (acc : list (string * Z))
    (k : string) :
  assoc (summary_add uid d acc) k
  = if String.eqb uid k then Some (total acc uid + d) else assoc acc k.
Proof.
  unfold total. induction acc as [| [k' v] rest IH]; simpl.
  - reflexivity.
  - destruct (String.eqb_spec k' uid) as [-> | Hne]; simpl.
    + destruct (String.eqb_spec uid k); reflexivity.
    + rewrite IH.
      destruct (String.eqb_spec k' k) as [-> | Hne'];
        destruct (String.eqb_spec uid k) as [-> | Hne'']; congruence.
Qed.

Lemma keys_summary_add (uid : string) (d : Z) (acc : list (string * Z)) :
  (forall k, In k (map fst (summary_add uid d acc))
             <-> k = uid \/ In k (map fst acc))
  /\ (List.NoDup (map fst acc) -> List.NoDup (map fst (summary_add uid d acc))).
Proof.
  induction acc as [| [k' v] rest [IHin IHnd]]; simpl.
  - split; [intros k; intuition congruence |].
    intros _. apply List.NoDup_cons_iff. split; [simpl; tauto | constructor].
  - destruct (String.eqb_spec k' uid) as [-> | Hne]; simpl.
    + split; [intros k; intuition congruence | auto].
    + split.
      * intros k. rewrite IHin. tauto.
      * intros [Hnotin Hnd]%List.NoDup_cons_iff. apply List.NoDup_cons_iff. split.
        -- rewrite IHin. intros [-> | Hin]; [congruence | contradiction].
        -- auto.
Qed.

Lemma assoc_in (acc : list (string * Z)) (k : string) (v : Z) :
  List.NoDup (map fst acc) -> In (k, v) acc -> assoc acc k = Some v.
Proof.
  induction acc as [| [k' v'] rest IH]; simpl; [tauto |].
  intros [Hnotin Hnd]%List.NoDup_cons_iff [[= -> ->] | Hin].
  - now rewrite String.eqb_refl.
  - destruct (String.eqb_spec k' k) as [-> | Hne]; [| auto].
    exfalso. apply Hnotin. apply (in_map fst) in Hin. exact Hin.
Qed.

Lemma days_taken_cons (k : string) (r : item) (items : list item) :
  days_taken k (r :: items)
  = (if String.eqb (item_user_id r) k then item_days r else 0)
    + days_taken k items.
Proof.
  unfold days_taken. simpl.
  destruct (String.eqb (item_user_id r) k); simpl; lia.
Qed.

Lemma leave_summary_from (items : list item) (acc : list (string * Z)) :
  let res :=
    foldl (fun acc r => summary_add (item_user_id r) (item_days r) acc)
      acc items in
  (List.NoDup (map fst acc) -> List.NoDup (map fst res))
  /\ (forall k, In k (map fst res) ->
                total res k = total acc k + days_taken k items).
Proof.
  revert acc. induction items as [| r items IH]; intros acc; simpl.
  - split; [auto |]. intros k _. unfold days_taken. simpl. lia.
  - destruct (IH (summary_add (item_user_id r) (item_days r) acc))
      as [IHnd IHtot].
    destruct (keys_summary_add (item_user_id r) (item_days r) acc)
      as [_ Hnd].
    split; [auto |].
    intros k Hk. rewrite (IHtot k Hk), days_taken_cons.
    unfold total at 1. rewrite assoc_summary_add.
    destruct (String.eqb (item_user_id r) k) eqn:E.
    + apply String.eqb_eq in E. subst k. lia.
    + fold (total acc k). lia.
Qed.

(** Every entry of the summary holds the sum of the days of its user, and
    no user has two entries. *)
Lemma leave_summary_sums (items : list item) :
  List.NoDup (map fst (leave_summary items))
  /\ forall uid v, In (uid, v) (leave_summary items) ->
                   v = days_taken uid items.
Proof.
  destruct (leave_summary_from items []) as [Hnd Htot].
  fold (leave_summary items) in Hnd, Htot.
  specialize (Hnd (List.NoDup_nil _)).
  split; [exact Hnd |].
  intros uid v Hin.
  specialize (Htot uid (in_map fst _ _ Hin)).
  unfold total in Htot. rewrite (assoc_in _ _ _ Hnd Hin) in Htot.
  simpl in Htot. lia.
Qed.

Lemma report_rows_ids (users : gmap string User) (summary : list (string * Z)) :
  map row_employee_id (map (report_row_of users) summary) = map fst summary.
Proof.
  induction summary as [| [uid v] rest IH]; simpl; [reflexivity |].
  now rewrite IH.
Qed.

(** C8: in a summary report every row carries, as leave_days_taken, the sum
    of the days of the approved leave records of that employee that pass
    the filters, and as leave_days_remaining the maximum of allowance minus
    taken and 0, which is never negative; no employee has two rows. *)
Theorem leave_days_remaining_formula (h : headers) (q : query) (f f' : file)
    (data : Dataset) (user : User) (start_date end_date : option Date.date)
    (leave_items corr_items : list item) :
  load_data f = (f', Ok data) ->
  require_user h data = inr user ->
  guard_role user ["manager"; "admin"] = None ->
  parse_filter (query_get q "start" "") = Ok start_date ->
  parse_filter (query_get q "end" "") = Ok end_date ->
  report_leave_items data (query_get q "department" "")
    (query_get q "employee" "") start_date end_date = Ok leave_items ->
  report_corr_items data (query_get q "department" "")
    (query_get q "employee" "") start_date end_date = Ok corr_items ->
  exists r,
    api_reports h q f = (f', Ok (Json 200 (Report r)))
    /\ List.NoDup (map row_employee_id (leave_totals r))
    /\ (forall it,
          In it leave_items <->
          In it (map Leave (leave_requests data))
          /\ approved_and
               (match_filters (user_lookup data) (query_get q "department" "")
                  (query_get q "employee" "") start_date end_date) it
             = Ok true)
    /\ forall row,
         In row (leave_totals r) ->
         row_leave_days_taken row
         = days_taken (row_employee_id row) leave_items
         /\ row_leave_days_remaining row
            = Z.max (allowance_of data (row_employee_id row)
                     - row_leave_days_taken row) 0
         /\ 0 <= row_leave_days_remaining row.
Proof.
  intros Hload Huser Hrole Hstart Hend Hleave Hcorr.
  eexists. split; [| split; [| split]].
  - unfold api_reports, bind, lift, ret.
    rewrite Hload, Huser, Hrole, Hstart, Hend, Hleave, Hcorr. reflexivity.
  - simpl. rewrite report_rows_ids. apply leave_summary_sums.
  - apply filter_r_spec. exact Hleave.
  - simpl. intros row ([uid v] & <- & Hin)%in_map_iff.
    apply leave_summary_sums in Hin. subst v.
    unfold report_row_of, allowance_of; simpl.
    repeat split. lia.
Qed.

Example report_demo :
  api_reports (as_user "a001") ∅ demo_file
  = (demo_file,
     Ok (Json 200 (Report {|
       leave_totals := [
         mkRow "e001" "Alice Tanaka" "Sales" 10 10;
         mkRow "e002" "Bob Suzuki" "Engineering" 32 0 ];
       correction_count := 1;
       filters := mkFilters "" "" "" "" |}))).
Proof. vm_compute. reflexivity. Qed.

(** The unfiltered report of the sample dataset. *)
Lemma leave_days_remaining_formula_witness :
  exists r,
    api_reports (as_user "a001") ∅ demo_file
    = (demo_file, Ok (Json 200 (Report r)))
    /\ forall row,
         In row (leave_totals r) ->
         row_leave_days_taken row
         = days_taken (row_employee_id row)
             [Leave lv1; Leave lv2; Leave lv5]
         /\ row_leave_days_remaining row
            = Z.max (allowance_of DEMO (row_employee_id row)
                     - row_leave_days_taken row) 0
         /\ 0 <= row_leave_days_remaining row.
Proof.
  destruct (leave_days_remaining_formula (as_user "a001") ∅
              demo_file demo_file DEMO
              (mkUser "a001" "Admin Ito" "admin" "HQ" None 25) None None
              [Leave lv1; Leave lv2; Leave lv5] [Correction ac1])
    as (r & Hrun & _ & _ & Hrows); try (vm_compute; reflexivity).
  exists r. split; [exact Hrun | exact Hrows].
Defined.

(** *** The two date filters *)

Lemma match_filters_span (users : gmap string User) (dept emp : string)
    (sd ed s e : Date.date) (it : item) :
  span it s e ->
  match_filters users dept emp (Some sd) (Some ed) it
  = Ok (dept_emp_ok users dept emp it && Date.leb sd s && Date.leb e ed).
Proof.
  intros [Hs He]. unfold match_filters, Date.leb.
  destruct (dept_emp_ok users dept emp it); simpl; [| reflexivity].
  rewrite Hs. destruct (Date.ltb s sd); simpl; [reflexivity |].
  now rewrite He.
Qed.

Lemma match_span (users : gmap string User) (dept emp : string)
    (sd ed s e : Date.date) (it : item) :
  span it s e ->
  match_ users dept emp (Some sd) (Some ed) it
  = Ok (dept_emp_ok users dept emp it && Date.leb sd e && Date.leb s ed).
Proof.
  intros [Hs He]. unfold match_, Date.leb.
  destruct (dept_emp_ok users dept emp it); simpl; [| reflexivity].
  rewrite Hs, He.
  destruct (Date.ltb e sd); simpl; [reflexivity |].
  now destruct (Date.ltb ed s).
Qed.

Lemma span_unique (it : item) (s e s' e' : Date.date) :
  span it s e -> span it s' e' -> s = s' /\ e = e'.
Proof. intros [Hs He] [Hs' He']. split; congruence. Qed.

Lemma summary_test (users : gmap string User) (dept emp : string)
    (sd ed : Date.date) (it : item) :
  (exists s e, span it s e) ->
  (exists b, approved_and (match_filters users dept emp (Some sd) (Some ed)) it
             = Ok b)
  /\ (approved_and (match_filters users dept emp (Some sd) (Some ed)) it
      = Ok true
      <-> eq_str (item_status it) "approved" = true
          /\ dept_emp_ok users dept emp it = true
          /\ within sd ed it).
Proof.
  intros (s & e & Hspan). unfold approved_and.
  rewrite (match_filters_span users dept emp sd ed s e it Hspan).
  destruct (eq_str (item_status it) "approved"); split; eauto.
  - split.
    + intros [= [[Hd Hs]%andb_prop He]%andb_prop].
      repeat split; [exact Hd |]. exists s, e. auto.
    + intros (_ & Hd & (s' & e' & Hspan' & Hs & He)).
      destruct (span_unique it s e s' e' Hspan Hspan') as [<- <-].
      now rewrite Hd, Hs, He.
  - split; [discriminate | intros [? _]; discriminate].
Qed.

Lemma export_test (users : gmap string User) (dept emp : string)
    (sd ed : Date.date) (it : item) :
  (exists s e, span it s e) ->
  (exists b, match_ users dept emp (Some sd) (Some ed) it = Ok b)
  /\ (match_ users dept emp (Some sd) (Some ed) it = Ok true
      <-> dept_emp_ok users dept emp it = true /\ overlaps sd ed it).
Proof.
  intros (s & e & Hspan).
  rewrite (match_span users dept emp sd ed s e it Hspan).
  split; [eauto |]. split.
  - intros [= [[Hd Hs]%andb_prop He]%andb_prop].
    split; [exact Hd |]. exists s, e. auto.
  - intros (Hd & (s' & e' & Hspan' & Hs & He)).
    destruct (span_unique it s e s' e' Hspan Hspan') as [<- <-].
    now rewrite Hd, Hs, He.
Qed.

Lemma dept_emp_ok_unfiltered (users : gmap string User) (it : item) :
  dept_emp_ok users "" "" it = true.
Proof. reflexivity. Qed.

Lemma within_b_spec (sd ed : Date.date) (it : item) :
  within_b sd ed it = true <-> within sd ed it.
Proof.
  unfold within_b, within, span.
  destruct (parse_date (item_start it)) as [s | x1];
    destruct (parse_date (item_end it)) as [e | x2]; split;
    try discriminate;
    try (intros (s' & e' & [Hs He] & _); discriminate).
  - intros [H1 H2]%andb_prop. exists s, e. auto.
  - intros (s' & e' & [[= <-] [= <-]] & H1 & H2). now rewrite H1, H2.
Qed.

Lemma overlaps_b_spec (sd ed : Date.date) (it : item) :
  overlaps_b sd ed it = true <-> overlaps sd ed it.
Proof.
  unfold overlaps_b, overlaps, span.
  destruct (parse_date (item_start it)) as [s | x1];
    destruct (parse_date (item_end it)) as [e | x2]; split;
    try discriminate;
    try (intros (s' & e' & [Hs He] & _); discriminate).
  - intros [H1 H2]%andb_prop. exists s, e. auto.
  - intros (s' & e' & [[= <-] [= <-]] & H1 & H2). now rewrite H1, H2.
Qed.

Lemma summary_test_b (users : gmap string User) (dept emp : string)
    (sd ed : Date.date) (it : item) :
  (exists s e, span it s e) ->
  approved_and (match_filters users dept emp (Some sd) (Some ed)) it
  = Ok (in_summary users dept emp sd ed it).
Proof.
  intros (s & e & Hspan). unfold approved_and, in_summary, within_b.
  rewrite (match_filters_span users dept emp sd ed s e it Hspan).
  destruct Hspan as [-> ->].
  destruct (eq_str (item_status it) "approved"); simpl;
    [now rewrite andb_assoc | reflexivity].
Qed.

Lemma export_test_b (users : gmap string User) (dept emp : string)
    (sd ed : Date.date) (it : item) :
  (exists s e, span it s e) ->
  match_ users dept emp (Some sd) (Some ed) it
  = Ok (in_export users dept emp sd ed it).
Proof.
  intros (s & e & Hspan). unfold in_export, overlaps_b.
  rewrite (match_span users dept emp sd ed s e it Hspan).
  destruct Hspan as [-> ->]. now rewrite andb_assoc.
Qed.

(** C1, on datasets whose stored dates parse: over one such dataset and
    one window [sd, ed], the summary report aggregates the leave requests,
    and counts the corrections, that are approved, pass the department and
    employee filters and lie within the window; the export lists the
    records of any status that pass the same two filters and overlap the
    window, leave requests first; a record that overlaps the window
    without lying within it is exported and is not in the summary. *)
Theorem summary_within_export_overlaps (h : headers) (q : query)
    (f f' : file) (data : Dataset) (user : User) (sd ed : Date.date) :
  load_data f = (f', Ok data) ->
  require_user h data = inr user ->
  guard_role user ["manager"; "admin"] = None ->
  parse_filter (query_get q "start" "") = Ok (Some sd) ->
  parse_filter (query_get q "end" "") = Ok (Some ed) ->
  (forall it, In it (all_items data) -> exists s e, span it s e) ->
  let users := user_lookup data in
  let dept := query_get q "department" "" in
  let emp := query_get q "employee" "" in
  let leave_items :=
    List.filter (in_summary users dept emp sd ed)
      (map Leave (leave_requests data)) in
  let corr_items :=
    List.filter (in_summary users dept emp sd ed)
      (map Correction (attendance_corrections data)) in
  let exported :=
    List.filter (in_export users dept emp sd ed) (all_items data) in
  api_reports h q f
  = (f', Ok (Json 200 (Report {|
       leave_totals := map (report_row_of users) (leave_summary leave_items);
       correction_count := Z.of_nat (length corr_items);
       filters := {| f_start := query_get q "start" "";
                     f_end := query_get q "end" "";
                     f_department := dept; f_employee := emp |} |})))
  /\ api_reports_export h q f
     = (f', Ok (Csv "reports.csv" (map export_item exported)))
  /\ (forall it,
        in_summary users dept emp sd ed it = true <->
        eq_str (item_status it) "approved" = true
        /\ dept_emp_ok users dept emp it = true
        /\ within sd ed it)
  /\ (forall it,
        in_export users dept emp sd ed it = true <->
        dept_emp_ok users dept emp it = true /\ overlaps sd ed it)
  /\ (forall it,
        In it (all_items data) ->
        dept_emp_ok users dept emp it = true ->
        overlaps sd ed it ->
        ~ within sd ed it ->
        ~ In it (leave_items ++ corr_items)%list /\ In it exported)
  /\ (dept = "" -> emp = "" ->
      forall it, dept_emp_ok users dept emp it = true).
Proof.
  intros Hload Huser Hrole Hstart Hend Hwf users dept emp
    leave_items corr_items exported.
  assert (Hwfl : forall it, In it (map Leave (leave_requests data)) ->
                            exists s e, span it s e).
  { intros it Hin. apply Hwf. unfold all_items. apply in_or_app. now left. }
  assert (Hwfc : forall it, In it (map Correction (attendance_corrections data)) ->
                            exists s e, span it s e).
  { intros it Hin. apply Hwf. unfold all_items. apply in_or_app. now right. }
  assert (Hsum : forall it,
            in_summary users dept emp sd ed it = true <->
            eq_str (item_status it) "approved" = true
            /\ dept_emp_ok users dept emp it = true
            /\ within sd ed it).
  { intros it. unfold in_summary.
    rewrite !andb_true_iff, within_b_spec. tauto. }
  assert (Hexp : forall it,
            in_export users dept emp sd ed it = true <->
            dept_emp_ok users dept emp it = true /\ overlaps sd ed it).
  { intros it. unfold in_export. now rewrite andb_true_iff, overlaps_b_spec. }
  split; [| split; [| split; [exact Hsum | split; [exact Hexp | split]]]].
  - unfold api_reports, bind, lift, ret.
    rewrite Hload, Huser, Hrole, Hstart, Hend.
    unfold report_leave_items, report_corr_items. fold users dept emp.
    rewrite (filter_r_total _ (in_summary users dept emp sd ed)
               (map Leave (leave_requests data)))
      by (intros it Hin; now apply summary_test_b, Hwfl).
    rewrite (filter_r_total _ (in_summary users dept emp sd ed)
               (map Correction (attendance_corrections data)))
      by (intros it Hin; now apply summary_test_b, Hwfc).
    reflexivity.
  - unfold api_reports_export, bind, lift, ret.
    rewrite Hload, Huser, Hrole, Hstart, Hend.
    unfold export_items. fold users dept emp.
    rewrite (filter_r_total _ (in_export users dept emp sd ed)
               (map Leave (leave_requests data)))
      by (intros it Hin; now apply export_test_b, Hwfl).
    rewrite (filter_r_total _ (in_export users dept emp sd ed)
               (map Correction (attendance_corrections data)))
      by (intros it Hin; now apply export_test_b, Hwfc).
    unfold exported, all_items. now rewrite List.filter_app.
  - intros it Hin Hd Hov Hnot. split.
    + unfold leave_items, corr_items.
      intros [[_ Hs]%filter_In | [_ Hs]%filter_In]%in_app_or;
        apply Hsum in Hs as (_ & _ & Hw); contradiction.
    + apply filter_In. split; [exact Hin |]. apply Hexp. auto.
  - intros Hd He it. rewrite Hd, He. apply dept_emp_ok_unfiltered.
Qed.

Example report_window_demo :
  api_reports (as_user "a001") window_march demo_file
  = (demo_file,
     Ok (Json 200 (Report {|
       leave_totals := [mkRow "e002" "Bob Suzuki" "Engineering" 2 16];
       correction_count := 1;
       filters := mkFilters "2025-03-05" "2025-03-08" "" "" |}))).
Proof. vm_compute. reflexivity. Qed.

Example export_window_demo :
  api_reports_export (as_user "a001") window_march demo_file
  = (demo_file,
     Ok (Csv "reports.csv"
           (map export_item
              [Leave lv1; Leave lv2; Leave lv3; Correction ac1]))).
Proof. vm_compute. reflexivity. Qed.

(** The record 2025-03-01..2025-03-10 under the window
    2025-03-05..2025-03-08. *)
Lemma summary_within_export_overlaps_witness :
  api_reports (as_user "a001") window_march demo_file
  = (demo_file, Ok (Json 200 (Report {|
       leave_totals := [mkRow "e002" "Bob Suzuki" "Engineering" 2 16];
       correction_count := 1;
       filters := mkFilters "2025-03-05" "2025-03-08" "" "" |})))
  /\ api_reports_export (as_user "a001") window_march demo_file
     = (demo_file,
        Ok (Csv "reports.csv"
              (map export_item
                 [Leave lv1; Leave lv2; Leave lv3; Correction ac1])))
  /\ ~ In (Leave lv1)
        (List.filter
           (in_summary (user_lookup DEMO) "" ""
              (Date.mkdate 2025 3 5) (Date.mkdate 2025 3 8))
           (map Leave (leave_requests DEMO))
         ++ List.filter
              (in_summary (user_lookup DEMO) "" ""
                 (Date.mkdate 2025 3 5) (Date.mkdate 2025 3 8))
              (map Correction (attendance_corrections DEMO)))%list.
Proof.
  destruct (summary_within_export_overlaps (as_user "a001") window_march
              demo_file demo_file DEMO
              (mkUser "a001" "Admin Ito" "admin" "HQ" None 25)
              (Date.mkdate 2025 3 5) (Date.mkdate 2025 3 8))
    as (Hsum & Hexp & _ & _ & Hstraddle & _).
  - reflexivity.
  - vm_compute. reflexivity.
  - reflexivity.
  - vm_compute. reflexivity.
  - vm_compute. reflexivity.
  - intros it Hin. simpl in Hin.
    repeat (destruct Hin as [<- | Hin];
            [eexists; eexists; split; vm_compute; reflexivity |]).
    contradiction.
  - split; [| split].
    + rewrite Hsum. vm_compute. reflexivity.
    + rewrite Hexp. vm_compute. reflexivity.
    + apply (Hstraddle (Leave lv1)).
      * simpl. tauto.
      * vm_compute. reflexivity.
      * exists (Date.mkdate 2025 3 1), (Date.mkdate 2025 3 10).
        repeat split.
      * intros (s & e & [Hs _] & Hlo & _).
        vm_compute in Hs. injection Hs as <-. discriminate Hlo.
Defined.

(** C1 as the specification words it fails on a dataset that the service
    itself can reach: with one approved correction dated "tomorrow" in the
    store, the summary and the export of the window 2025-03-05..2025-03-08
    raise, so the approved leave request lv-2, which lies within the
    window, is in no summary and no export. *)
Lemma reports_fail_on_unparseable_record :
  In (Leave lv2) (all_items (add_correction DEMO ac3))
  /\ eq_str (item_status (Leave lv2)) "approved" = true
  /\ within (Date.mkdate 2025 3 5) (Date.mkdate 2025 3 8) (Leave lv2)
  /\ api_reports (as_user "a001") window_march bad_date_file
     = (bad_date_file, Raise ValueError)
  /\ api_reports_export (as_user "a001") window_march bad_date_file
     = (bad_date_file, Raise ValueError)
  /\ dispatch (api_reports (as_user "a001") window_march) bad_date_file
     = (bad_date_file, internal_error)
  /\ dispatch (api_reports_export (as_user "a001") window_march)
       bad_date_file
     = (bad_date_file, internal_error).
Proof.
  split; [unfold all_items; simpl; tauto |].
  split; [reflexivity |].
  split.
  - exists (Date.mkdate 2025 3 6), (Date.mkdate 2025 3 7). repeat split.
  - repeat split; vm_compute; reflexivity.
Qed.

(** ** Settings *)

Section SettingsFacts.

Variable repr : json -> string.
Variable keys : gmap string json -> list string.

Lemma guard_role_admin (user : User) :
  guard_role user ["admin"] = None -> u_role user = "admin".
Proof.
  unfold guard_role. simpl. rewrite orb_false_r.
  destruct (String.eqb_spec (u_role user) "admin"); [auto | discriminate].
Qed.

(** C10: the 200 response of a settings update carries, under the key
    settings, the whole dataset that the handler has just saved, with the
    users, the leave requests and the attendance corrections that were
    loaded; the actor is an admin. *)
Theorem settings_update_echoes_dataset (h : headers) (raw : raw_body)
    (f f' : file) (p : payload) :
  api_settings_update repr keys h raw f = (f', Ok (Json 200 p)) ->
  exists f0 data user data',
    load_data f = (f0, Ok data)
    /\ require_user h data = inr user
    /\ u_role user = "admin"
    /\ p = Settings data'
    /\ f' = Some (Document data')
    /\ users data' = users data
    /\ leave_requests data' = leave_requests data
    /\ attendance_corrections data' = attendance_corrections data.
Proof.
  unfold api_settings_update, bind, lift, ret, save_data, write_text.
  intros H.
  destruct (read_json raw) as [body |]; [| discriminate].
  destruct (load_data f) as [f0 [data |]]; [| discriminate].
  destruct (require_user h data) as [sent | user] eqn:Huser.
  { apply require_user_sent in Huser as (s & m & -> & [-> | ->]);
      discriminate. }
  destruct (guard_role user ["admin"]) as [sent |] eqn:Hrole.
  { unfold guard_role in Hrole.
    destruct (existsb _ _); [discriminate |].
    injection Hrole as <-. discriminate. }
  apply guard_role_admin in Hrole.
  repeat next_case H;
    injection H as <- <-;
    repeat match goal with
      | E : (if ?c then _ else _) _ = (_, Ok _) |- _ =>
          destruct c;
          [ match type of E with
            | context [str_items ?a ?b ?c] =>
                destruct (str_items a b c); [| discriminate E]
            end
          | ];
          injection E as <- <-
      end;
    subst;
    exists f0, data, user; eexists; repeat split; assumption.
Qed.

End SettingsFacts.

(** The admin a001 replaces the leave types on the sample dataset. *)
Lemma settings_update_echoes_dataset_witness :
  exists data',
    api_settings_update (fun _ => "") (fun _ => []) (as_user "a001")
      (Parsed (JDict {[ "leave_types" :=
                          JList [JStr "Paid"; JStr ""; JStr "Unpaid"] ]}))
      demo_file
    = (Some (Document data'), Ok (Json 200 (Settings data')))
    /\ leave_types data' = ["Paid"; "Unpaid"]
    /\ users data' = users DEMO
    /\ leave_requests data' = leave_requests DEMO
    /\ attendance_corrections data' = attendance_corrections DEMO.
Proof.
  assert (Hrun :
    api_settings_update (fun _ => "") (fun _ => []) (as_user "a001")
      (Parsed (JDict {[ "leave_types" :=
                          JList [JStr "Paid"; JStr ""; JStr "Unpaid"] ]}))
      demo_file
    = (Some (Document (set_leave_types DEMO ["Paid"; "Unpaid"])),
       Ok (Json 200 (Settings (set_leave_types DEMO ["Paid"; "Unpaid"])))))
    by (vm_compute; reflexivity).
  destruct (settings_update_echoes_dataset _ _ _ _ _ _ _ Hrun)
    as (f0 & data & user & data' & Hload & _ & _ & Hp & _ & Hu & Hl & Hc).
  injection Hload as _ <-. injection Hp as <-.
  exists (set_leave_types DEMO ["Paid"; "Unpaid"]).
  split; [exact Hrun | split; [reflexivity |]].
  split; [exact Hu | split; [exact Hl | exact Hc]].
Defined.

(** ** The store on bytes that are not text *)

(** C9, where it fails: a data file whose bytes are not UTF-8 makes
    [load_data] raise instead of restoring the seed; the file is left as it
    is, so every later load raises again and every request is answered
    500. *)
Theorem load_data_raises_on_undecodable_file :
  let broken := Some (Garbage [Byte.xff]) in
  load_data broken = (broken, Raise UnicodeDecodeError)
  /\ load_data (fst (load_data broken)) = (broken, Raise UnicodeDecodeError)
  /\ dispatch (api_list_requests (as_user "e001") "leave" ∅) broken
     = (broken, internal_error).
Proof. repeat split. Qed.

(** ** The calendar: the order of dates is the order of their ordinals *)

Module DateFacts.
Import Date.

Lemma is_leap_cases (y : Z) : _is_leap y = true \/ _is_leap y = false.
Proof. destruct (_is_leap y); auto. Qed.

Lemma days_before_year_next (y : Z) :
  _days_before_year (y + 1)
  = _days_before_year y + 365 + (if _is_leap y then 1 else 0).
Proof.
  unfold _days_before_year, _is_leap. cbv zeta.
  replace (y + 1 - 1) with y by lia.
  destruct (Z.eqb_spec (y mod 4) 0), (Z.eqb_spec (y mod 100) 0),
    (Z.eqb_spec (y mod 400) 0); cbn [andb orb negb];
    Z.div_mod_to_equations; lia.
Qed.

Lemma days_before_year_mono (y y' : Z) :
  y <= y' -> _days_before_year y <= _days_before_year y'.
Proof.
  unfold _days_before_year. cbv zeta. intros H.
  Z.div_mod_to_equations. lia.
Qed.

Lemma month_cases (m : Z) :
  1 <= m <= 12 ->
  m = 1 \/ m = 2 \/ m = 3 \/ m = 4 \/ m = 5 \/ m = 6
  \/ m = 7 \/ m = 8 \/ m = 9 \/ m = 10 \/ m = 11 \/ m = 12.
Proof. lia. Qed.

Lemma valid_bounds (y m d : Z) :
  valid y m d = true ->
  1 <= y /\ 1 <= m <= 12 /\ 1 <= d <= _days_in_month y m.
Proof. unfold valid. rewrite !andb_true_iff, !Z.leb_le. tauto. Qed.

(** The day of the year of a valid date lies in the year. *)
Lemma day_of_year_bounds (y m d : Z) :
  valid y m d = true ->
  1 <= _days_before_month y m + d <= 365 + (if _is_leap y then 1 else 0).
Proof.
  intros Hv. destruct (valid_bounds _ _ _ Hv) as (_ & Hm & Hd).
  unfold _days_before_month, _days_in_month in *.
  destruct (_is_leap y);
    destruct (month_cases m Hm) as
      [-> | [-> | [-> | [-> | [-> | [-> | [-> | [-> | [-> | [-> | [-> | ->]]]]]]]]]]];
    simpl in *; lia.
Qed.

(** Within a year, an earlier month ends before a later month starts. *)
Lemma month_before (y m m' d : Z) :
  valid y m d = true -> 1 <= m' <= 12 -> m < m' ->
  _days_before_month y m + d <= _days_before_month y m'.
Proof.
  intros Hv Hm' Hlt. destruct (valid_bounds _ _ _ Hv) as (_ & Hm & Hd).
  unfold _days_before_month, _days_in_month in *.
  destruct (_is_leap y);
    destruct (month_cases m Hm) as
      [-> | [-> | [-> | [-> | [-> | [-> | [-> | [-> | [-> | [-> | [-> | ->]]]]]]]]]]];
    destruct (month_cases m' Hm') as
      [-> | [-> | [-> | [-> | [-> | [-> | [-> | [-> | [-> | [-> | [-> | ->]]]]]]]]]]];
    simpl in *; lia.
Qed.

Lemma ltb_toordinal (a b : date) :
  valid (year a) (month a) (day a) = true ->
  valid (year b) (month b) (day b) = true ->
  ltb a b = true -> toordinal a < toordinal b.
Proof.
  intros Ha Hb. unfold ltb, toordinal, _ymd2ord.
  destruct a as [ya ma da], b as [yb mb db]; simpl in *.
  pose proof (day_of_year_bounds _ _ _ Ha) as Ba.
  pose proof (day_of_year_bounds _ _ _ Hb) as Bb.
  repeat (rewrite orb_true_iff || rewrite andb_true_iff).
  rewrite !Z.ltb_lt, !Z.eqb_eq.
  intros [Hy | [-> [Hm | [-> Hd]]]].
  - pose proof (days_before_year_next ya) as Hn.
    pose proof (days_before_year_mono (ya + 1) yb ltac:(lia)). lia.
  - pose proof (month_before _ _ mb _ Ha) as Hmb.
    destruct (valid_bounds _ _ _ Hb) as (_ & Hmb' & Hdb).
    specialize (Hmb Hmb' Hm). lia.
  - lia.
Qed.

Lemma leb_cases (a b : date) :
  leb a b = true -> a = b \/ ltb a b = true.
Proof.
  destruct a as [ya ma da], b as [yb mb db]. unfold leb, ltb; simpl.
  intros H.
  destruct (Z.lt_trichotomy ya yb) as [Hy | [-> | Hy]].
  - right. apply Z.ltb_lt in Hy. now rewrite Hy.
  - rewrite Z.ltb_irrefl, Z.eqb_refl in *. simpl in *.
    destruct (Z.lt_trichotomy ma mb) as [Hm | [-> | Hm]].
    + right. apply Z.ltb_lt in Hm. now rewrite Hm.
    + rewrite Z.ltb_irrefl, Z.eqb_refl in *. simpl in *.
      destruct (Z.lt_trichotomy da db) as [Hd | [-> | Hd]].
      * right. now apply Z.ltb_lt.
      * now left.
      * apply Z.ltb_lt in Hd. rewrite Hd in H. discriminate.
    + apply Z.ltb_lt in Hm. rewrite Hm in H. discriminate.
  - apply Z.ltb_lt in Hy. rewrite Hy in H. discriminate.
Qed.

Lemma leb_toordinal (a b : date) :
  valid (year a) (month a) (day a) = true ->
  valid (year b) (month b) (day b) = true ->
  leb a b = true -> toordinal a <= toordinal b.
Proof.
  intros Ha Hb [-> | Hlt]%leb_cases; [lia |].
  pose proof (ltb_toordinal a b Ha Hb Hlt). lia.
Qed.

Lemma strptime_valid (s : string) (d : date) :
  strptime s = Ok d -> valid (year d) (month d) (day d) = true.
Proof.
  unfold strptime.
  destruct (re_match (list_ascii_of_string s)) as [[[[y m] d'] rest] |];
    [| discriminate].
  destruct rest; [| discriminate].
  destruct (valid y m d') eqn:Hv; [| discriminate].
  intros [= <-]. exact Hv.
Qed.

End DateFacts.

Lemma parse_date_valid (v : json) (d : Date.date) :
  parse_date v = Ok d ->
  Date.valid (Date.year d) (Date.month d) (Date.day d) = true.
Proof.
  destruct v; try discriminate. apply DateFacts.strptime_valid.
Qed.

(** The day count of a span whose end is not before its start is at
    least 1. *)
Lemma inclusive_days_positive (s e : json) (start end_ : Date.date) :
  parse_date s = Ok start ->
  parse_date e = Ok end_ ->
  Date.ltb end_ start = false ->
  1 <= Date.diff_days end_ start + 1.
Proof.
  intros Hs He Hlt.
  pose proof (DateFacts.leb_toordinal start end_
                (parse_date_valid _ _ Hs) (parse_date_valid _ _ He)) as H.
  unfold Date.leb in H. rewrite Hlt in H. specialize (H eq_refl).
  unfold Date.diff_days. lia.
Qed.
(** * Further properties of the handlers *)

(** ** Identity *)

Lemma find_snoc {A : Type} (p : A -> bool) (l : list A) (x : A) :
  List.find p (l ++ [x])
  = match List.find p l with
    | Some y => Some y
    | None => if p x then Some x else None
    end.
Proof.
  induction l as [| a l IH]; simpl; [reflexivity |].
  destruct (p a); [reflexivity | exact IH].
Qed.

Lemma user_lookup_from (l : list User) (m : gmap string User) (k : string) :
  foldl (fun m u => <[u_id u := u]> m) m l !! k
  = match List.find (fun u => String.eqb (u_id u) k) (rev l) with
    | Some u => Some u
    | None => m !! k
    end.
Proof.
  revert m. induction l as [| u l IH]; intros m; simpl; [reflexivity |].
  rewrite IH, find_snoc.
  destruct (List.find (fun u0 => String.eqb (u_id u0) k) (rev l));
    [reflexivity |].
  destruct (String.eqb_spec (u_id u) k) as [<- | Hne].
  - apply lookup_insert_eq.
  - now apply lookup_insert_ne.
Qed.

Lemma user_lookup_find (data : Dataset) (k : string) :
  user_lookup data !! k
  = List.find (fun u => String.eqb (u_id u) k) (rev (users data)).
Proof.
  unfold user_lookup. rewrite user_lookup_from.
  now destruct (List.find _ _).
Qed.

(** [user_lookup] maps an id to the last user of the list that carries it,
    and to nothing when no user carries it. *)
Theorem user_lookup_last_wins (data : Dataset) (k : string) :
  user_lookup data !! k
  = List.find (fun u => String.eqb (u_id u) k) (rev (users data)).
Proof.
  unfold user_lookup. rewrite user_lookup_from.
  destruct (List.find (fun u => String.eqb (u_id u) k) (rev (users data)));
    [reflexivity | apply lookup_empty].
Qed.

Lemma user_lookup_some (data : Dataset) (k : string) (u : User) :
  user_lookup data !! k = Some u -> u_id u = k /\ In u (users data).
Proof.
  rewrite user_lookup_find. intros [Hin Hk]%find_some.
  split; [now apply String.eqb_eq | now apply in_rev].
Qed.

Lemma user_lookup_none (data : Dataset) (k : string) :
  user_lookup data !! k = None ->
  forall u, In u (users data) -> u_id u <> k.
Proof.
  rewrite user_lookup_find. intros Hnone u Hin.
  apply in_rev in Hin. apply (find_none _ _ Hnone) in Hin.
  now apply String.eqb_neq.
Qed.

(** [require_user] answers 401 exactly when the id header is absent or
    empty, 403 when no user carries the id or when a non-empty role header
    differs from the role of the user, and otherwise resolves the user
    that carries the id; an empty role header counts as absent. *)
Theorem require_user_cases (h : headers) (data : Dataset) :
  match require_user h data with
  | inr user =>
      exists uid,
        x_user_id h = Some uid /\ uid <> ""
        /\ user_lookup data !! uid = Some user
        /\ u_id user = uid /\ In user (users data)
        /\ forall r, x_user_role h = Some r -> r = "" \/ r = u_role user
  | inl sent =>
      (sent = Json 401 (Failure "Missing X-User-Id")
       /\ (x_user_id h = None \/ x_user_id h = Some ""))
      \/ (sent = Json 403 (Failure "Unknown user")
          /\ exists uid,
               x_user_id h = Some uid /\ uid <> ""
               /\ forall u, In u (users data) -> u_id u <> uid)
      \/ (sent = Json 403 (Failure "Role mismatch for this user")
          /\ exists uid user r,
               x_user_id h = Some uid /\ uid <> ""
               /\ user_lookup data !! uid = Some user
               /\ x_user_role h = Some r /\ r <> "" /\ r <> u_role user)
  end.
Proof.
  unfold require_user, nonempty.
  destruct (x_user_id h) as [uid |]; [| left; auto].
  destruct (String.eqb_spec uid "") as [-> | Hne]; simpl; [left; auto |].
  destruct (user_lookup data !! uid) as [user |] eqn:Hu.
  - destruct (user_lookup_some _ _ _ Hu) as [Hid Hin].
    destruct (x_user_role h) as [r |].
    + destruct (String.eqb_spec r "") as [-> | Hr]; simpl.
      * exists uid. repeat split; auto. intros r [= <-]. now left.
      * destruct (String.eqb_spec (u_role user) r) as [<- | Hrole]; simpl.
        -- exists uid. repeat split; auto. intros r [= <-]. now right.
        -- right. right. split; [reflexivity |].
           exists uid, user, r. repeat split; auto.
    + exists uid. repeat split; auto. discriminate.
  - right. left. split; [reflexivity |].
    exists uid. repeat split; auto. now apply user_lookup_none.
Qed.

(** ** Login *)

(** [api_login] accepts exactly the non-empty ids that [require_user]
    resolves without a role header and answers with the same user; an
    unknown id gets 401 and the data file is only loaded. *)
Theorem login_agrees_with_require_user (uid : string)
    (body : gmap string json) (f f' : file) (data : Dataset) :
  body !! "user_id" = Some (JStr uid) ->
  load_data f = (f', Ok data) ->
  api_login (Parsed (JDict body)) f
  = (f', Ok (match user_lookup data !! uid with
             | Some u => LoggedIn u
             | None => LoginRefused (Json 401 (Failure "User not found"))
             end))
  /\ (uid <> "" ->
      forall u,
        api_login (Parsed (JDict body)) f = (f', Ok (LoggedIn u))
        <-> require_user (as_user uid) data = inr u).
Proof.
  intros Hbody Hload.
  assert (Hrun : api_login (Parsed (JDict body)) f
                 = (f', Ok (match user_lookup data !! uid with
                            | Some u => LoggedIn u
                            | None => LoginRefused
                                        (Json 401 (Failure "User not found"))
                            end))).
  { unfold api_login, bind, lift, ret, read_json, py_get, users_get.
    rewrite Hbody, Hload. now destruct (user_lookup data !! uid). }
  split; [exact Hrun |].
  intros Hne u. rewrite Hrun. unfold require_user, as_user, nonempty; simpl.
  destruct (String.eqb_spec uid ""); [contradiction |]. simpl.
  destruct (user_lookup data !! uid) as [u' |]; split;
    intros [=]; congruence.
Qed.

(** Alice logs in on the sample dataset. *)
Lemma login_agrees_with_require_user_witness :
  api_login (Parsed (JDict {[ "user_id" := JStr "e001" ]})) demo_file
  = (demo_file, Ok (LoggedIn alice))
  /\ require_user (as_user "e001") DEMO = inr alice.
Proof.
  destruct (login_agrees_with_require_user "e001"
              {[ "user_id" := JStr "e001" ]} demo_file demo_file DEMO)
    as [Hrun Hiff]; try (vm_compute; reflexivity).
  assert (Hlog : api_login (Parsed (JDict {[ "user_id" := JStr "e001" ]}))
                   demo_file = (demo_file, Ok (LoggedIn alice)))
    by (vm_compute; reflexivity).
  split; [exact Hlog |].
  apply (Hiff ltac:(discriminate) alice). exact Hlog.
Defined.

(** ** Approval: the order of the checks and the effect *)

(** The first steps of [api_approve] on a dict payload whose category and
    action are valid. *)
Lemma approve_valid_prefix (h : headers) (body : gmap string json)
    (category action : string) (f f' : file) (data : Dataset) (user : User) :
  body !! "category" = Some (JStr category) ->
  category = "leave" \/ category = "correction" ->
  body !! "action" = Some (JStr action) ->
  action = "approved" \/ action = "rejected" ->
  load_data f = (f', Ok data) ->
  require_user h data = inr user ->
  api_approve h (Parsed (JDict body)) f
  = match guard_role user ["manager"; "admin"] with
    | Some sent => (f', Ok sent)
    | None =>
        match find_target (field body "id") (bucket_items category data) with
        | None => (f', Ok (Json 404 (Failure "Request not found")))
        | Some target =>
            match in_team user (get_or_none (user_lookup data)
                                  (item_user_id target)) with
            | Raise e => (f', Raise e)
            | Ok false =>
                (f', Ok (Json 403 (Failure "Cannot approve outside your team")))
            | Ok true =>
                let comment :=
                  match body !! "comment" with
                  | Some c => c
                  | None => JStr ""
                  end in
                (Some (Document (decide_in category (field body "id")
                                   (JStr action) comment (u_name user) data)),
                 Ok (Json 200 (OneItem (decide_item (JStr action) comment
                                          (u_name user) target))))
            end
        end
    end.
Proof.
  intros Hcat Hcat' Hact Hact' Hload Huser.
  unfold api_approve, bind, lift, ret, read_json, py_get, field,
    save_data, write_text.
  rewrite Hcat, Hact.
  assert (Hc : existsb (eq_str (JStr category)) ["leave"; "correction"] = true)
    by (destruct Hcat' as [-> | ->]; reflexivity).
  assert (Ha : existsb (eq_str (JStr action)) ["approved"; "rejected"] = true)
    by (destruct Hact' as [-> | ->]; reflexivity).
  cbn [in_strs]. rewrite Hc. cbn [negb]. rewrite Ha. cbn [negb].
  rewrite Hload, Huser. cbn [category_name].
  destruct (guard_role user ["manager"; "admin"]); [reflexivity |].
  destruct (find_target _ _) as [target |]; [| reflexivity].
  destruct (in_team user _) as [[|] |]; reflexivity.
Qed.

(** [api_approve] checks the category and the action before it reads the
    identity headers or the data file: an invalid one is answered 400
    whoever calls, and the file is not touched, not even restored. *)
Theorem approve_validates_first (h : headers) (body : gmap string json)
    (f : file) :
  in_strs (field body "category") ["leave"; "correction"] = Ok false
  \/ (in_strs (field body "category") ["leave"; "correction"] = Ok true
      /\ in_strs (field body "action") ["approved"; "rejected"] = Ok false) ->
  exists m,
    api_approve h (Parsed (JDict body)) f = (f, Ok (Json 400 (Failure m)))
    /\ (m = "Invalid category" \/ m = "Invalid action").
Proof.
  unfold api_approve, bind, lift, ret, read_json, py_get, field.
  intros [Hc | [Hc Ha]]; rewrite Hc; cbn [negb].
  - eauto.
  - rewrite Ha. cbn [negb]. eauto.
Qed.

(** No identity header, no data file, an unknown category. *)
Lemma approve_validates_first_witness :
  exists m,
    api_approve (mkHeaders None None)
      (Parsed (JDict (approval_body "overtime" "lv-1" "approved"))) None
    = (None, Ok (Json 400 (Failure m)))
    /\ (m = "Invalid category" \/ m = "Invalid action").
Proof.
  apply (approve_validates_first (mkHeaders None None)
           (approval_body "overtime" "lv-1" "approved") None).
  left. vm_compute. reflexivity.
Defined.

Lemma update_first_map {A B : Type} (F : A -> B) (p : B -> bool)
    (g : A -> A) (g' : B -> B) (l : list A) :
  (forall x, g' (F x) = F (g x)) ->
  update_first p g' (map F l) = map F (update_first (fun x => p (F x)) g l).
Proof.
  intros Hg. induction l as [| x l IH]; simpl; [reflexivity |].
  destruct (p (F x)); simpl; [now rewrite Hg | now rewrite IH].
Qed.

Lemma bucket_items_decide_in (category : string) (tid action comment : json)
    (by_ : string) (data : Dataset) :
  bucket_items category (decide_in category tid action comment by_ data)
  = update_first (fun r => eq_str tid (item_id r))
      (decide_item action comment by_) (bucket_items category data).
Proof.
  unfold bucket_items, decide_in.
  destruct (String.eqb category "leave"); simpl.
  - now rewrite (update_first_map Leave _ (decide_leave action comment by_)
                   (decide_item action comment by_)).
  - now rewrite (update_first_map Correction _
                   (decide_correction action comment by_)
                   (decide_item action comment by_)).
Qed.

Lemma update_first_found {A : Type} (p : A -> bool) (g : A -> A)
    (l : list A) (x : A) :
  List.find p l = Some x -> In (g x) (update_first p g l).
Proof.
  induction l as [| a l IH]; simpl; [discriminate |].
  destruct (p a); [intros [= ->]; now left | intros H; right; auto].
Qed.

Lemma update_first_other {A : Type} (p : A -> bool) (g : A -> A)
    (l : list A) (x : A) :
  In x l -> p x = false -> In x (update_first p g l).
Proof.
  induction l as [| a l IH]; simpl; [tauto |].
  intros [-> | Hin] Hp.
  - rewrite Hp. now left.
  - destruct (p a); right; auto.
Qed.

Lemma update_first_keeps {A B : Type} (key : A -> B) (p : A -> bool)
    (g : A -> A) (l : list A) :
  (forall x, key (g x) = key x) ->
  map key (update_first p g l) = map key l.
Proof.
  intros Hk. induction l as [| a l IH]; simpl; [reflexivity |].
  destruct (p a); simpl; [now rewrite Hk | now rewrite IH].
Qed.

Lemma find_update_first {A : Type} (p : A -> bool) (g : A -> A)
    (l : list A) (x : A) :
  (forall y, p (g y) = p y) ->
  List.find p l = Some x ->
  List.find p (update_first p g l) = Some (g x).
Proof.
  intros Hp. induction l as [| a l IH]; simpl; [discriminate |].
  destruct (p a) eqn:Ha.
  - intros [= ->]. simpl. now rewrite Hp, Ha.
  - intros H. simpl. rewrite Ha. auto.
Qed.

Lemma decide_item_id (action comment : json) (by_ : string) (it : item) :
  item_id (decide_item action comment by_ it) = item_id it.
Proof. now destruct it. Qed.

Lemma decide_item_user_id (action comment : json) (by_ : string) (it : item) :
  item_user_id (decide_item action comment by_ it) = item_user_id it.
Proof. now destruct it. Qed.

Lemma decide_in_users (category : string) (tid action comment : json)
    (by_ : string) (data : Dataset) :
  users (decide_in category tid action comment by_ data) = users data.
Proof. unfold decide_in. now destruct (String.eqb category "leave"). Qed.

Lemma guard_role_allowed (user : User) :
  u_role user = "manager" \/ u_role user = "admin" ->
  guard_role user ["manager"; "admin"] = None.
Proof. unfold guard_role. now intros [-> | ->]. Qed.

(** The id sent with an approval that found its target is the string id
    of the target. *)
Lemma find_target_id (tid : json) (items : list item) (target : item) :
  find_target tid items = Some target -> tid = JStr (item_id target).
Proof.
  unfold find_target. intros [_ H]%find_some.
  destruct tid; try discriminate. simpl in H.
  now apply String.eqb_eq in H as ->.
Qed.

(** An accepted approval or rejection, whatever status the record had:
    the answer is 200 with the record carrying the action as status, the
    comment of the payload and the name of the actor; the record is saved
    in place, every record with another id is kept as it was, no id and no
    user changes. *)
Theorem approval_records_decision (h : headers) (body : gmap string json)
    (category action : string) (f f' : file) (data : Dataset)
    (user : User) (target : item) :
  body !! "category" = Some (JStr category) ->
  category = "leave" \/ category = "correction" ->
  body !! "action" = Some (JStr action) ->
  action = "approved" \/ action = "rejected" ->
  load_data f = (f', Ok data) ->
  require_user h data = inr user ->
  u_role user = "manager" \/ u_role user = "admin" ->
  find_target (field body "id") (bucket_items category data) = Some target ->
  in_team user (get_or_none (user_lookup data) (item_user_id target))
  = Ok true ->
  exists data' target',
    api_approve h (Parsed (JDict body)) f
    = (Some (Document data'), Ok (Json 200 (OneItem target')))
    /\ item_status target' = JStr action
    /\ item_id target' = item_id target
    /\ item_user_id target' = item_user_id target
    /\ target' = decide_item (JStr action)
                   (match body !! "comment" with
                    | Some c => c
                    | None => JStr ""
                    end) (u_name user) target
    /\ In target' (bucket_items category data')
    /\ map item_id (bucket_items category data')
       = map item_id (bucket_items category data)
    /\ (forall it,
          In it (bucket_items category data) ->
          item_id it <> item_id target ->
          In it (bucket_items category data'))
    /\ users data' = users data.
Proof.
  intros Hcat Hcat' Hact Hact' Hload Huser Hrole Htarget Hteam.
  rewrite (approve_valid_prefix h body category action f f' data user)
    by assumption.
  rewrite (guard_role_allowed user Hrole), Htarget, Hteam. cbv zeta.
  eexists. eexists. split; [reflexivity |].
  split; [now destruct target |].
  split; [apply decide_item_id |].
  split; [apply decide_item_user_id |].
  split; [reflexivity |].
  rewrite bucket_items_decide_in.
  split; [| split; [| split]].
  - now apply update_first_found.
  - apply update_first_keeps. intros x. apply decide_item_id.
  - intros it Hin Hne. apply update_first_other; [exact Hin |].
    rewrite (find_target_id _ _ _ Htarget). simpl.
    apply String.eqb_neq. congruence.
  - apply decide_in_users.
Qed.

(** Mika rejects lv-1, an approved record of her report Alice. *)
Lemma approval_records_decision_witness :
  exists data' target',
    api_approve (as_user "m001")
      (Parsed (JDict (approval_body "leave" "lv-1" "rejected"))) demo_file
    = (Some (Document data'), Ok (Json 200 (OneItem target')))
    /\ item_status target' = JStr "rejected"
    /\ In target' (bucket_items "leave" data')
    /\ In (Leave lv2) (bucket_items "leave" data').
Proof.
  destruct (approval_records_decision (as_user "m001")
              (approval_body "leave" "lv-1" "rejected") "leave" "rejected"
              demo_file demo_file DEMO mika (Leave lv1))
    as (data' & target' & Hrun & Hst & _ & _ & _ & Hin & _ & Hother & _);
    try (vm_compute; reflexivity).
  - left. reflexivity.
  - right. reflexivity.
  - left. reflexivity.
  - exists data', target'. repeat split; try assumption.
    apply Hother; [simpl; tauto | discriminate].
Defined.

Lemma user_lookup_users (d1 d2 : Dataset) :
  users d1 = users d2 -> user_lookup d1 = user_lookup d2.
Proof. unfold user_lookup. now intros ->. Qed.

Lemma require_user_users (h : headers) (d1 d2 : Dataset) :
  users d1 = users d2 -> require_user h d1 = require_user h d2.
Proof.
  intros H. unfold require_user. now rewrite (user_lookup_users d1 d2 H).
Qed.

(** A decided record is not final: a second call on the record that the
    first one saved is accepted under the same conditions and overwrites
    the status. *)
Theorem decided_record_can_be_decided_again (h : headers)
    (body1 body2 : gmap string json) (category action1 action2 : string)
    (f f' : file) (data : Dataset) (user : User) (target : item) :
  body1 !! "category" = Some (JStr category) ->
  body2 !! "category" = Some (JStr category) ->
  category = "leave" \/ category = "correction" ->
  body1 !! "action" = Some (JStr action1) ->
  body2 !! "action" = Some (JStr action2) ->
  action1 = "approved" \/ action1 = "rejected" ->
  action2 = "approved" \/ action2 = "rejected" ->
  field body2 "id" = field body1 "id" ->
  load_data f = (f', Ok data) ->
  require_user h data = inr user ->
  u_role user = "manager" \/ u_role user = "admin" ->
  find_target (field body1 "id") (bucket_items category data) = Some target ->
  in_team user (get_or_none (user_lookup data) (item_user_id target))
  = Ok true ->
  exists f1 t1 f2 t2,
    api_approve h (Parsed (JDict body1)) f
    = (f1, Ok (Json 200 (OneItem t1)))
    /\ item_status t1 = JStr action1
    /\ api_approve h (Parsed (JDict body2)) f1
       = (f2, Ok (Json 200 (OneItem t2)))
    /\ item_status t2 = JStr action2
    /\ item_id t2 = item_id target.
Proof.
  intros Hc1 Hc2 Hcat Ha1 Ha2 Hv1 Hv2 Hid Hload Huser Hrole Htarget Hteam.
  rewrite (approve_valid_prefix h body1 category action1 f f' data user)
    by assumption.
  rewrite (guard_role_allowed user Hrole), Htarget, Hteam. cbv zeta.
  set (c1 := match body1 !! "comment" with Some c => c | None => JStr "" end).
  set (data' := decide_in category (field body1 "id") (JStr action1) c1
                  (u_name user) data).
  set (t1 := decide_item (JStr action1) c1 (u_name user) target).
  assert (Husers : users data' = users data) by apply decide_in_users.
  assert (Htarget' : find_target (field body2 "id")
                       (bucket_items category data') = Some t1).
  { rewrite Hid. unfold data'. rewrite bucket_items_decide_in.
    unfold find_target. apply find_update_first; [| exact Htarget].
    intros y. now rewrite decide_item_id. }
  assert (Hteam' : in_team user (get_or_none (user_lookup data')
                                   (item_user_id t1)) = Ok true).
  { rewrite (user_lookup_users data' data Husers).
    unfold t1. now rewrite decide_item_user_id. }
  exists (Some (Document data')), t1.
  rewrite (approve_valid_prefix h body2 category action2
             (Some (Document data')) (Some (Document data')) data' user);
    try assumption; try reflexivity;
    [| now rewrite (require_user_users h data' data Husers)].
  rewrite (guard_role_allowed user Hrole), Htarget', Hteam'. cbv zeta.
  eexists. eexists. split; [reflexivity |].
  split; [now destruct target |].
  split; [reflexivity |].
  split; [now destruct target |].
  unfold t1. now rewrite !decide_item_id.
Qed.

(** Mika approves lv-1 and then rejects it. *)
Lemma decided_record_can_be_decided_again_witness :
  exists f1 t1 f2 t2,
    api_approve (as_user "m001")
      (Parsed (JDict (approval_body "leave" "lv-1" "approved"))) demo_file
    = (f1, Ok (Json 200 (OneItem t1)))
    /\ item_status t1 = JStr "approved"
    /\ api_approve (as_user "m001")
         (Parsed (JDict (approval_body "leave" "lv-1" "rejected"))) f1
       = (f2, Ok (Json 200 (OneItem t2)))
    /\ item_status t2 = JStr "rejected"
    /\ item_id t2 = "lv-1".
Proof.
  apply (decided_record_can_be_decided_again (as_user "m001")
           (approval_body "leave" "lv-1" "approved")
           (approval_body "leave" "lv-1" "rejected")
           "leave" "approved" "rejected" demo_file demo_file DEMO mika
           (Leave lv1));
    try (vm_compute; reflexivity).
  - left. reflexivity.
  - left. reflexivity.
  - right. reflexivity.
  - left. reflexivity.
Defined.

(** With a valid category and action and an actor who may approve, an id
    that no record of the bucket carries (or no id at all) is answered 404
    and nothing is saved. *)
Theorem approve_unknown_id (h : headers) (body : gmap string json)
    (category action : string) (f f' : file) (data : Dataset) (user : User) :
  body !! "category" = Some (JStr category) ->
  category = "leave" \/ category = "correction" ->
  body !! "action" = Some (JStr action) ->
  action = "approved" \/ action = "rejected" ->
  load_data f = (f', Ok data) ->
  require_user h data = inr user ->
  u_role user = "manager" \/ u_role user = "admin" ->
  (forall it, In it (bucket_items category data) ->
              field body "id" <> JStr (item_id it)) ->
  api_approve h (Parsed (JDict body)) f
  = (f', Ok (Json 404 (Failure "Request not found"))).
Proof.
  intros Hcat Hcat' Hact Hact' Hload Huser Hrole Hnone.
  rewrite (approve_valid_prefix h body category action f f' data user)
    by assumption.
  rewrite (guard_role_allowed user Hrole).
  destruct (find_target _ _) as [target |] eqn:Ht; [| reflexivity].
  exfalso. apply (Hnone target).
  - unfold find_target in Ht. now apply find_some in Ht.
  - now apply find_target_id in Ht.
Qed.

(** The id of a correction looked up in the leave bucket. *)
Lemma approve_unknown_id_witness :
  api_approve (as_user "a001")
    (Parsed (JDict (approval_body "leave" "ac-1" "approved"))) demo_file
  = (demo_file, Ok (Json 404 (Failure "Request not found"))).
Proof.
  apply (approve_unknown_id (as_user "a001")
           (approval_body "leave" "ac-1" "approved") "leave" "approved"
           demo_file demo_file DEMO ito);
    try (vm_compute; reflexivity).
  - left. reflexivity.
  - left. reflexivity.
  - right. reflexivity.
  - intros it Hin. simpl in Hin.
    repeat (destruct Hin as [<- | Hin]; [vm_compute; discriminate |]).
    contradiction.
Defined.

(** A record whose owner is not among the users can be decided by an admin
    only: for a manager [in_team] dereferences the missing owner and the
    call ends in the 500 response, nothing saved. *)
Theorem approve_record_of_unknown_owner (h : headers)
    (body : gmap string json) (category action : string) (f f' : file)
    (data : Dataset) (user : User) (target : item) :
  body !! "category" = Some (JStr category) ->
  category = "leave" \/ category = "correction" ->
  body !! "action" = Some (JStr action) ->
  action = "approved" \/ action = "rejected" ->
  load_data f = (f', Ok data) ->
  require_user h data = inr user ->
  find_target (field body "id") (bucket_items category data) = Some target ->
  user_lookup data !! item_user_id target = None ->
  (u_role user = "manager" ->
   dispatch (api_approve h (Parsed (JDict body))) f = (f', internal_error))
  /\ (u_role user = "admin" ->
      exists data' target',
        api_approve h (Parsed (JDict body)) f
        = (Some (Document data'), Ok (Json 200 (OneItem target')))
        /\ item_status target' = JStr action).
Proof.
  intros Hcat Hcat' Hact Hact' Hload Huser Htarget Howner.
  unfold dispatch.
  rewrite (approve_valid_prefix h body category action f f' data user)
    by assumption.
  rewrite Htarget. unfold get_or_none, in_team. rewrite Howner.
  split; intros Hrole; rewrite (guard_role_allowed user) by auto;
    rewrite Hrole; simpl.
  - reflexivity.
  - eexists. eexists. split; [reflexivity | now destruct target].
Qed.

(** Mika and the admin on lv-9, whose owner x999 is no user. *)
Lemma approve_record_of_unknown_owner_witness :
  dispatch (api_approve (as_user "m001")
              (Parsed (JDict (approval_body "leave" "lv-9" "approved"))))
    orphan_file
  = (orphan_file, internal_error).
Proof.
  apply (approve_record_of_unknown_owner (as_user "m001")
           (approval_body "leave" "lv-9" "approved") "leave" "approved"
           orphan_file orphan_file (add_leave DEMO lv9) mika (Leave lv9));
    try (vm_compute; reflexivity).
  - left. reflexivity.
  - left. reflexivity.
Defined.

(** ** The role gates *)

Lemma guard_role_refused (user : User) (allowed : list string) :
  (forall r, In r allowed -> u_role user <> r) ->
  guard_role user allowed = Some (Json 403 (Failure "Forbidden for this role")).
Proof.
  intros H. unfold guard_role.
  destruct (existsb (String.eqb (u_role user)) allowed) eqn:E; [| reflexivity].
  apply existsb_exists in E as (r & Hin & Hr).
  apply String.eqb_eq in Hr. now apply H in Hin.
Qed.

(** A resolved user who is neither manager nor admin gets 403 "Forbidden
    for this role" from the summary report, the export and the approval
    (also for an own record, found or not), and nothing is saved. *)
Theorem role_gate (h : headers) (q : query) (body : gmap string json)
    (category action : string) (f f' : file) (data : Dataset) (user : User) :
  load_data f = (f', Ok data) ->
  require_user h data = inr user ->
  u_role user <> "manager" ->
  u_role user <> "admin" ->
  body !! "category" = Some (JStr category) ->
  category = "leave" \/ category = "correction" ->
  body !! "action" = Some (JStr action) ->
  action = "approved" \/ action = "rejected" ->
  api_reports h q f = (f', Ok (Json 403 (Failure "Forbidden for this role")))
  /\ api_reports_export h q f
     = (f', Ok (Json 403 (Failure "Forbidden for this role")))
  /\ api_approve h (Parsed (JDict body)) f
     = (f', Ok (Json 403 (Failure "Forbidden for this role"))).
Proof.
  intros Hload Huser Hm Ha Hcat Hcat' Hact Hact'.
  assert (Hg : guard_role user ["manager"; "admin"]
               = Some (Json 403 (Failure "Forbidden for this role"))).
  { apply guard_role_refused. intros r [<- | [<- | []]]; assumption. }
  repeat split.
  - unfold api_reports, bind, lift, ret. now rewrite Hload, Huser, Hg.
  - unfold api_reports_export, bind, lift, ret. now rewrite Hload, Huser, Hg.
  - rewrite (approve_valid_prefix h body category action f f' data user)
      by assumption.
    now rewrite Hg.
Qed.

(** Alice asks for the reports and tries to approve her own lv-1. *)
Lemma role_gate_witness :
  api_reports (as_user "e001") window_march demo_file
  = (demo_file, Ok (Json 403 (Failure "Forbidden for this role")))
  /\ api_reports_export (as_user "e001") window_march demo_file
     = (demo_file, Ok (Json 403 (Failure "Forbidden for this role")))
  /\ api_approve (as_user "e001")
       (Parsed (JDict (approval_body "leave" "lv-1" "approved"))) demo_file
     = (demo_file, Ok (Json 403 (Failure "Forbidden for this role"))).
Proof.
  apply (role_gate (as_user "e001") window_march
           (approval_body "leave" "lv-1" "approved") "leave" "approved"
           demo_file demo_file DEMO alice);
    try (vm_compute; reflexivity); try discriminate.
  - left. reflexivity.
  - left. reflexivity.
Defined.

Section SettingsGate.

Variable repr : json -> string.
Variable keys : gmap string json -> list string.

(** Only an admin changes the settings: any other resolved user, a manager
    included, gets 403 and nothing is saved, whatever the payload holds. *)
Theorem settings_admin_only (h : headers) (raw : raw_body) (body : json)
    (f f' : file) (data : Dataset) (user : User) :
  read_json raw = Ok body ->
  load_data f = (f', Ok data) ->
  require_user h data = inr user ->
  u_role user <> "admin" ->
  api_settings_update repr keys h raw f
  = (f', Ok (Json 403 (Failure "Forbidden for this role"))).
Proof.
  intros Hbody Hload Huser Hrole.
  unfold api_settings_update, bind, lift, ret.
  rewrite Hbody, Hload, Huser.
  rewrite (guard_role_refused user ["admin"]); [reflexivity |].
  intros r [<- | []]. exact Hrole.
Qed.

End SettingsGate.

(** The manager Mika tries to replace the leave types. *)
Lemma settings_admin_only_witness :
  api_settings_update (fun _ => "") (fun _ => []) (as_user "m001")
    (Parsed (JDict {[ "leave_types" := JList [JStr "Unpaid"] ]})) demo_file
  = (demo_file, Ok (Json 403 (Failure "Forbidden for this role"))).
Proof.
  apply (settings_admin_only (fun _ => "") (fun _ => []) (as_user "m001")
           (Parsed (JDict {[ "leave_types" := JList [JStr "Unpaid"] ]}))
           (JDict {[ "leave_types" := JList [JStr "Unpaid"] ]})
           demo_file demo_file DEMO mika);
    try (vm_compute; reflexivity).
  discriminate.
Defined.

(** ** Creation: what is refused, what is stored *)

Lemma create_leave_inv (h : headers) (raw : raw_body) (now : clock)
    (f f' : file) (it : item) :
  api_create_leave h raw now f = (f', Ok (Json 200 (OneItem it))) ->
  exists body f0 data user sd ed r,
    read_json raw = Ok body
    /\ load_data f = (f0, Ok data)
    /\ require_user h data = inr user
    /\ it = Leave r
    /\ f' = Some (Document (add_leave data r))
    /\ py_getitem body "start_date" = Ok (lv_start_date r)
    /\ py_getitem body "end_date" = Ok (lv_end_date r)
    /\ py_getitem body "leave_type" = Ok (lv_leave_type r)
    /\ parse_date (lv_start_date r) = Ok sd
    /\ parse_date (lv_end_date r) = Ok ed
    /\ Date.ltb ed sd = false
    /\ lv_days r = Date.diff_days ed sd + 1
    /\ lv_user_id r = u_id user
    /\ lv_id r = generate_id "lv" (stamp now)
    /\ lv_status r = JStr "pending"
    /\ lv_approver_comment r = JStr ""
    /\ lv_approved_by r = ""
    /\ lv_created_at r = isoformat now.
Proof.
  unfold api_create_leave, bind, lift, ret, save_data, write_text. intros H.
  destruct (read_json raw) as [body |]; [| discriminate].
  destruct (load_data f) as [f0 [data |]]; [| discriminate].
  destruct (require_user h data) as [sent | user] eqn:Huser.
  { apply require_user_sent in Huser as (s & m & -> & _). discriminate. }
  repeat next_case H.
  injection H as <- <-.
  exists body, f0, data, user. do 2 eexists. eexists.
  repeat split; simpl; try eassumption; reflexivity.
Qed.

Lemma create_correction_inv (h : headers) (raw : raw_body) (now : clock)
    (f f' : file) (it : item) :
  api_create_correction h raw now f = (f', Ok (Json 200 (OneItem it))) ->
  exists f0 data user c,
    load_data f = (f0, Ok data)
    /\ require_user h data = inr user
    /\ it = Correction c
    /\ f' = Some (Document (add_correction data c))
    /\ ac_user_id c = u_id user.
Proof.
  unfold api_create_correction, bind, lift, ret, save_data, write_text.
  intros H.
  destruct (read_json raw) as [body |]; [| discriminate].
  destruct (load_data f) as [f0 [data |]]; [| discriminate].
  destruct (require_user h data) as [sent | user] eqn:Huser.
  { apply require_user_sent in Huser as (s & m & -> & _). discriminate. }
  repeat next_case H.
  injection H as <- <-.
  exists f0, data, user. eexists. repeat split. exact Huser.
Qed.

(** Every leave request that [api_create_leave] stores is appended after
    the existing ones and is pending with empty approver fields; its two
    dates are the payload values as sent, they parse, the end is not before
    the start, and its days are at least 1. *)
Theorem created_leave_is_well_formed (h : headers) (raw : raw_body)
    (now : clock) (f f' : file) (it : item) :
  api_create_leave h raw now f = (f', Ok (Json 200 (OneItem it))) ->
  exists body f0 data r sd ed,
    read_json raw = Ok body
    /\ load_data f = (f0, Ok data)
    /\ it = Leave r
    /\ f' = Some (Document (add_leave data r))
    /\ leave_requests (add_leave data r) = (leave_requests data ++ [r])%list
    /\ py_getitem body "start_date" = Ok (lv_start_date r)
    /\ py_getitem body "end_date" = Ok (lv_end_date r)
    /\ parse_date (lv_start_date r) = Ok sd
    /\ parse_date (lv_end_date r) = Ok ed
    /\ Date.leb sd ed = true
    /\ lv_days r = Date.diff_days ed sd + 1
    /\ 1 <= lv_days r
    /\ lv_status r = JStr "pending"
    /\ lv_approver_comment r = JStr ""
    /\ lv_approved_by r = ""
    /\ lv_id r = generate_id "lv" (stamp now).
Proof.
  intros (body & f0 & data & user & sd & ed & r & Hbody & Hload & _ & -> & ->
          & Hs & He & _ & Hsd & Hed & Hlt & Hdays & _ & Hid & Hst & Hc & Hby & _)
         %create_leave_inv.
  exists body, f0, data, r, sd, ed. repeat split; try assumption.
  - unfold Date.leb. now rewrite Hlt.
  - rewrite Hdays. exact (inclusive_days_positive _ _ _ _ Hsd Hed Hlt).
Qed.

(** Alice's ten days in March. *)
Lemma created_leave_is_well_formed_witness :
  exists r,
    api_create_leave (as_user "e001")
      (Parsed (JDict (leave_body "2025-03-01" "2025-03-10")))
      demo_clock demo_file
    = (Some (Document (add_leave DEMO r)), Ok (Json 200 (OneItem (Leave r))))
    /\ 1 <= lv_days r /\ lv_status r = JStr "pending".
Proof.
  assert (Hrun : exists r,
    api_create_leave (as_user "e001")
      (Parsed (JDict (leave_body "2025-03-01" "2025-03-10")))
      demo_clock demo_file
    = (Some (Document (add_leave DEMO r)), Ok (Json 200 (OneItem (Leave r)))))
    by (eexists; vm_compute; reflexivity).
  destruct Hrun as (r & Hrun). exists r. split; [exact Hrun |].
  destruct (created_leave_is_well_formed _ _ _ _ _ _ Hrun)
    as (body & f0 & data & r' & sd & ed & _ & _ & Hit & _ & _ & _ & _ & _ & _
        & _ & _ & Hpos & Hst & _).
  injection Hit as <-. split; assumption.
Defined.

(** A required field of a leave request that is absent, null, empty, zero
    or false counts as missing: the answer is 400 with the missing keys in
    the order of the required list, before any date is parsed, and nothing
    is saved. *)
Theorem create_leave_missing_fields (h : headers) (body : gmap string json)
    (now : clock) (f f' : file) (data : Dataset) (user : User)
    (missing : list string) :
  load_data f = (f', Ok data) ->
  require_user h data = inr user ->
  missing
  = List.filter (fun k => negb (truthy (field body k)))
      ["start_date"; "end_date"; "leave_type"; "reason"] ->
  missing <> [] ->
  api_create_leave h (Parsed (JDict body)) now f
  = (f', Ok (Json 400 (MissingFields missing)))
  /\ forall k,
       In k missing <->
       In k ["start_date"; "end_date"; "leave_type"; "reason"]
       /\ truthy (field body k) = false.
Proof.
  intros Hload Huser Hmissing Hne.
  split.
  - unfold api_create_leave, bind, lift, ret, read_json.
    rewrite Hload, Huser, missing_fields_dict, <- Hmissing.
    destruct missing; [contradiction | reflexivity].
  - intros k. rewrite Hmissing, filter_In, negb_true_iff. tauto.
Qed.

(** A payload with dates only, and an empty reason. *)
Lemma create_leave_missing_fields_witness :
  api_create_leave (as_user "e001")
    (Parsed (JDict (<["reason" := JStr ""]>
                      (<["start_date" := JStr "not a date"]>
                         {[ "end_date" := JStr "2025-03-01" ]}))))
    demo_clock demo_file
  = (demo_file, Ok (Json 400 (MissingFields ["leave_type"; "reason"]))).
Proof.
  apply (create_leave_missing_fields (as_user "e001")
           (<["reason" := JStr ""]>
              (<["start_date" := JStr "not a date"]>
                 {[ "end_date" := JStr "2025-03-01" ]}))
           demo_clock demo_file demo_file DEMO alice
           ["leave_type"; "reason"]);
    try (vm_compute; reflexivity).
  discriminate.
Defined.

(** [api_create_correction] checks presence only: on a dict payload from a
    resolved user it either answers 400 with the missing keys or stores the
    record with the payload values as they are (the date is not parsed),
    break_minutes and overtime_hours being 0 when the payload has none. *)
Theorem create_correction_checks_presence_only (h : headers)
    (body : gmap string json) (now : clock) (f f' : file) (data : Dataset)
    (user : User) :
  load_data f = (f', Ok data) ->
  require_user h data = inr user ->
  let missing :=
    List.filter (fun k => negb (truthy (field body k)))
      ["date"; "clock_in"; "clock_out"; "reason"] in
  (missing <> [] /\
   api_create_correction h (Parsed (JDict body)) now f
   = (f', Ok (Json 400 (MissingFields missing))))
  \/ (missing = [] /\
      exists c,
        api_create_correction h (Parsed (JDict body)) now f
        = (Some (Document (add_correction data c)),
           Ok (Json 200 (OneItem (Correction c))))
        /\ ac_date c = field body "date"
        /\ ac_clock_in c = field body "clock_in"
        /\ ac_clock_out c = field body "clock_out"
        /\ ac_reason c = field body "reason"
        /\ ac_break_minutes c
           = match body !! "break_minutes" with
             | Some v => v
             | None => JInt 0
             end
        /\ ac_overtime_hours c
           = match body !! "overtime_hours" with
             | Some v => v
             | None => JInt 0
             end
        /\ ac_user_id c = u_id user
        /\ ac_status c = JStr "pending"
        /\ ac_id c = generate_id "ac" (stamp now)).
Proof.
  intros Hload Huser missing.
  unfold api_create_correction, bind, lift, ret, read_json.
  rewrite Hload, Huser, missing_fields_dict. fold missing.
  destruct missing as [| k rest] eqn:Hm; cbn [negb is_empty].
  - right. split; [reflexivity |].
    assert (Hall : forall k, In k ["date"; "clock_in"; "clock_out"; "reason"] ->
                             exists v, body !! k = Some v /\ field body k = v).
    { intros k Hk. destruct (truthy (field body k)) eqn:Ht.
      - unfold field in *. destruct (body !! k); [eauto | discriminate].
      - assert (Hin : In k missing)
          by (apply filter_In; now rewrite Ht).
        now rewrite Hm in Hin. }
    destruct (Hall "date") as (v1 & H1 & F1); [simpl; tauto |].
    destruct (Hall "clock_in") as (v2 & H2 & F2); [simpl; tauto |].
    destruct (Hall "clock_out") as (v3 & H3 & F3); [simpl; tauto |].
    destruct (Hall "reason") as (v4 & H4 & F4); [simpl; tauto |].
    unfold py_getitem, py_get, save_data, write_text.
    rewrite H1, H2, H3, H4. eexists. split; [reflexivity |].
    simpl. rewrite F1, F2, F3, F4. repeat split.
  - left. split; [discriminate | reflexivity].
Qed.

(** A correction dated "tomorrow" is stored. *)
Lemma create_correction_checks_presence_only_witness :
  exists c,
    api_create_correction (as_user "e001")
      (Parsed (JDict (correction_body "tomorrow"))) demo_clock demo_file
    = (Some (Document (add_correction DEMO c)),
       Ok (Json 200 (OneItem (Correction c))))
    /\ ac_date c = JStr "tomorrow"
    /\ ac_break_minutes c = JInt 0.
Proof.
  destruct (create_correction_checks_presence_only (as_user "e001")
              (correction_body "tomorrow") demo_clock
              demo_file demo_file DEMO alice)
    as [[Hne _] | [_ (c & Hrun & Hdate & _ & _ & _ & Hbreak & _)]];
    try (vm_compute; reflexivity).
  - exfalso. apply Hne. vm_compute. reflexivity.
  - exists c. repeat split; assumption.
Defined.

(** ** Creating, then reading *)

(** A listing of a bucket by a resolved user contains every record of the
    bucket that the user owns, whatever the role and the scope. *)
Lemma listing_contains_own (h : headers) (category : string) (q : query)
    (f f' : file) (data : Dataset) (user : User) (it : item) :
  load_data f = (f', Ok data) ->
  require_user h data = inr user ->
  In it (bucket_items category data) ->
  item_user_id it = u_id user ->
  exists items,
    api_list_requests h category q f = (f', Ok (Json 200 (Items items)))
    /\ In it items.
Proof.
  intros Hload Huser Hin Hown.
  assert (Hmine : mine user it = true) by now apply mine_spec.
  unfold api_list_requests, bind, lift, ret. rewrite Hload, Huser.
  destruct (String.eqb (u_role user) "admin") eqn:Ha.
  { eexists. split; [reflexivity | exact Hin]. }
  destruct (String.eqb (u_role user) "manager") eqn:Hm.
  - destruct (String.eqb (query_get q "scope" "mine") "team").
    + apply String.eqb_eq in Hm.
      rewrite (filter_r_total _
                 (fun r =>
                    match user_lookup data !! item_user_id r with
                    | Some o => manager_is (u_manager_id o) user
                    | None => false
                    end || mine user r))
        by (intros r _; now rewrite in_team_manager).
      eexists. split; [reflexivity |].
      apply filter_In. split; [exact Hin |].
      now rewrite Hmine, orb_true_r.
    + eexists. split; [reflexivity |]. now apply filter_In.
  - eexists. split; [reflexivity |]. now apply filter_In.
Qed.

(** The record that a creation answers with is the record a later listing
    of that bucket by the same caller returns, field for field, whatever
    scope is asked; the listing leaves the file as the creation wrote it. *)
Theorem created_record_is_listed (h : headers) (raw : raw_body)
    (now : clock) (q : query) (category : string) (f f1 : file) (it : item) :
  (category = "leave"
   /\ api_create_leave h raw now f = (f1, Ok (Json 200 (OneItem it))))
  \/ (category = "correction"
      /\ api_create_correction h raw now f
         = (f1, Ok (Json 200 (OneItem it)))) ->
  exists items,
    api_list_requests h category q f1 = (f1, Ok (Json 200 (Items items)))
    /\ In it items.
Proof.
  intros [[-> Hrun] | [-> Hrun]].
  - apply create_leave_inv in Hrun
      as (body & f0 & data & user & sd & ed & r & _ & _ & Huser & -> & ->
          & _ & _ & _ & _ & _ & _ & _ & Hown & _).
    apply (listing_contains_own h "leave" q _ _ (add_leave data r) user).
    + reflexivity.
    + now rewrite (require_user_users h (add_leave data r) data).
    + unfold bucket_items. simpl. rewrite map_app.
      apply in_or_app. right. now left.
    + exact Hown.
  - apply create_correction_inv in Hrun
      as (f0 & data & user & c & _ & Huser & -> & -> & Hown).
    apply (listing_contains_own h "correction" q _ _
             (add_correction data c) user).
    + reflexivity.
    + now rewrite (require_user_users h (add_correction data c) data).
    + unfold bucket_items. simpl. rewrite map_app.
      apply in_or_app. right. now left.
    + exact Hown.
Qed.

(** Alice creates a leave request and lists her requests. *)
Lemma created_record_is_listed_witness :
  exists f1 it items,
    api_create_leave (as_user "e001")
      (Parsed (JDict (leave_body "2025-03-01" "2025-03-10")))
      demo_clock demo_file
    = (f1, Ok (Json 200 (OneItem it)))
    /\ api_list_requests (as_user "e001") "leave" scope_team f1
       = (f1, Ok (Json 200 (Items items)))
    /\ In it items.
Proof.
  assert (Hrun : exists f1 it,
    api_create_leave (as_user "e001")
      (Parsed (JDict (leave_body "2025-03-01" "2025-03-10")))
      demo_clock demo_file
    = (f1, Ok (Json 200 (OneItem it))))
    by (eexists; eexists; vm_compute; reflexivity).
  destruct Hrun as (f1 & it & Hrun).
  destruct (created_record_is_listed (as_user "e001") _ demo_clock
              scope_team "leave" demo_file f1 it
              (or_introl (conj eq_refl Hrun)))
    as (items & Hlist & Hin).
  exists f1, it, items. auto.
Defined.

(** ** Record dates that do not parse *)

Lemma filter_r_raises {A : Type} (p : A -> result bool) (l : list A) (x : A) :
  In x l -> (exists e, p x = Raise e) -> exists e, filter_r p l = Raise e.
Proof.
  intros Hin (e & He).
  destruct (filter_r p l) as [r |] eqn:Hr; [| eauto].
  exfalso. revert r Hr. induction l as [| a l IH]; simpl; [contradiction |].
  intros r. destruct Hin as [-> | Hin].
  - now rewrite He.
  - destruct (p a); [| discriminate].
    destruct (filter_r p l) as [r' |]; [| discriminate].
    intros _. now apply (IH Hin r').
Qed.

(** The export parses the dates of every record that passes the department
    and employee filters, with or without a date window: one stored record
    whose date, an ASCII text or a value that is not a string, does not
    parse makes every such export end in the 500 response. *)
Theorem export_fails_on_unparseable_record (h : headers) (q : query)
    (f f' : file) (data : Dataset) (user : User)
    (start_date end_date : option Date.date) (it : item) :
  load_data f = (f', Ok data) ->
  require_user h data = inr user ->
  u_role user = "manager" \/ u_role user = "admin" ->
  parse_filter (query_get q "start" "") = Ok start_date ->
  parse_filter (query_get q "end" "") = Ok end_date ->
  In it (all_items data) ->
  dept_emp_ok (user_lookup data) (query_get q "department" "")
    (query_get q "employee" "") it = true ->
  ascii_value (item_start it) = true ->
  (exists e, parse_date (item_start it) = Raise e) ->
  dispatch (api_reports_export h q) f = (f', internal_error).
Proof.
  intros Hload Huser Hrole Hstart Hend Hin Hok _ (e & He).
  unfold dispatch, api_reports_export, bind, lift, ret.
  rewrite Hload, Huser, (guard_role_allowed user Hrole), Hstart, Hend.
  unfold export_items.
  set (keep := match_ (user_lookup data) (query_get q "department" "")
                 (query_get q "employee" "") start_date end_date).
  assert (Hraise : exists e', keep it = Raise e').
  { exists e. unfold keep, match_. now rewrite Hok, He. }
  unfold all_items in Hin. apply in_app_or in Hin as [Hin | Hin].
  - destruct (filter_r_raises keep _ it Hin Hraise) as (e' & ->).
    reflexivity.
  - destruct (filter_r keep (map Leave (leave_requests data))); [| reflexivity].
    destruct (filter_r_raises keep _ it Hin Hraise) as (e' & ->).
    reflexivity.
Qed.

(** The sample dataset with the correction dated "tomorrow": the unfiltered
    export of the admin. *)
Lemma export_fails_on_unparseable_record_witness :
  dispatch (api_reports_export (as_user "a001") ∅) bad_date_file
  = (bad_date_file, internal_error).
Proof.
  apply (export_fails_on_unparseable_record (as_user "a001") ∅
           bad_date_file bad_date_file (add_correction DEMO ac3) ito
           None None (Correction ac3));
    try (vm_compute; reflexivity).
  - right. reflexivity.
  - unfold all_items. apply in_or_app. right. simpl. tauto.
  - exists ValueError. reflexivity.
Defined.

(** ** The report filters *)

(** The department and employee tests: the department filter compares the
    department of the owner as a user, not the one copied into the record,
    and lets a record pass when its owner is no known user; an empty
    filter constrains nothing. *)
Theorem dept_emp_ok_spec (users : gmap string User)
    (dept_filter emp_filter : string) (it : item) :
  dept_emp_ok users dept_filter emp_filter it = true <->
  (dept_filter = ""
   \/ users !! item_user_id it = None
   \/ exists o, users !! item_user_id it = Some o
                /\ u_department o = dept_filter)
  /\ (emp_filter = "" \/ item_user_id it = emp_filter).
Proof.
  unfold dept_emp_ok, nonempty.
  destruct (String.eqb_spec dept_filter "") as [-> | Hd];
    destruct (String.eqb_spec emp_filter "") as [-> | He];
    destruct (users !! item_user_id it) as [o |] eqn:Ho; simpl;
    try (destruct (String.eqb_spec (u_department o) dept_filter) as [Hdo | Hdo];
         simpl);
    try (destruct (String.eqb_spec (item_user_id it) emp_filter) as [Hi | Hi];
         simpl);
    split; try discriminate; try tauto; try (intros _; split; eauto);
    try (intros [[? | [? | (o' & [= <-] & ?)]] [? | ?]]; congruence).
Qed.

(** [match_filters] with any of the two dates absent: an absent date
    constrains nothing and the record date it would be compared with is not
    even parsed; a present start date needs item start >= start, a present
    end date needs item end <= end. *)
Theorem match_filters_spec (users : gmap string User)
    (dept_filter emp_filter : string) (start_date end_date : option Date.date)
    (it : item) :
  match_filters users dept_filter emp_filter start_date end_date it = Ok true
  <->
  dept_emp_ok users dept_filter emp_filter it = true
  /\ (forall sd, start_date = Some sd ->
        exists s, parse_date (item_start it) = Ok s /\ Date.leb sd s = true)
  /\ (forall ed, end_date = Some ed ->
        exists e, parse_date (item_end it) = Ok e /\ Date.leb e ed = true).
Proof.
  unfold match_filters, Date.leb.
  destruct (dept_emp_ok users dept_filter emp_filter it); simpl;
    [| split; [discriminate | intros [? _]; discriminate]].
  assert (Hend :
    match end_date with
    | Some ed =>
        match parse_date (item_end it) with
        | Ok d => Ok (negb (Date.ltb ed d))
        | Raise x => Raise x
        end
    | None => Ok true
    end = Ok true
    <-> forall ed, end_date = Some ed ->
          exists e, parse_date (item_end it) = Ok e
                    /\ negb (Date.ltb ed e) = true).
  { destruct end_date as [ed |].
    - destruct (parse_date (item_end it)) as [d |]; split.
      + intros [= H] ? [= <-]. eauto.
      + intros H. destruct (H ed eq_refl) as (? & [= <-] & ->). reflexivity.
      + discriminate.
      + intros H. destruct (H ed eq_refl) as (? & [=] & _).
    - split; [intros _ ? [=] | reflexivity]. }
  destruct start_date as [sd |].
  - destruct (parse_date (item_start it)) as [d |].
    + destruct (Date.ltb d sd) eqn:Hlt; simpl.
      * split; [discriminate |].
        intros (_ & H & _). destruct (H sd eq_refl) as (? & [= <-] & Hx).
        rewrite Hlt in Hx. discriminate.
      * rewrite Hend. split.
        -- intros H. repeat split; [| exact H].
           intros ? [= <-]. exists d. now rewrite Hlt.
        -- now intros (_ & _ & H).
    + split; [discriminate |].
      intros (_ & H & _). destruct (H sd eq_refl) as (? & [=] & _).
  - rewrite Hend. split.
    + intros H. repeat split; [intros ? [=] | exact H].
    + now intros (_ & _ & H).
Qed.

(** [match] of the export with any of the two dates absent: both record
    dates must parse in every case; a present start date needs item end >=
    start, a present end date needs item start <= end. *)
Theorem match_spec (users : gmap string User)
    (dept_filter emp_filter : string) (start_date end_date : option Date.date)
    (it : item) :
  match_ users dept_filter emp_filter start_date end_date it = Ok true
  <->
  dept_emp_ok users dept_filter emp_filter it = true
  /\ exists s e,
       span it s e
       /\ (forall sd, start_date = Some sd -> Date.leb sd e = true)
       /\ (forall ed, end_date = Some ed -> Date.leb s ed = true).
Proof.
  unfold match_, Date.leb, span.
  destruct (dept_emp_ok users dept_filter emp_filter it); simpl;
    [| split; [discriminate | intros [? _]; discriminate]].
  destruct (parse_date (item_start it)) as [s |] eqn:Hs;
    [| split; [discriminate | intros (_ & ? & ? & [[=] _] & _)]].
  destruct (parse_date (item_end it)) as [e |] eqn:He;
    [| split; [discriminate | intros (_ & ? & ? & [_ [=]] & _)]].
  split.
  - intros H. split; [reflexivity |]. exists s, e. split; [auto |].
    destruct start_date as [sd |], end_date as [ed |];
      try destruct (Date.ltb e sd) eqn:H1; try discriminate H;
      try destruct (Date.ltb ed s) eqn:H2; try discriminate H;
      split; intros ? [= <-]; now rewrite ?H1, ?H2.
  - intros (_ & s' & e' & [[= <-] [= <-]] & H1 & H2).
    destruct start_date as [sd |].
    + specialize (H1 sd eq_refl). apply negb_true_iff in H1. rewrite H1.
      destruct end_date as [ed |]; [| reflexivity].
      specialize (H2 ed eq_refl). apply negb_true_iff in H2. now rewrite H2.
    + destruct end_date as [ed |]; [| reflexivity].
      specialize (H2 ed eq_refl). apply negb_true_iff in H2. now rewrite H2.
Qed.

(** ** The reports at the edges *)

(** Without a date window the summary report parses no record date: it
    answers 200 on every dataset, counting the approved records that pass
    the department and employee filters. *)
Theorem summary_without_window (h : headers) (q : query) (f f' : file)
    (data : Dataset) (user : User) :
  load_data f = (f', Ok data) ->
  require_user h data = inr user ->
  u_role user = "manager" \/ u_role user = "admin" ->
  query_get q "start" "" = "" ->
  query_get q "end" "" = "" ->
  let keep it :=
    eq_str (item_status it) "approved"
    && dept_emp_ok (user_lookup data) (query_get q "department" "")
         (query_get q "employee" "") it in
  api_reports h q f
  = (f', Ok (Json 200 (Report {|
       leave_totals :=
         map (report_row_of (user_lookup data))
           (leave_summary
              (List.filter keep (map Leave (leave_requests data))));
       correction_count :=
         Z.of_nat (length (List.filter keep
                             (map Correction (attendance_corrections data))));
       filters := {| f_start := ""; f_end := "";
                     f_department := query_get q "department" "";
                     f_employee := query_get q "employee" "" |} |}))).
Proof.
  intros Hload Huser Hrole Hstart Hend keep.
  unfold api_reports, bind, lift, ret.
  rewrite Hload, Huser, (guard_role_allowed user Hrole), Hstart, Hend.
  unfold parse_filter, nonempty. simpl.
  unfold report_leave_items, report_corr_items.
  assert (Hkeep : forall it,
            approved_and
              (match_filters (user_lookup data) (query_get q "department" "")
                 (query_get q "employee" "") None None) it
            = Ok (keep it)).
  { intros it. unfold approved_and, match_filters, keep.
    destruct (eq_str (item_status it) "approved"); [| reflexivity].
    now destruct (dept_emp_ok _ _ _ it). }
  rewrite !(filter_r_total _ keep) by (intros it _; apply Hkeep).
  reflexivity.
Qed.

(** The dataset with the correction dated "tomorrow": the summary without
    window counts it. *)
Lemma summary_without_window_witness :
  api_reports (as_user "a001") ∅ bad_date_file
  = (bad_date_file,
     Ok (Json 200 (Report {|
       leave_totals := [
         mkRow "e001" "Alice Tanaka" "Sales" 10 10;
         mkRow "e002" "Bob Suzuki" "Engineering" 32 0 ];
       correction_count := 2;
       filters := mkFilters "" "" "" "" |}))).
Proof.
  rewrite (summary_without_window (as_user "a001") ∅ bad_date_file
             bad_date_file (add_correction DEMO ac3) ito);
    try (vm_compute; reflexivity).
  right. reflexivity.
Defined.

(** A start or end parameter, of ASCII characters, that is not empty and
    not a date is not refused as a bad request: both reports end in the 500
    response. *)
Theorem reports_reject_bad_window (h : headers) (q : query) (f f' : file)
    (data : Dataset) (user : User) :
  load_data f = (f', Ok data) ->
  require_user h data = inr user ->
  u_role user = "manager" \/ u_role user = "admin" ->
  (ascii_only (query_get q "start" "") = true
   /\ exists e, parse_filter (query_get q "start" "") = Raise e)
  \/ (ascii_only (query_get q "end" "") = true
      /\ exists e, parse_filter (query_get q "end" "") = Raise e) ->
  dispatch (api_reports h q) f = (f', internal_error)
  /\ dispatch (api_reports_export h q) f = (f', internal_error).
Proof.
  intros Hload Huser Hrole Hbad.
  unfold dispatch, api_reports, api_reports_export, bind, lift, ret.
  rewrite Hload, Huser, (guard_role_allowed user Hrole).
  destruct (parse_filter (query_get q "start" "")) as [sd |];
    [| split; reflexivity].
  destruct (parse_filter (query_get q "end" "")) as [ed |];
    [| split; reflexivity].
  destruct Hbad as [(_ & e & [=]) | (_ & e & [=])].
Qed.

(** The export of March with the 31st of February as end. *)
Lemma reports_reject_bad_window_witness :
  dispatch (api_reports (as_user "a001")
              (<["start" := ("2025-02-01", [])]>
                 {[ "end" := ("2025-02-31", []) ]})) demo_file
  = (demo_file, internal_error)
  /\ dispatch (api_reports_export (as_user "a001")
                 (<["start" := ("2025-02-01", [])]>
                    {[ "end" := ("2025-02-31", []) ]})) demo_file
     = (demo_file, internal_error).
Proof.
  apply (reports_reject_bad_window (as_user "a001")
           (<["start" := ("2025-02-01", [])]>
              {[ "end" := ("2025-02-31", []) ]})
           demo_file demo_file DEMO ito);
    try (vm_compute; reflexivity).
  - right. reflexivity.
  - right. split; [reflexivity | exists ValueError; vm_compute; reflexivity].
Defined.

(** *** The totals cover every record once *)

Lemma summary_add_sum (uid : string) (d : Z) (acc : list (string * Z)) :
  fold_right Z.add 0 (map snd (summary_add uid d acc))
  = fold_right Z.add 0 (map snd acc) + d.
Proof.
  induction acc as [| [k v] rest IH]; simpl; [lia |].
  destruct (String.eqb k uid); simpl; lia.
Qed.

Lemma leave_summary_cover (items : list item) (acc : list (string * Z)) :
  let res :=
    foldl (fun acc r => summary_add (item_user_id r) (item_days r) acc)
      acc items in
  (forall uid, In uid (map fst res)
               <-> In uid (map fst acc)
                   \/ exists it, In it items /\ item_user_id it = uid)
  /\ fold_right Z.add 0 (map snd res)
     = fold_right Z.add 0 (map snd acc)
       + fold_right Z.add 0 (map item_days items).
Proof.
  revert acc. induction items as [| r items IH]; intros acc; simpl.
  - split; [| lia]. intros uid. split; [auto |].
    intros [H | (it & [] & _)]; exact H.
  - destruct (IH (summary_add (item_user_id r) (item_days r) acc))
      as [IHin IHsum].
    destruct (keys_summary_add (item_user_id r) (item_days r) acc)
      as [Hkeys _].
    split.
    + intros uid. rewrite IHin, Hkeys. split.
      * intros [[-> | H] | (it & Hin & Hit)]; eauto 6.
      * intros [H | (it & [<- | Hin] & Hit)]; eauto 6.
    + rewrite IHsum, summary_add_sum. lia.
Qed.

Lemma report_rows_taken (users : gmap string User)
    (summary : list (string * Z)) :
  map row_leave_days_taken (map (report_row_of users) summary)
  = map snd summary.
Proof.
  induction summary as [| [uid v] rest IH]; simpl; [reflexivity |].
  now rewrite IH.
Qed.

(** The rows of the summary report: a user has a row exactly when one of
    the aggregated leave records is theirs, and the days taken of all rows
    add up to the days of all aggregated records. *)
Theorem leave_totals_cover_all_days (users : gmap string User)
    (leave_items : list item) :
  let rows := map (report_row_of users) (leave_summary leave_items) in
  (forall uid,
     In uid (map row_employee_id rows)
     <-> exists it, In it leave_items /\ item_user_id it = uid)
  /\ fold_right Z.add 0 (map row_leave_days_taken rows)
     = fold_right Z.add 0 (map item_days leave_items).
Proof.
  destruct (leave_summary_cover leave_items []) as [Hin Hsum].
  fold (leave_summary leave_items) in Hin, Hsum. cbv zeta. split.
  - intros uid. rewrite report_rows_ids, Hin. simpl. tauto.
  - rewrite report_rows_taken, Hsum. simpl. lia.
Qed.


(** ** What the handlers do to the data file *)

(** Case analysis on every test of a handler run in the goal. *)
Ltac all_cases :=
  repeat match goal with
    | |- context [match ?x with _ => _ end] => destruct x; simpl
    end.

(** The handlers of GET requests never save: the file they leave is the
    file that [load_data] leaves, so a stored document is never modified
    by a listing, a report, an export or the metadata. *)
Theorem reading_never_writes (h : headers) (category : string) (q : query)
    (f : file) :
  fst (api_list_requests h category q f) = fst (load_data f)
  /\ fst (api_reports h q f) = fst (load_data f)
  /\ fst (api_reports_export h q f) = fst (load_data f)
  /\ fst (api_meta f) = fst (load_data f)
  /\ (forall d, f = Some (Document d) -> fst (load_data f) = f).
Proof.
  repeat split.
  - unfold api_list_requests, bind, lift, ret.
    destruct (load_data f) as [f0 [d |]]; simpl; [| reflexivity].
    destruct (require_user h d); simpl; [reflexivity |].
    now all_cases.
  - unfold api_reports, bind, lift, ret.
    destruct (load_data f) as [f0 [d |]]; simpl; [| reflexivity].
    destruct (require_user h d); simpl; [reflexivity |].
    destruct (guard_role _ _); simpl; [reflexivity |].
    destruct (parse_filter _); simpl; [| reflexivity].
    destruct (parse_filter _); simpl; [| reflexivity].
    destruct (report_leave_items _ _ _ _ _); simpl; [| reflexivity].
    now destruct (report_corr_items _ _ _ _ _).
  - unfold api_reports_export, bind, lift, ret.
    destruct (load_data f) as [f0 [d |]]; simpl; [| reflexivity].
    destruct (require_user h d); simpl; [reflexivity |].
    destruct (guard_role _ _); simpl; [reflexivity |].
    destruct (parse_filter _); simpl; [| reflexivity].
    destruct (parse_filter _); simpl; [| reflexivity].
    now destruct (export_items _ _ _ _ _).
  - unfold api_meta, bind, ret.
    now destruct (load_data f) as [f0 [d |]].
  - now intros d ->.
Qed.

Lemma extends_refl (d : Dataset) : extends d d.
Proof.
  repeat split; exists []; now rewrite app_nil_r.
Qed.

Lemma extends_add_leave (d : Dataset) (r : LeaveRequest) :
  extends d (add_leave d r).
Proof.
  repeat split; simpl.
  - eexists. now rewrite map_app.
  - exists []. now rewrite app_nil_r.
Qed.

Lemma extends_add_correction (d : Dataset) (c : AttendanceCorrection) :
  extends d (add_correction d c).
Proof.
  repeat split; simpl.
  - exists []. now rewrite app_nil_r.
  - eexists. now rewrite map_app.
Qed.

Lemma extends_decide_in (category : string) (tid action comment : json)
    (by_ : string) (d : Dataset) :
  extends d (decide_in category tid action comment by_ d).
Proof.
  unfold decide_in.
  destruct (String.eqb category "leave"); repeat split; simpl;
    exists []; rewrite app_nil_r; try reflexivity;
    now apply update_first_keeps.
Qed.

Lemma extends_settings (d d' : Dataset) :
  users d' = users d ->
  leave_requests d' = leave_requests d ->
  attendance_corrections d' = attendance_corrections d ->
  extends d d'.
Proof.
  intros Hu Hl Hc. unfold extends. rewrite Hu, Hl, Hc.
  repeat split; exists []; now rewrite app_nil_r.
Qed.

Section Posting.

Variable repr : json -> string.
Variable keys : gmap string json -> list string.

(** Whenever a POST handler returns a response, the file it leaves is the
    file it found or a document that extends the loaded dataset: the users
    are unchanged, and
    every stored record is still there, at its place, with its id and its
    owner; records are only ever appended.  Runs that raise are left out:
    [save_data] raises on a dataset that UTF-8 cannot encode, after the
    file is emptied, and [write_text] here does not fail. *)
Theorem posting_extends_dataset (h : headers) (raw : raw_body) (now : clock)
    (f f0 f' : file) (data : Dataset) (resp : response) :
  load_data f = (f0, Ok data) ->
  api_create_leave h raw now f = (f', Ok resp)
  \/ api_create_correction h raw now f = (f', Ok resp)
  \/ api_approve h raw f = (f', Ok resp)
  \/ api_settings_update repr keys h raw f = (f', Ok resp) ->
  f' = f \/ exists d', f' = Some (Document d') /\ extends data d'.
Proof.
  intros Hload H.
  destruct (load_data_ok _ _ _ Hload) as [-> _].
  assert (Hsame : exists d', Some (Document data) = Some (Document d')
                             /\ extends data d')
    by (exists data; split; [reflexivity | apply extends_refl]).
  destruct H as [H | [H | [H | H]]].
  - unfold api_create_leave, bind, lift, ret, save_data, write_text in H.
    repeat (rewrite Hload in H || next_case H); injection H as <- _; auto.
    right. eexists. split; [reflexivity | apply extends_add_leave].
  - unfold api_create_correction, bind, lift, ret, save_data, write_text in H.
    repeat (rewrite Hload in H || next_case H); injection H as <- _; auto.
    right. eexists. split; [reflexivity | apply extends_add_correction].
  - unfold api_approve, bind, lift, ret, save_data, write_text in H.
    repeat (rewrite Hload in H || next_case H); injection H as <- _; auto.
    right. eexists. split; [reflexivity | apply extends_decide_in].
  - unfold api_settings_update, bind, lift, ret, save_data, write_text in H.
    repeat (rewrite Hload in H || next_case H); injection H as <- _; auto;
      repeat match goal with
        | E : (if ?c then _ else _) _ = (_, _) |- _ =>
            destruct c;
            [ match type of E with
              | context [str_items ?a ?b ?c] =>
                  destruct (str_items a b c)
              end
            | ];
            first [discriminate E | injection E as <- <-]
        end;
      subst; try discriminate; auto;
      right; eexists; (split; [reflexivity |]);
      now apply extends_settings.
Qed.

End Posting.

(** Mika rejects lv-1 on the sample dataset. *)
Lemma posting_extends_dataset_witness :
  exists resp d',
    api_approve (as_user "m001")
      (Parsed (JDict (approval_body "leave" "lv-1" "rejected"))) demo_file
    = (Some (Document d'), Ok resp)
    /\ d' <> DEMO
    /\ extends DEMO d'.
Proof.
  assert (Hrun : exists resp d',
            api_approve (as_user "m001")
              (Parsed (JDict (approval_body "leave" "lv-1" "rejected")))
              demo_file
            = (Some (Document d'), Ok resp)
            /\ d' <> DEMO).
  { eexists. eexists. split; [vm_compute; reflexivity |].
    intros Heq. apply (f_equal leave_requests) in Heq.
    vm_compute in Heq. discriminate Heq. }
  destruct Hrun as (resp & d' & Hrun & Hnew).
  exists resp, d'. split; [exact Hrun | split; [exact Hnew |]].
  destruct (posting_extends_dataset (fun _ => "") (fun _ => [])
              (as_user "m001")
              (Parsed (JDict (approval_body "leave" "lv-1" "rejected")))
              demo_clock demo_file demo_file (Some (Document d')) DEMO resp)
    as [Hsame | (d'' & [= <-] & Hext)].
  - reflexivity.
  - right. right. left. exact Hrun.
  - exfalso. apply Hnew. now injection Hsame.
  - exact Hext.
Defined.

(** A missing data file, an empty one, and one that holds a web page. *)
Lemma load_data_recovers_witness :
  (load_data None = (Some (Document SEED), Ok SEED)
   /\ load_data (fst (load_data None)) = (Some (Document SEED), Ok SEED))
  /\ (load_data empty_file = (Some (Document SEED), Ok SEED)
      /\ load_data (fst (load_data empty_file))
         = (Some (Document SEED), Ok SEED))
  /\ (load_data html_file = (Some (Document SEED), Ok SEED)
      /\ load_data (fst (load_data html_file))
         = (Some (Document SEED), Ok SEED)).
Proof.
  split; [| split].
  - apply (load_data_recovers None). left. reflexivity.
  - apply (load_data_recovers empty_file). right.
    exists []. repeat split.
  - apply (load_data_recovers html_file). right.
    eexists. repeat split.
Defined.

Section Payloads.

Variable repr : json -> string.
Variable keys : gmap string json -> list string.

(** A body that is not JSON, or is JSON but not an object, is not refused
    as a bad request: each of the four POST handlers ends in the 500
    response, for an admin as for anybody who passes its checks. *)
Theorem payload_must_be_an_object (h : headers) (raw : raw_body)
    (now : clock) (f f' : file) (data : Dataset) (user : User) :
  load_data f = (f', Ok data) ->
  require_user h data = inr user ->
  u_role user = "admin" ->
  raw = Malformed
  \/ (exists v, raw = Parsed v /\ forall m, v <> JDict m) ->
  snd (dispatch (api_create_leave h raw now) f) = internal_error
  /\ snd (dispatch (api_create_correction h raw now) f) = internal_error
  /\ snd (dispatch (api_approve h raw) f) = internal_error
  /\ snd (dispatch (api_settings_update repr keys h raw) f) = internal_error.
Proof.
  intros Hload Huser Hrole [-> | (v & -> & Hv)].
  - repeat split.
  - assert (Hget : forall k d, py_get v k d = Raise AttributeError).
    { intros k d. destruct v; try reflexivity. now destruct (Hv fields). }
    assert (Hg : guard_role user ["admin"] = None)
      by (unfold guard_role; now rewrite Hrole).
    unfold dispatch, api_create_leave, api_create_correction, api_approve,
      api_settings_update, missing_fields, bind, lift, ret, read_json.
    cbn [filter_r]. rewrite !Hget, Hload, Huser, Hg. repeat split.
Qed.

End Payloads.

(** The admin sends a JSON list. *)
Lemma payload_must_be_an_object_witness :
  snd (dispatch (api_create_leave (as_user "a001")
                   (Parsed (JList [JStr "2025-03-01"])) demo_clock) demo_file)
  = internal_error
  /\ snd (dispatch (api_create_correction (as_user "a001")
                      (Parsed (JList [JStr "2025-03-01"])) demo_clock)
            demo_file)
     = internal_error
  /\ snd (dispatch (api_approve (as_user "a001")
                      (Parsed (JList [JStr "2025-03-01"]))) demo_file)
     = internal_error
  /\ snd (dispatch (api_settings_update (fun _ => "") (fun _ => [])
                      (as_user "a001") (Parsed (JList [JStr "2025-03-01"])))
            demo_file)
     = internal_error.
Proof.
  apply (payload_must_be_an_object (fun _ => "") (fun _ => [])
           (as_user "a001") (Parsed (JList [JStr "2025-03-01"])) demo_clock
           demo_file demo_file DEMO ito);
    try (vm_compute; reflexivity).
  right. eexists. split; [reflexivity | discriminate].
Defined.

(** ** Identifiers and dates *)

Lemma append_inj (p a b : string) : p +:+ a = p +:+ b -> a = b.
Proof.
  induction p as [| c p IH]; simpl; [auto |]. intros [= H]. auto.
Qed.

(** For one prefix two ids are equal exactly when the two clock readings
    are equal, so two creations within one reading get the same id; the id
    of a leave request is never the id of a correction. *)
Theorem generate_id_distinct (prefix a b : string) :
  (generate_id prefix a = generate_id prefix b <-> a = b)
  /\ generate_id "lv" a <> generate_id "ac" b.
Proof.
  split; [split |].
  - unfold generate_id. intros H. apply append_inj in H.
    now apply (append_inj "-") in H.
  - now intros ->.
  - discriminate.
Qed.

Lemma ltb_leb (a b : Date.date) :
  Date.ltb a b = false -> Date.leb b a = true.
Proof. unfold Date.leb. now intros ->. Qed.

(** On parsed dates the comparison of the dates and the sign of the day
    difference agree: a < b exactly when (a - b).days < 0, and the two
    dates are equal exactly when the difference is 0. *)
Theorem date_order_is_day_order (s e : json) (a b : Date.date) :
  parse_date s = Ok a ->
  parse_date e = Ok b ->
  (Date.ltb a b = true <-> Date.diff_days a b < 0)
  /\ (a = b <-> Date.diff_days a b = 0).
Proof.
  intros Ha%parse_date_valid Hb%parse_date_valid.
  unfold Date.diff_days.
  assert (Hlt : forall x y,
            Date.valid (Date.year x) (Date.month x) (Date.day x) = true ->
            Date.valid (Date.year y) (Date.month y) (Date.day y) = true ->
            Date.ltb x y = true -> Date.toordinal x < Date.toordinal y)
    by apply DateFacts.ltb_toordinal.
  assert (Htri : Date.ltb a b = true \/ a = b \/ Date.ltb b a = true).
  { destruct (Date.ltb a b) eqn:E; [now left | right].
    apply ltb_leb, DateFacts.leb_cases in E as [-> | E]; auto. }
  split; split.
  - intros H. specialize (Hlt a b Ha Hb H). lia.
  - intros H. destruct Htri as [H1 | [-> | H1]]; [exact H1 | lia |].
    specialize (Hlt b a Hb Ha H1). lia.
  - intros ->. lia.
  - intros H. destruct Htri as [H1 | [H1 | H1]]; [| exact H1 |].
    + specialize (Hlt a b Ha Hb H1). lia.
    + specialize (Hlt b a Hb Ha H1). lia.
Qed.

(** The last day of February and the first of March, 2024. *)
Lemma date_order_is_day_order_witness :
  (Date.ltb (Date.mkdate 2024 2 29) (Date.mkdate 2024 3 1) = true
   <-> Date.diff_days (Date.mkdate 2024 2 29) (Date.mkdate 2024 3 1) < 0)
  /\ (Date.mkdate 2024 2 29 = Date.mkdate 2024 3 1
      <-> Date.diff_days (Date.mkdate 2024 2 29) (Date.mkdate 2024 3 1) = 0).
Proof.
  apply (date_order_is_day_order (JStr "2024-02-29") (JStr "2024-3-1"));
    reflexivity.
Defined.

(** ** Listing: the other two branches *)

(** An admin gets the whole bucket whatever scope is asked, other users'
    records and records of unknown owners included; a manager who does not
    ask for scope=team gets the own records only. *)
Theorem listing_visibility (h : headers) (category : string) (q : query)
    (f f' : file) (data : Dataset) (user : User) (expected : list item) :
  load_data f = (f', Ok data) ->
  require_user h data = inr user ->
  (u_role user = "admin" /\ expected = bucket_items category data)
  \/ (u_role user = "manager"
      /\ query_get q "scope" "mine" <> "team"
      /\ expected = List.filter (mine user) (bucket_items category data)) ->
  api_list_requests h category q f = (f', Ok (Json 200 (Items expected))).
Proof.
  intros Hload Huser [[Hrole ->] | (Hrole & Hscope & ->)];
    unfold api_list_requests, bind, lift, ret;
    rewrite Hload, Huser, Hrole; simpl; [reflexivity |].
  apply String.eqb_neq in Hscope. now rewrite Hscope.
Qed.

(** The admin asks for scope=mine, Mika asks for nothing. *)
Lemma listing_visibility_witness :
  api_list_requests (as_user "a001") "correction"
    {[ "scope" := ("mine", []) ]} demo_file
  = (demo_file, Ok (Json 200 (Items [Correction ac1; Correction ac2])))
  /\ api_list_requests (as_user "m001") "leave" ∅ demo_file
     = (demo_file, Ok (Json 200 (Items [Leave lv3]))).
Proof.
  split.
  - apply (listing_visibility (as_user "a001") "correction"
             {[ "scope" := ("mine", []) ]} demo_file demo_file DEMO ito);
      try (vm_compute; reflexivity).
    left. split; reflexivity.
  - apply (listing_visibility (as_user "m001") "leave" ∅
             demo_file demo_file DEMO mika);
      try (vm_compute; reflexivity).
    right. repeat split. discriminate.
Defined.

(** ** Settings: what an update writes *)

Section SettingsUpdate.

Variable repr : json -> string.
Variable keys : gmap string json -> list string.

Lemma str_items_strings (l : list string) :
  str_items repr keys (JList (map JStr l)) = Ok (List.filter nonempty l).
Proof.
  unfold str_items, py_iter. f_equal.
  induction l as [| s l IH]; simpl; [reflexivity |].
  unfold nonempty at 1. destruct (negb (String.eqb s "")); simpl;
    now rewrite IH.
Qed.

(** An accepted settings update whose leave_types and holidays are lists of
    strings, null or absent: a key that is absent or null leaves its part
    of the configuration as it was, a list of strings replaces it with its
    non-empty entries, in order, and approval_routes is stored as sent,
    without any check; the response carries the dataset that is saved. *)
Theorem settings_update_applies (h : headers) (body : gmap string json)
    (f f' : file) (data : Dataset) (user : User)
    (new_types new_holidays : list string) :
  load_data f = (f', Ok data) ->
  require_user h data = inr user ->
  u_role user = "admin" ->
  (field body "leave_types" = JNull /\ new_types = leave_types data)
  \/ (exists l, field body "leave_types" = JList (map JStr l)
                /\ new_types = List.filter nonempty l) ->
  (field body "holidays" = JNull /\ new_holidays = holidays data)
  \/ (exists l, field body "holidays" = JList (map JStr l)
                /\ new_holidays = List.filter nonempty l) ->
  let data' := {|
    users := users data;
    leave_types := new_types;
    holidays := new_holidays;
    approval_routes :=
      if is_none (field body "approval_routes") then approval_routes data
      else field body "approval_routes";
    leave_requests := leave_requests data;
    attendance_corrections := attendance_corrections data |} in
  api_settings_update repr keys h (Parsed (JDict body)) f
  = (Some (Document data'), Ok (Json 200 (Settings data'))).
Proof.
  intros Hload Huser Hrole Ht Hh data'.
  assert (Hg : guard_role user ["admin"] = None)
    by (unfold guard_role; now rewrite Hrole).
  unfold api_settings_update, bind, lift, ret, read_json, py_get,
    save_data, write_text.
  rewrite Hload, Huser, Hg. fold (field body "leave_types").
  fold (field body "holidays"). fold (field body "approval_routes").
  subst data'. destruct data as [us lt hol ar lr acs]. simpl in *.
  destruct Ht as [[Ht ->] | (lt' & Ht & ->)],
           Hh as [[Hh ->] | (hol' & Hh & ->)];
    rewrite Ht, Hh; rewrite ?str_items_strings; simpl;
    now destruct (is_none (field body "approval_routes")).
Qed.

(** A settings update is all or nothing: when leave_types or holidays is
    present and cannot be iterated (a number, a boolean), the call ends in
    the 500 response and nothing is saved, also when the other keys are
    fine. *)
Theorem settings_update_all_or_nothing (h : headers)
    (body : gmap string json) (f f' : file) (data : Dataset) (user : User) :
  load_data f = (f', Ok data) ->
  require_user h data = inr user ->
  u_role user = "admin" ->
  (is_none (field body "leave_types") = false
   /\ exists e, str_items repr keys (field body "leave_types") = Raise e)
  \/ (is_none (field body "holidays") = false
      /\ exists e, str_items repr keys (field body "holidays") = Raise e) ->
  dispatch (api_settings_update repr keys h (Parsed (JDict body))) f
  = (f', internal_error).
Proof.
  intros Hload Huser Hrole Hbad.
  assert (Hg : guard_role user ["admin"] = None)
    by (unfold guard_role; now rewrite Hrole).
  unfold dispatch, api_settings_update, bind, lift, ret, read_json, py_get.
  rewrite Hload, Huser, Hg. fold (field body "leave_types").
  fold (field body "holidays"). fold (field body "approval_routes").
  destruct Hbad as [[Hn (e & He)] | [Hn (e & He)]].
  - now rewrite Hn, He.
  - destruct (is_none (field body "leave_types")); simpl.
    + now rewrite Hn, He.
    + destruct (str_items repr keys (field body "leave_types")); simpl;
        [| reflexivity].
      now rewrite Hn, He.
Qed.

End SettingsUpdate.

(** New leave types, holidays untouched, routes set to a string. *)
Lemma settings_update_applies_witness :
  api_settings_update (fun _ => "") (fun _ => []) (as_user "a001")
    (Parsed (JDict (<["leave_types" := JList [JStr "Paid"; JStr ""; JStr "Unpaid"]]>
                      {[ "approval_routes" := JStr "none" ]})))
    demo_file
  = (Some (Document {|
             users := users DEMO;
             leave_types := ["Paid"; "Unpaid"];
             holidays := holidays DEMO;
             approval_routes := JStr "none";
             leave_requests := leave_requests DEMO;
             attendance_corrections := attendance_corrections DEMO |}),
     Ok (Json 200 (Settings {|
             users := users DEMO;
             leave_types := ["Paid"; "Unpaid"];
             holidays := holidays DEMO;
             approval_routes := JStr "none";
             leave_requests := leave_requests DEMO;
             attendance_corrections := attendance_corrections DEMO |}))).
Proof.
  rewrite (settings_update_applies (fun _ => "") (fun _ => [])
             (as_user "a001")
             (<["leave_types" := JList [JStr "Paid"; JStr ""; JStr "Unpaid"]]>
                {[ "approval_routes" := JStr "none" ]})
             demo_file demo_file DEMO ito ["Paid"; "Unpaid"] (holidays DEMO)).
  - vm_compute. reflexivity.
  - reflexivity.
  - vm_compute. reflexivity.
  - reflexivity.
  - right. exists ["Paid"; ""; "Unpaid"]. split; vm_compute; reflexivity.
  - left. split; [vm_compute |]; reflexivity.
Defined.

(** Good leave types with holidays given as the number 5. *)
Lemma settings_update_all_or_nothing_witness :
  dispatch (api_settings_update (fun _ => "") (fun _ => []) (as_user "a001")
              (Parsed (JDict (<["leave_types" := JList [JStr "Paid"]]>
                                {[ "holidays" := JInt 5 ]}))))
    demo_file
  = (demo_file, internal_error).
Proof.
  apply (settings_update_all_or_nothing (fun _ => "") (fun _ => [])
           (as_user "a001")
           (<["leave_types" := JList [JStr "Paid"]]> {[ "holidays" := JInt 5 ]})
           demo_file demo_file DEMO ito);
    try (vm_compute; reflexivity).
  right. split; [vm_compute; reflexivity |].
  exists TypeError. vm_compute. reflexivity.
Defined.
